(** * tiny-spark: the wallet facade over the Breez SDK, embedded in Rocq

    The development follows the Go sources:
    - [config/config.go]  (package [config]):  [Config], [getEnv], [LoadConfig];
    - package [wallet]:  [NewWallet], [GetBalance], [GetTransactions], the
      receive and send operations, [GetPayment], [LnUrlPay],
      [GetTokenBalances], [createWorkingDir], [networkFromString];
    - [main.go]: the start-up sequence [LoadConfig] then [NewWallet] (module
      [main]) and, in module [main_go], [main] with its command switch, the
      commands it runs and the formatting helpers.

    The Breez SDK itself is not part of the repository.  Its request and
    response records are written down with the fields the wallet reads or
    writes, and every answer of the SDK is an oracle: a field of the record
    [BreezSdk] (a connected instance) or of the record [Host] (package-level
    functions, the file system).  What [godotenv.Load] finds in the file
    [.env] is an argument of [LoadConfig], beside the process environment.
    Every call that leaves packages config and wallet is logged in a
    trace, so that statements such as "execute is never invoked" are
    statements about that trace. *)

From Stdlib Require Import ZArith Lia DecimalString DecimalZ DecimalPos.
From stdpp Require Import gmap strings list fin_maps.

Local Open Scope Z_scope.

(* ===================================================================== *)
(** ** Go values: fixed-width integers, [big.Int], [error] interfaces    *)
(* ===================================================================== *)

Module Go.

(** [int64(x)]: conversion to a signed 64-bit integer keeps the low 64
    bits, read in two's complement. *)
Definition int64 (x : Z) : Z := (x + 2 ^ 63) mod 2 ^ 64 - 2 ^ 63.

(** [uint32(x)]: conversion to an unsigned 32-bit integer keeps the low
    32 bits. *)
Definition uint32 (x : Z) : Z := x mod 2 ^ 32.

(** [int] is 64 bits wide on the platforms the SDK ships a native library
    for (amd64, arm64). *)
Definition is_int (x : Z) : Prop := - 2 ^ 63 <= x < 2 ^ 63.
Definition is_int64 (x : Z) : Prop := - 2 ^ 63 <= x < 2 ^ 63.

(** A [*big.Int] is an unbounded integer.  [big.NewInt(v)] is exact. *)
Definition big_NewInt (v : Z) : Z := v.

(** The method [Int64] of [big.Int]: [v := int64(low64(x.abs)); if x.neg { v = -v }].
    Exact when [x] fits in an [int64]. *)
Definition big_Int64 (x : Z) : Z :=
  let v := int64 (Z.abs x mod 2 ^ 64) in
  if x <? 0 then int64 (- v) else v.

(** The method [String] of [big.Int]: the decimal text. *)
Definition big_String (x : Z) : string := NilZero.string_of_int (Z.to_int x).

End Go.

(* ===================================================================== *)
(** ** package breez_sdk_spark (and breez_sdk_common)                     *)
(* ===================================================================== *)

Module breez_sdk_spark.

Inductive Network := NetworkMainnet | NetworkRegtest.

(** The enumerations are integer types in Go: besides the constants the
    wallet names, any other value of the type can reach a [default:]
    branch. *)
Inductive PaymentType :=
| PaymentTypeSend
| PaymentTypeReceive
| PaymentTypeOther (raw : N).

Inductive PaymentStatus :=
| PaymentStatusCompleted
| PaymentStatusPending
| PaymentStatusFailed
| PaymentStatusOther (raw : N).

Inductive OnchainConfirmationSpeed :=
| OnchainConfirmationSpeedFast
| OnchainConfirmationSpeedMedium
| OnchainConfirmationSpeedSlow.

(** [SdkError]: the SDK's concrete error type; only its text matters. *)
Record SdkError := { SdkError_Error : string }.

Record Config := {
  ApiKey : option string;            (* *string *)
  Config_Network : Network;
  SyncIntervalSecs : Z;
}.

Record SeedMnemonic := {
  Mnemonic : string;
  Passphrase : option string;
}.

Record ConnectRequest := {
  ConnectRequest_Config : Config;
  Seed : SeedMnemonic;
  StorageDir : string;
}.

Record GetInfoRequest := { EnsureSynced : option bool }.

Record TokenMetadata := {
  Name : string;
  Ticker : string;
  Decimals : Z;                      (* uint32 *)
}.

Record TokenBalance := {
  Balance : Z;                       (* *big.Int *)
  TokenBalance_TokenMetadata : TokenMetadata;
}.

Record GetInfoResponse := {
  BalanceSats : Z;                   (* uint64 *)
  TokenBalances : gmap string TokenBalance;  (* map[string]TokenBalance *)
}.

Record ListPaymentsRequest := {
  Offset : option Z;                 (* *uint32 *)
  Limit : option Z;                  (* *uint32 *)
}.

Record Payment := {
  Id : string;
  PaymentType_ : PaymentType;        (* field PaymentType *)
  Status : PaymentStatus;
  Amount : Z;                        (* *big.Int *)
  Fees : Z;                          (* *big.Int *)
  Timestamp : Z;                     (* uint64 *)
}.

Record ListPaymentsResponse := { Payments : list Payment }.

Record GetPaymentRequest := { PaymentId : string }.
Record GetPaymentResponse := { GetPaymentResponse_Payment : Payment }.

Inductive ReceivePaymentMethod :=
| ReceivePaymentMethodBolt11Invoice (Description : string) (AmountSats : option Z)
| ReceivePaymentMethodBitcoinAddress
| ReceivePaymentMethodSparkAddress.

Record ReceivePaymentRequest := { PaymentMethod : ReceivePaymentMethod }.

Record ReceivePaymentResponse := {
  ReceivePaymentResponse_PaymentRequest : string;
  Fee : Z;                           (* *big.Int *)
}.

Record PrepareSendPaymentRequest := {
  PrepareSendPaymentRequest_PaymentRequest : string;
  PrepareSendPaymentRequest_Amount : option Z;  (* **big.Int *)
}.

(** The prepared payment (validated destination and quote) is opaque to
    the wallet, which only hands it back to the SDK. *)
Record PrepareSendPaymentResponse := { prepared_send : string }.

Inductive SendPaymentOptions :=
| SendPaymentOptionsBitcoinAddress (ConfirmationSpeed : OnchainConfirmationSpeed)
| SendPaymentOptionsBolt11Invoice (PreferSpark : bool).

Record SendPaymentRequest := {
  SendPaymentRequest_PrepareResponse : PrepareSendPaymentResponse;
  Options : option SendPaymentOptions;
}.

Record SendPaymentResponse := { SendPaymentResponse_Payment : Payment }.

(** What [Parse] can return (package breez_sdk_common): the variants of
    the [InputType] interface, and the nil interface. *)
Record LnurlPayRequestDetails := { Callback : string }.

Record LightningAddressDetails := {
  Address : string;
  LightningAddressDetails_PayRequest : LnurlPayRequestDetails;
}.

Inductive InputType :=
| InputType_nil
| InputTypeBitcoinAddress (address : string)
| InputTypeBolt11Invoice (invoice : string)
| InputTypeLnurlPay (Field0 : LnurlPayRequestDetails)
| InputTypeLnurlWithdraw (url : string)
| InputTypeLightningAddress (Field0 : LightningAddressDetails)
| InputTypeSparkAddress (address : string)
| InputTypeUrl (url : string).

Record PrepareLnurlPayRequest := {
  PrepareLnurlPayRequest_AmountSats : Z;      (* uint64 *)
  PrepareLnurlPayRequest_PayRequest : LnurlPayRequestDetails;
  Comment : option string;
  ValidateSuccessActionUrl : option bool;
}.

Record PrepareLnurlPayResponse := { prepared_lnurl : string }.

Record LnurlPayRequest := {
  LnurlPayRequest_PrepareResponse : PrepareLnurlPayResponse;
}.

Record LnurlPayResponse := { LnurlPayResponse_Payment : Payment }.

End breez_sdk_spark.

Import breez_sdk_spark.

(* ===================================================================== *)
(** ** Go [error] values, calls that leave the process, and outcomes      *)
(* ===================================================================== *)

(** An [error] is an interface value: the nil interface, or a value of some
    dynamic type.  A nil pointer of type [*SdkError] stored in the interface
    is not the nil interface. *)
Inductive error :=
| error_nil                                   (* the nil interface *)
| error_SdkError (p : option SdkError)        (* dynamic type *SdkError; [None] is the nil pointer *)
| error_os (text : string)                    (* an error of package os *)
| Errorf (text : string)                      (* fmt.Errorf(text) *)
| Errorf_w (text : string) (err : error).     (* fmt.Errorf(text + ": %w", err) *)

(** The nil [*SdkError] held in an [error]: how the SDK's bindings report
    success under the pattern the wallet follows. *)
Definition no_SdkError : error := error_SdkError None.

(** Every call packages config and wallet make outside their own code:
    the load of the file [.env] and the text [LoadConfig] writes to
    standard output, the file system, the clock, and the SDK. *)
Inductive Call :=
| godotenv_Load (filename : string)
| fmt_Print (text : string)
| os_MkdirAll (path : string)
| os_Stat (path : string)
| time_Sleep (seconds : Z)
| sdk_DefaultConfig (network : Network)
| sdk_Connect (request : ConnectRequest)
| sdk_GetInfo (req : GetInfoRequest)
| sdk_ListPayments (req : ListPaymentsRequest)
| sdk_GetPayment (req : GetPaymentRequest)
| sdk_ReceivePayment (req : ReceivePaymentRequest)
| sdk_PrepareSendPayment (req : PrepareSendPaymentRequest)
| sdk_SendPayment (req : SendPaymentRequest)
| sdk_Parse (input : string)
| sdk_PrepareLnurlPay (req : PrepareLnurlPayRequest)
| sdk_LnurlPay (req : LnurlPayRequest).

(** The calls that reach the backend runtime over the network. *)
Definition is_backend_call (c : Call) : bool :=
  match c with
  | godotenv_Load _ | fmt_Print _
  | os_MkdirAll _ | os_Stat _ | time_Sleep _ | sdk_DefaultConfig _ => false
  | _ => true
  end.

Definition is_prepare (c : Call) : bool :=
  match c with
  | sdk_PrepareSendPayment _ | sdk_PrepareLnurlPay _ => true
  | _ => false
  end.

Definition is_execute (c : Call) : bool :=
  match c with
  | sdk_SendPayment _ | sdk_LnurlPay _ => true
  | _ => false
  end.

(** How a Go function of type [(T, error)] ends: it returns a value with a
    nil error, returns a non-nil error, or panics. *)
Inductive Outcome (A : Type) :=
| Return (a : A)
| Fail (err : error)
| Panic (reason : string).
Arguments Return {A} a.
Arguments Fail {A} err.
Arguments Panic {A} reason.

(** A run: the calls made, oldest first, and the outcome. *)
Definition Run (A : Type) : Type := list Call * Outcome A.

Definition fail {A} (err : error) : Run A := ([], Fail err).
Definition panic {A} (reason : string) : Run A := ([], Panic reason).

(** Sequencing stops at the first error or panic; the traces are appended. *)
#[global] Instance Run_ret : MRet Run := fun A a => ([], Return a).
#[global] Instance Run_bind : MBind Run := fun A B k m =>
  match m with
  | (t, Return a) => let '(t', o) := k a in (t ++ t', o)
  | (t, Fail e) => (t, Fail e)
  | (t, Panic r) => (t, Panic r)
  end.

(** [invoke c r]: make the call [c], to which the outside answers [r]. *)
Definition invoke {A} (c : Call) (answer : A) : Run A := ([c], Return answer).

Definition calls {A} (r : Run A) : list Call := fst r.
Definition outcome {A} (r : Run A) : Outcome A := snd r.

(** The assertion of [err] to the pointer type [SdkError]: the one-result
    form of a type assertion panics unless the dynamic type of [err] is [*SdkError]; on
    the nil interface it panics too. *)
Definition assert_SdkError (err : error) : Run (option SdkError) :=
  match err with
  | error_SdkError p => mret p
  | error_nil => panic "interface conversion: error is nil, not *breez_sdk_spark.SdkError"
  | _ => panic "interface conversion: error is not *breez_sdk_spark.SdkError"
  end.

(** A connected SDK instance: what each method answers. *)
Record BreezSdk := {
  GetInfo : GetInfoRequest -> GetInfoResponse * error;
  ListPayments : ListPaymentsRequest -> ListPaymentsResponse * error;
  GetPayment : GetPaymentRequest -> GetPaymentResponse * error;
  ReceivePayment : ReceivePaymentRequest -> ReceivePaymentResponse * error;
  PrepareSendPayment : PrepareSendPaymentRequest -> PrepareSendPaymentResponse * error;
  SendPayment : SendPaymentRequest -> SendPaymentResponse * error;
  Parse : string -> InputType * error;
  PrepareLnurlPay : PrepareLnurlPayRequest -> PrepareLnurlPayResponse * error;
  LnurlPay : LnurlPayRequest -> LnurlPayResponse * error;
}.

(** The host: the SDK's package-level functions and the file system. *)
Record Host := {
  DefaultConfig : Network -> Config;
  Connect : ConnectRequest -> BreezSdk * error;
  MkdirAll : string -> option string;          (* [None]: no error *)
  Stat : string -> string + bool;              (* error, or [IsDir()] *)
}.

(** [if err := f(); err != nil { return nil, fmt.Errorf(text + ": %w", err) }]:
    a returned error is wrapped, everything else passes. *)
Definition wrap_error {A} (text : string) (m : Run A) : Run A :=
  match m with
  | (t, Fail e) => (t, Fail (Errorf_w text e))
  | _ => m
  end.

Definition nl : string := String (Ascii.ascii_of_nat 10) "".
Definition tab : string := String (Ascii.ascii_of_nat 9) "".

(** [time.Time] as seconds since the epoch. *)
Definition time_Unix (sec nsec : Z) : Z := sec.
Definition Hour : Z := 3600.

(* ===================================================================== *)
(** ** package config (config/config.go)                                  *)
(* ===================================================================== *)

Module config.

Record Config := {
  BreezAPIKey : string;
  BreezMnemonic : string;
  BreezNetwork : string;
  BreezWorkingDir : string;
}.

(** What [godotenv.Load()] finds when it opens and parses the file [.env]
    of the current directory: an error (its text), or the variables the
    file defines. *)
Definition Dotenv : Type := string + gmap string string.

Definition Load_error (dotenv : Dotenv) : option string :=
  match dotenv with
  | inl err => Some err
  | inr _ => None
  end.

(** The process environment after [godotenv.Load()]: the variables of the
    file are added, except those the environment already has (also with
    an empty value), which keep their value ([Load], unlike [Overload],
    does not override); on an error nothing is added. *)
Definition Load (dotenv : Dotenv) (env : gmap string string) : gmap string string :=
  match dotenv with
  | inl _ => env
  | inr vars => env ∪ vars
  end.

(** [os.Getenv] returns the empty string for a variable that is not set. *)
Definition Getenv (env : gmap string string) (key : string) : string :=
  default "" (env !! key).

Definition getEnv (env : gmap string string) (key defaultValue : string) : string :=
  let value := Getenv env key in
  if negb (String.eqb value "") then value else defaultValue.

(** [LoadConfig()].  [dotenv] is what [godotenv.Load()] finds and [env] the
    process environment before that load.  The load is the first
    statement; its error is reported on standard output and otherwise
    ignored. *)
Definition LoadConfig (dotenv : Dotenv) (env : gmap string string) : Run Config :=
  err ← invoke (godotenv_Load ".env") (Load_error dotenv);
  _ ← match err with
      | Some err =>
          _ ← invoke (fmt_Print ("Warning: Could not load .env file: " +:+ err +:+ nl)) tt;
          invoke (fmt_Print ("Using environment variables from system" +:+ nl)) tt
      | None => mret tt
      end;
  let env := Load dotenv env in
  let config := {|
    BreezAPIKey := getEnv env "BREEZ_API_KEY" "";
    BreezMnemonic := getEnv env "BREEZ_MNEMONIC" "";
    BreezNetwork := getEnv env "BREEZ_NETWORK" "mainnet";
    BreezWorkingDir :=
      getEnv env "BREEZ_WORKING_DIR" (getEnv env "BREEZ_DATA_DIR" ".tiny-spark-data");
  |} in
  if String.eqb (BreezAPIKey config) "" then
    fail (Errorf "BREEZ_API_KEY is required")
  else if String.eqb (BreezMnemonic config) "" then
    fail (Errorf "BREEZ_MNEMONIC is required")
  else mret config.

(** The calls of [LoadConfig]: the load of [.env] and, when it failed, the
    two lines of the warning. *)
Definition LoadConfig_calls (dotenv : Dotenv) : list Call :=
  godotenv_Load ".env" ::
  match dotenv with
  | inl err =>
      [fmt_Print ("Warning: Could not load .env file: " +:+ err +:+ nl);
       fmt_Print ("Using environment variables from system" +:+ nl)]
  | inr _ => []
  end.

End config.

(* ===================================================================== *)
(** ** package wallet                                                     *)
(* ===================================================================== *)

Module wallet.

Record Wallet := {
  sdk : BreezSdk;
  config_ : config.Config;           (* field config *)
}.

Record Balance := {
  LightningBalanceSats : Z;          (* int64 *)
  MaxPayableSats : Z;
  MaxReceivableSats : Z;
}.

Record Transaction := {
  ID : string;
  Transaction_AmountSats : Z;        (* int64 *)
  Transaction_FeeSats : Z;
  Transaction_Status : string;
  Type_ : string;                    (* field Type *)
  Transaction_Description : string;
  Transaction_Timestamp : Z;
  Transaction_PaymentHash : string;
}.

Record ReceivePaymentResponse := {
  PaymentRequest : string;
  ReceivePaymentResponse_AmountSats : Z;
  ReceivePaymentResponse_FeeSats : Z;
  ReceivePaymentResponse_Description : string;
  ExpiresAt : Z;
}.

Record PaymentResponse := {
  PaymentHash : string;
  AmountSats : Z;                    (* int64 *)
  FeeSats : Z;
  PaymentResponse_Status : string;
  Preimage : string;
  CompletedAt : Z;
}.

Record TokenBalance := {
  TokenID : string;
  TokenBalance_Balance : string;
  TokenBalance_Name : string;
  TokenBalance_Ticker : string;
  TokenBalance_Decimals : Z;
}.

(** *** Helper functions *)

Definition createWorkingDir (h : Host) (path : string) : Run unit :=
  if String.eqb path "" then
    fail (Errorf "working directory path cannot be empty")
  else
    err ← invoke (os_MkdirAll path) (MkdirAll h path);
    match err with
    | Some e =>
        fail (Errorf_w ("failed to create working directory " +:+ path) (error_os e))
    | None =>
        st ← invoke (os_Stat path) (Stat h path);
        match st with
        | inl e =>
            fail (Errorf_w ("working directory " +:+ path +:+ " is not accessible")
                           (error_os e))
        | inr IsDir =>
            if negb IsDir then
              fail (Errorf ("working directory path " +:+ path +:+ " is not a directory"))
            else mret tt
        end
    end.

Definition networkFromString (network : string) : Network :=
  if String.eqb network "mainnet" then NetworkMainnet
  else if String.eqb network "testnet" then NetworkRegtest
  else NetworkRegtest.

(** *** NewWallet *)

Definition NewWallet (h : Host) (cfg : config.Config) : Run Wallet :=
  _ ← wrap_error "failed to create working directory"
        (createWorkingDir h (config.BreezWorkingDir cfg));
  let network := networkFromString (config.BreezNetwork cfg) in
  sdkConfig ← invoke (sdk_DefaultConfig network) (DefaultConfig h network);
  let sdkConfig :=
    match ApiKey sdkConfig with
    | Some _ => (* *sdkConfig.ApiKey = cfg.BreezAPIKey *)
        {| ApiKey := Some (config.BreezAPIKey cfg);
           Config_Network := Config_Network sdkConfig;
           SyncIntervalSecs := SyncIntervalSecs sdkConfig |}
    | None => (* sdkConfig.ApiKey = &cfg.BreezAPIKey *)
        {| ApiKey := Some (config.BreezAPIKey cfg);
           Config_Network := Config_Network sdkConfig;
           SyncIntervalSecs := SyncIntervalSecs sdkConfig |}
    end in
  let sdkConfig :=
    {| ApiKey := ApiKey sdkConfig;
       Config_Network := Config_Network sdkConfig;
       SyncIntervalSecs := 60 |} in
  let seed := {| Mnemonic := config.BreezMnemonic cfg; Passphrase := None |} in
  let request := {|
    ConnectRequest_Config := sdkConfig;
    Seed := seed;
    StorageDir := config.BreezWorkingDir cfg;
  |} in
  '(sdk, err) ← invoke (sdk_Connect request) (Connect h request);
  sdkErr ← assert_SdkError err;
  if sdkErr is Some _ then fail (Errorf_w "failed to connect to Breez SDK" err) else
  _ ← invoke (time_Sleep 10) tt;
  mret {| sdk := sdk; config_ := cfg |}.

(** *** GetBalance *)

(** The [for ... range info.TokenBalances] loop, over the entries in the
    order in which this run of [range] visits them: the first positive
    balance replaces [balanceSats] and ends the loop. *)
Fixpoint GetBalance_range (order : list (string * breez_sdk_spark.TokenBalance))
    (balanceSats : Z) : Z :=
  match order with
  | [] => balanceSats
  | (_, balance) :: rest =>
      let tokenBalance := Go.big_Int64 (breez_sdk_spark.Balance balance) in
      if 0 <? tokenBalance then tokenBalance
      else GetBalance_range rest balanceSats
  end.

(** [order]: the iteration order of the map, which Go leaves unspecified. *)
Definition GetBalance (w : Wallet)
    (order : list (string * breez_sdk_spark.TokenBalance)) : Run Balance :=
  let req := {| EnsureSynced := None |} in
  '(info, err) ← invoke (sdk_GetInfo req) (GetInfo (sdk w) req);
  sdkErr ← assert_SdkError err;
  if sdkErr is Some _ then fail (Errorf_w "failed to get wallet info" err) else
  let balanceSats := Go.int64 (BalanceSats info) in
  let balanceSats :=
    if 0 <? Z.of_nat (size (TokenBalances info))
    then GetBalance_range order balanceSats
    else balanceSats in
  mret {| LightningBalanceSats := balanceSats;
          MaxPayableSats := balanceSats;
          MaxReceivableSats := balanceSats |}.

(** *** GetTokenBalances *)

Definition GetTokenBalances (w : Wallet)
    (order : list (string * breez_sdk_spark.TokenBalance)) : Run (list TokenBalance) :=
  let ensureSynced := false in
  let req := {| EnsureSynced := Some ensureSynced |} in
  '(info, err) ← invoke (sdk_GetInfo req) (GetInfo (sdk w) req);
  sdkErr ← assert_SdkError err;
  if sdkErr is Some _ then fail (Errorf_w "failed to get token balances" err) else
  mret (map (fun '(tokenId, tokenBalance) =>
               {| TokenID := tokenId;
                  TokenBalance_Balance := Go.big_String (breez_sdk_spark.Balance tokenBalance);
                  TokenBalance_Name := Name (TokenBalance_TokenMetadata tokenBalance);
                  TokenBalance_Ticker := Ticker (TokenBalance_TokenMetadata tokenBalance);
                  TokenBalance_Decimals :=
                    Decimals (TokenBalance_TokenMetadata tokenBalance) |})
            order).

Section Facade.

(** The conversion [string(payment.Status)].  The declaration of
    [PaymentStatus] is in the SDK; the text the conversion yields for a
    status is taken as given. *)
Variable string_of_PaymentStatus : PaymentStatus -> string.

(** *** GetTransactions *)

(** The body of the loop over [response.Payments]. *)
Definition GetTransactions_body (payment : Payment) : Transaction :=
  let rawAmount := Go.big_Int64 (Amount payment) in
  let fee := Go.big_Int64 (Fees payment) in
  let '(txType, amount) :=
    match PaymentType_ payment with
    | PaymentTypeReceive => ("receive", rawAmount)
    | PaymentTypeSend => ("send", Go.int64 (- rawAmount))
    | _ =>
        if 0 <? rawAmount then ("receive", rawAmount)
        else ("send", rawAmount)
    end in
  let statusStr :=
    match Status payment with
    | PaymentStatusPending => "Pending"
    | PaymentStatusCompleted => "Complete"
    | PaymentStatusFailed => "Failed"
    | _ => string_of_PaymentStatus (Status payment)
    end in
  let description := "Payment" in
  {| ID := Id payment;
     Transaction_AmountSats := amount;
     Transaction_FeeSats := fee;
     Transaction_Status := statusStr;
     Type_ := txType;
     Transaction_Description := description;
     Transaction_Timestamp := time_Unix (Go.int64 (Timestamp payment)) 0;
     Transaction_PaymentHash := Id payment |}.

(** The request sent for a given [limit]. *)
Definition GetTransactions_request (limit : Z) : ListPaymentsRequest :=
  let offsetPtr := Go.uint32 0 in
  let limitPtr := Go.uint32 limit in
  let limitPtr := if limitPtr <? 10 then 100 else limitPtr in
  {| Offset := Some offsetPtr; Limit := Some limitPtr |}.

Definition GetTransactions (w : Wallet) (limit : Z) : Run (list Transaction) :=
  let req := GetTransactions_request limit in
  '(response, err) ← invoke (sdk_ListPayments req) (ListPayments (sdk w) req);
  sdkErr ← assert_SdkError err;
  if sdkErr is Some _ then fail (Errorf_w "failed to get transaction history" err) else
  mret (map GetTransactions_body (Payments response)).

(** *** GetPayment *)

Definition GetPayment (w : Wallet) (paymentID : string) : Run Transaction :=
  let req := {| PaymentId := paymentID |} in
  '(response, err) ← invoke (sdk_GetPayment req) (GetPayment (sdk w) req);
  sdkErr ← assert_SdkError err;
  if sdkErr is Some _ then fail (Errorf_w "failed to get payment" err) else
  let payment := GetPaymentResponse_Payment response in
  let txType :=
    if 0 <? Go.big_Int64 (Amount payment) then "receive" else "send" in
  let statusStr :=
    match Status payment with
    | PaymentStatusPending => "Pending"
    | PaymentStatusCompleted => "Complete"
    | PaymentStatusFailed => "Failed"
    | _ => string_of_PaymentStatus (Status payment)
    end in
  mret {| ID := Id payment;
          Transaction_AmountSats := Go.big_Int64 (Amount payment);
          Transaction_FeeSats := Go.big_Int64 (Fees payment);
          Transaction_Status := statusStr;
          Type_ := txType;
          Transaction_Description := "Payment";
          Transaction_Timestamp := time_Unix (Go.int64 (Timestamp payment)) 0;
          Transaction_PaymentHash := Id payment |}.

(** *** Receiving *)

(** [now]: what [time.Now()] reads. *)
Definition ReceiveLightningInvoice (w : Wallet) (now : Z)
    (amountSats : Z) (description : string) : Run ReceivePaymentResponse :=
  let request := {|
    PaymentMethod := ReceivePaymentMethodBolt11Invoice description (Some amountSats)
  |} in
  '(response, err) ← invoke (sdk_ReceivePayment request) (ReceivePayment (sdk w) request);
  sdkErr ← assert_SdkError err;
  if sdkErr is Some _ then fail (Errorf_w "failed to create lightning invoice" err) else
  mret {| PaymentRequest := ReceivePaymentResponse_PaymentRequest response;
          ReceivePaymentResponse_FeeSats := Go.big_Int64 (Fee response);
          ReceivePaymentResponse_AmountSats := Go.int64 amountSats;
          ReceivePaymentResponse_Description := description;
          ExpiresAt := now + 24 * Hour |}.

Definition ReceiveBitcoinAddress (w : Wallet) (now : Z) : Run ReceivePaymentResponse :=
  let request := {| PaymentMethod := ReceivePaymentMethodBitcoinAddress |} in
  '(response, err) ← invoke (sdk_ReceivePayment request) (ReceivePayment (sdk w) request);
  sdkErr ← assert_SdkError err;
  if sdkErr is Some _ then fail (Errorf_w "failed to create bitcoin address" err) else
  mret {| PaymentRequest := ReceivePaymentResponse_PaymentRequest response;
          ReceivePaymentResponse_FeeSats := Go.big_Int64 (Fee response);
          ReceivePaymentResponse_AmountSats := 0;
          ReceivePaymentResponse_Description := "Bitcoin address deposit";
          ExpiresAt := now + 24 * Hour |}.

Definition ReceiveSparkAddress (w : Wallet) (now : Z) : Run ReceivePaymentResponse :=
  let request := {| PaymentMethod := ReceivePaymentMethodSparkAddress |} in
  '(response, err) ← invoke (sdk_ReceivePayment request) (ReceivePayment (sdk w) request);
  sdkErr ← assert_SdkError err;
  if sdkErr is Some _ then fail (Errorf_w "failed to create spark address" err) else
  mret {| PaymentRequest := ReceivePaymentResponse_PaymentRequest response;
          ReceivePaymentResponse_FeeSats := Go.big_Int64 (Fee response);
          ReceivePaymentResponse_AmountSats := 0;
          ReceivePaymentResponse_Description := "Spark address deposit";
          ExpiresAt := now + 24 * Hour |}.

(** *** Sending *)

(** The [PaymentResponse] literal that the four send functions build
    from the payment the SDK reports ([Preimage] is left at its zero
    value). *)
Definition PaymentResponse_of (payment : Payment) : PaymentResponse :=
  {| PaymentHash := Id payment;
     AmountSats := Go.big_Int64 (Amount payment);
     FeeSats := Go.big_Int64 (Fees payment);
     PaymentResponse_Status := string_of_PaymentStatus (Status payment);
     Preimage := "";
     CompletedAt := time_Unix (Go.int64 (Timestamp payment)) 0 |}.

Definition SendLightningInvoice (w : Wallet) (bolt11 : string) : Run PaymentResponse :=
  let prepareReq := {|
    PrepareSendPaymentRequest_PaymentRequest := bolt11;
    PrepareSendPaymentRequest_Amount := None;
  |} in
  '(prepareResp, err) ←
    invoke (sdk_PrepareSendPayment prepareReq) (PrepareSendPayment (sdk w) prepareReq);
  sdkErr ← assert_SdkError err;
  if sdkErr is Some _ then fail (Errorf_w "failed to prepare lightning payment" err) else
  let sendReq := {|
    SendPaymentRequest_PrepareResponse := prepareResp;
    Options := None;
  |} in
  '(response, err) ← invoke (sdk_SendPayment sendReq) (SendPayment (sdk w) sendReq);
  sdkErr ← assert_SdkError err;
  if sdkErr is Some _ then fail (Errorf_w "failed to send lightning payment" err) else
  mret (PaymentResponse_of (SendPaymentResponse_Payment response)).

Definition SendBitcoinAddress (w : Wallet) (address : string) (amountSats : Z)
    : Run PaymentResponse :=
  let amount := Go.big_NewInt amountSats in
  let prepareReq := {|
    PrepareSendPaymentRequest_PaymentRequest := address;
    PrepareSendPaymentRequest_Amount := Some amount;
  |} in
  '(prepareResp, err) ←
    invoke (sdk_PrepareSendPayment prepareReq) (PrepareSendPayment (sdk w) prepareReq);
  sdkErr ← assert_SdkError err;
  if sdkErr is Some _ then fail (Errorf_w "failed to prepare onchain payment" err) else
  let options := SendPaymentOptionsBitcoinAddress OnchainConfirmationSpeedMedium in
  let sendReq := {|
    SendPaymentRequest_PrepareResponse := prepareResp;
    Options := Some options;
  |} in
  '(response, err) ← invoke (sdk_SendPayment sendReq) (SendPayment (sdk w) sendReq);
  sdkErr ← assert_SdkError err;
  if sdkErr is Some _ then fail (Errorf_w "failed to send onchain payment" err) else
  mret (PaymentResponse_of (SendPaymentResponse_Payment response)).

Definition SendSparkAddress (w : Wallet) (sparkAddress : string) (amountSats : Z)
    : Run PaymentResponse :=
  let amount := Go.big_NewInt amountSats in
  let prepareReq := {|
    PrepareSendPaymentRequest_PaymentRequest := sparkAddress;
    PrepareSendPaymentRequest_Amount := Some amount;
  |} in
  '(prepareResp, err) ←
    invoke (sdk_PrepareSendPayment prepareReq) (PrepareSendPayment (sdk w) prepareReq);
  sdkErr ← assert_SdkError err;
  if sdkErr is Some _ then fail (Errorf_w "failed to prepare spark payment" err) else
  let sendReq := {|
    SendPaymentRequest_PrepareResponse := prepareResp;
    Options := None;
  |} in
  '(response, err) ← invoke (sdk_SendPayment sendReq) (SendPayment (sdk w) sendReq);
  sdkErr ← assert_SdkError err;
  if sdkErr is Some _ then fail (Errorf_w "failed to send spark payment" err) else
  mret (PaymentResponse_of (SendPaymentResponse_Payment response)).

(** *** LnUrlPay *)

Definition LnUrlPay (w : Wallet) (lnurlAddress : string) (amountSats : Z)
    (comment : string) : Run PaymentResponse :=
  '(input, err) ← invoke (sdk_Parse lnurlAddress) (Parse (sdk w) lnurlAddress);
  sdkErr ← assert_SdkError err;
  if sdkErr is Some _ then fail (Errorf_w "failed to parse lnurl address" err) else
  match input with
  | InputTypeLightningAddress inputType =>
      let validateSuccessActionUrl := true in
      let prepareReq := {|
        PrepareLnurlPayRequest_AmountSats := amountSats;
        PrepareLnurlPayRequest_PayRequest := LightningAddressDetails_PayRequest inputType;
        Comment := Some comment;
        ValidateSuccessActionUrl := Some validateSuccessActionUrl;
      |} in
      '(prepareResp, err) ←
        invoke (sdk_PrepareLnurlPay prepareReq) (PrepareLnurlPay (sdk w) prepareReq);
      sdkErr ← assert_SdkError err;
      if sdkErr is Some _ then fail (Errorf_w "failed to prepare lnurl pay" err) else
      let payReq := {| LnurlPayRequest_PrepareResponse := prepareResp |} in
      '(response, err) ← invoke (sdk_LnurlPay payReq) (LnurlPay (sdk w) payReq);
      sdkErr ← assert_SdkError err;
      if sdkErr is Some _ then fail (Errorf_w "failed to send lnurl payment" err) else
      mret (PaymentResponse_of (LnurlPayResponse_Payment response))
  | _ => fail (Errorf "unsupported LNURL address type")
  end.

End Facade.

End wallet.

(* ===================================================================== *)
(** ** package main: start-up (main.go, from LoadConfig to NewWallet)     *)
(* ===================================================================== *)

Module main.

(** [cfg, err := config.LoadConfig()] and, when that succeeds,
    [w, err := wallet.NewWallet(cfg)]; either error ends the process
    ([log.Fatalf]) with the error in the message. *)
Definition startup (h : Host) (dotenv : config.Dotenv) (env : gmap string string) :
    Run wallet.Wallet :=
  cfg ← config.LoadConfig dotenv env;
  wallet.NewWallet h cfg.

End main.

(* ===================================================================== *)
(** ** Predicates on traces and outcomes                                  *)
(* ===================================================================== *)

(** The call hands the network [n] to the SDK, if it hands one at all:
    [DefaultConfig] is asked for [n], and [Connect] receives a
    configuration with the network of the host's answer for [n]. *)
Definition requests_network (h : Host) (n : Network) (c : Call) : Prop :=
  match c with
  | sdk_DefaultConfig n' => n' = n
  | sdk_Connect request =>
      Config_Network (ConnectRequest_Config request) = Config_Network (DefaultConfig h n)
  | _ => True
  end.

(** The run returned a value (no error, no panic). *)
Definition returns {A} (r : Run A) : Prop := exists a, outcome r = Return a.

(** The run ended in a panic. *)
Definition panics {A} (r : Run A) : Prop := exists reason, outcome r = Panic reason.


(** The raw amount of a backend payment record, as the wallet reads it. *)
Definition rawAmount (payment : Payment) : Z := Go.big_Int64 (Amount payment).

(** What [GetTransactions] promises about the type of the entry [tx] built
    from the backend record [payment]. *)
Definition classified (payment : Payment) (tx : wallet.Transaction) : Prop :=
  match PaymentType_ payment with
  | PaymentTypeReceive => wallet.Type_ tx = "receive"
  | PaymentTypeSend => wallet.Type_ tx = "send"
  | PaymentTypeOther _ =>
      (wallet.Type_ tx = "receive" <-> 0 < rawAmount payment) /\
      (wallet.Type_ tx = "send" <-> rawAmount payment <= 0)
  end.

(* ===================================================================== *)
(** ** Further predicates on backends                                     *)
(* ===================================================================== *)

(** Every method of the instance fails with the SDK error [e]. *)
Definition rejects_all (s : BreezSdk) (e : SdkError) : Prop :=
  (forall req, (GetInfo s req).2 = error_SdkError (Some e)) /\
  (forall req, (ListPayments s req).2 = error_SdkError (Some e)) /\
  (forall req, (GetPayment s req).2 = error_SdkError (Some e)) /\
  (forall req, (ReceivePayment s req).2 = error_SdkError (Some e)) /\
  (forall req, (PrepareSendPayment s req).2 = error_SdkError (Some e)) /\
  (forall req, (SendPayment s req).2 = error_SdkError (Some e)) /\
  (forall input, (Parse s input).2 = error_SdkError (Some e)) /\
  (forall req, (PrepareLnurlPay s req).2 = error_SdkError (Some e)) /\
  (forall req, (LnurlPay s req).2 = error_SdkError (Some e)).

(** The requests the three send functions hand to the prepare step. *)
Definition invoice_request (bolt11 : string) : PrepareSendPaymentRequest :=
  {| PrepareSendPaymentRequest_PaymentRequest := bolt11;
     PrepareSendPaymentRequest_Amount := None |}.

Definition amount_request (destination : string) (amountSats : Z)
    : PrepareSendPaymentRequest :=
  {| PrepareSendPaymentRequest_PaymentRequest := destination;
     PrepareSendPaymentRequest_Amount := Some amountSats |}.

(** The execute request built from a prepare answer. *)
Definition execute_request (prepareResp : PrepareSendPaymentResponse)
    (options : option SendPaymentOptions) : SendPaymentRequest :=
  {| SendPaymentRequest_PrepareResponse := prepareResp; Options := options |}.

Definition medium_speed : option SendPaymentOptions :=
  Some (SendPaymentOptionsBitcoinAddress OnchainConfirmationSpeedMedium).

(** The trace of a two-phase send against the instance [s]: the prepare
    call, followed by the execute call for the prepared payment exactly
    when the prepare step reported success. *)
Definition two_phase_trace (s : BreezSdk) (prepareReq : PrepareSendPaymentRequest)
    (options : option SendPaymentOptions) : list Call :=
  let '(prepareResp, err) := PrepareSendPayment s prepareReq in
  match err with
  | error_SdkError None =>
      [sdk_PrepareSendPayment prepareReq;
       sdk_SendPayment (execute_request prepareResp options)]
  | _ => [sdk_PrepareSendPayment prepareReq]
  end.

(** The connection request [NewWallet] hands to the SDK for a
    configuration: the SDK's default configuration for the selected
    network with the credential and the sync interval overwritten, the
    recovery phrase without passphrase, and the working directory. *)
Definition connect_request (h : Host) (cfg : config.Config) : ConnectRequest :=
  {| ConnectRequest_Config :=
       {| ApiKey := Some (config.BreezAPIKey cfg);
          Config_Network :=
            Config_Network
              (DefaultConfig h (wallet.networkFromString (config.BreezNetwork cfg)));
          SyncIntervalSecs := 60 |};
     Seed := {| Mnemonic := config.BreezMnemonic cfg; Passphrase := None |};
     StorageDir := config.BreezWorkingDir cfg |}.

(** The first non-empty text among the two, else the third. *)
Definition first_nonempty (a b c : string) : string :=
  if String.eqb a "" then (if String.eqb b "" then c else b) else a.

(** The sign convention of one history entry, for a backend amount that
    fits a signed 64-bit integer and is not negative. *)
Definition signed_entry (payment : Payment) (tx : wallet.Transaction) : Prop :=
  (wallet.Type_ tx = "receive" \/ wallet.Type_ tx = "send") /\
  Z.abs (wallet.Transaction_AmountSats tx) = Amount payment /\
  (wallet.Type_ tx = "receive" -> 0 <= wallet.Transaction_AmountSats tx) /\
  (wallet.Type_ tx = "send" -> wallet.Transaction_AmountSats tx <= 0) /\
  (PaymentType_ payment = PaymentTypeSend ->
   wallet.Transaction_AmountSats tx = - Amount payment) /\
  (PaymentType_ payment = PaymentTypeReceive ->
   wallet.Transaction_AmountSats tx = Amount payment).


(** The prepare request [LnUrlPay] builds for a resolved Lightning
    address. *)
Definition lnurl_request (details : LightningAddressDetails) (amountSats : Z)
    (comment : string) : PrepareLnurlPayRequest :=
  {| PrepareLnurlPayRequest_AmountSats := amountSats;
     PrepareLnurlPayRequest_PayRequest := LightningAddressDetails_PayRequest details;
     Comment := Some comment;
     ValidateSuccessActionUrl := Some true |}.

(** The wallet's entry for the token [tokenId] with backend balance [tb]. *)
Definition token_entry (tokenId : string) (tb : breez_sdk_spark.TokenBalance)
    : wallet.TokenBalance :=
  {| wallet.TokenID := tokenId;
     wallet.TokenBalance_Balance := Go.big_String (Balance tb);
     wallet.TokenBalance_Name := Name (TokenBalance_TokenMetadata tb);
     wallet.TokenBalance_Ticker := Ticker (TokenBalance_TokenMetadata tb);
     wallet.TokenBalance_Decimals := Decimals (TokenBalance_TokenMetadata tb) |}.

(** Reading a decimal text back as an integer. *)
Definition decimal_value (s : string) : option Z :=
  Z.of_int <$> NilZero.int_of_string s.

(* ===================================================================== *)
(** ** package strconv: the decimal parsers main.go calls                 *)
(* ===================================================================== *)

Module strconv.

Inductive Err := ErrSyntax | ErrRange.

(** [*strconv.NumError]: the failing function, the input and the cause. *)
Record NumError := { Func : string; Num : string; Err_ : Err }.

(** The value of a decimal digit byte; any other byte is a syntax error
    in base 10. *)
Definition digit (c : Ascii.ascii) : option Z :=
  let b := Z.of_N (Ascii.N_of_ascii c) in
  if (48 <=? b) && (b <=? 57) then Some (b - 48) else None.

Definition maxUint64 : Z := 2 ^ 64 - 1.

(** The smallest number whose tenfold exceeds [maxUint64]. *)
Definition cutoff : Z := maxUint64 / 10 + 1.

(** The loop of [ParseUint] over the bytes for base 10 and 64 bits.  Below
    [cutoff] the product [n * 10] fits 64 bits, and adding the digit wraps
    around exactly when the sum exceeds [maxUint64]. *)
Fixpoint ParseUint_loop (s : string) (n : Z) : Err + Z :=
  match s with
  | EmptyString => inr n
  | String c rest =>
      match digit c with
      | None => inl ErrSyntax
      | Some d =>
          if cutoff <=? n then inl ErrRange
          else
            let n1 := n * 10 + d in
            if maxUint64 <? n1 then inl ErrRange
            else ParseUint_loop rest n1
      end
  end.

(** [strconv.ParseUint(s, 10, 64)]: the value and the error. *)
Definition ParseUint (s : string) : Z * option NumError :=
  if String.eqb s "" then
    (0, Some {| Func := "ParseUint"; Num := s; Err_ := ErrSyntax |})
  else
    match ParseUint_loop s 0 with
    | inl ErrSyntax => (0, Some {| Func := "ParseUint"; Num := s; Err_ := ErrSyntax |})
    | inl ErrRange =>
        (maxUint64, Some {| Func := "ParseUint"; Num := s; Err_ := ErrRange |})
    | inr n => (n, None)
    end.

Definition plus_sign : Ascii.ascii := Ascii.ascii_of_nat 43.
Definition minus_sign : Ascii.ascii := Ascii.ascii_of_nat 45.

(** [strconv.ParseInt(s, 10, 64)], reporting errors under the name
    [fnName]. *)
Definition ParseInt_as (fnName : string) (s : string) : Z * option NumError :=
  if String.eqb s "" then
    (0, Some {| Func := fnName; Num := s; Err_ := ErrSyntax |})
  else
    let s0 := s in
    let '(neg, s) :=
      match s with
      | String c rest =>
          if Ascii.eqb c plus_sign then (false, rest)
          else if Ascii.eqb c minus_sign then (true, rest)
          else (false, s)
      | EmptyString => (false, s)
      end in
    let '(un, err) := ParseUint s in
    match err with
    | Some {| Err_ := ErrSyntax |} =>
        (0, Some {| Func := fnName; Num := s0; Err_ := ErrSyntax |})
    | _ =>
        let cutoff := 2 ^ 63 in
        if negb neg && (cutoff <=? un) then
          (cutoff - 1, Some {| Func := fnName; Num := s0; Err_ := ErrRange |})
        else if neg && (cutoff <? un) then
          (- cutoff, Some {| Func := fnName; Num := s0; Err_ := ErrRange |})
        else
          let n := Go.int64 un in
          let n := if neg then Go.int64 (- n) else n in
          (n, None)
    end.

Definition ParseInt (s : string) : Z * option NumError := ParseInt_as "ParseInt" s.

(** [strconv.Atoi(s)] with a 64-bit [int]: [ParseInt(s, 10, 0)] with the
    error renamed; its fast path for short inputs computes the same
    result. *)
Definition Atoi (s : string) : Z * option NumError := ParseInt_as "Atoi" s.

End strconv.

(* ===================================================================== *)
(** ** package main: the rest of main.go                                  *)
(* ===================================================================== *)

(** What the process does that can be observed: text written to standard
    output by package main, cells written to the tab writer and its
    flush, the calls made inside packages config and wallet on behalf of
    main (among them [fmt_Print], the text [LoadConfig] writes to standard
    output), and the disconnection of the SDK instance by the deferred
    [Close]. *)
Inductive Event :=
| stdout (text : string)
| tabbed (text : string)
| tab_Flush
| facade (c : Call)
| sdk_Disconnect.

(** [log.Fatalf]: the message and its argument; the process exits with
    status 1 and deferred calls do not run. *)
Inductive Fatal :=
| Fatalf_error (text : string) (err : error)               (* text + ": %v", err *)
| Fatalf_NumError (text : string) (err : strconv.NumError) (* text + ": %v", err *)
| Fatalf_text (text : string).

(** How a function of package main ends: it returns, the process exits
    through [log.Fatalf], or it panics. *)
Inductive Exit (A : Type) :=
| Done (a : A)
| Fatalf (f : Fatal)
| Crash (reason : string).
Arguments Done {A} a.
Arguments Fatalf {A} f.
Arguments Crash {A} reason.

Definition Cli (A : Type) : Type := list Event * Exit A.

#[global] Instance Cli_ret : MRet Cli := fun A a => ([], Done a).
#[global] Instance Cli_bind : MBind Cli := fun A B k m =>
  match m with
  | (t, Done a) => let '(t', o) := k a in (t ++ t', o)
  | (t, Fatalf f) => (t, Fatalf f)
  | (t, Crash r) => (t, Crash r)
  end.

Definition events {A} (r : Cli A) : list Event := fst r.
Definition exit {A} (r : Cli A) : Exit A := snd r.

Definition print (text : string) : Cli unit := ([stdout text], Done tt).
Definition tab_print (text : string) : Cli unit := ([tabbed text], Done tt).
Definition Flush : Cli unit := ([tab_Flush], Done tt).
Definition fatalf {A} (f : Fatal) : Cli A := ([], Fatalf f).
Definition crash {A} (reason : string) : Cli A := ([], Crash reason).

(** [x, err := w.Operation(...)] and [cfg, err := config.LoadConfig()]:
    the calls the operation makes are events of the process; a panic of the operation is a panic of the
    caller. *)
Definition attempt {A} (r : Run A) : Cli (error + A) :=
  match r with
  | (t, Return a) => (facade <$> t, Done (inr a))
  | (t, Fail e) => (facade <$> t, Done (inl e))
  | (t, Panic reason) => (facade <$> t, Crash reason)
  end.

(** [x, err := f(); if err != nil { log.Fatalf(text + ": %v", err) }]. *)
Definition or_fatal {A} (text : string) (r : Run A) : Cli A :=
  res ← attempt r;
  match res with
  | inl err => fatalf (Fatalf_error text err)
  | inr a => mret a
  end.

(** [defer w.Close()]: when the function returns or panics, the SDK
    instance is disconnected; not when the process exits through
    [log.Fatalf]. *)
Definition defer_Close {A} (m : Cli A) : Cli A :=
  match m with
  | (t, Done a) => (t ++ [sdk_Disconnect], Done a)
  | (t, Crash reason) => (t ++ [sdk_Disconnect], Crash reason)
  | (t, Fatalf f) => (t, Fatalf f)
  end.


(** [fmt.Println(text)]. *)
Definition Println (text : string) : Cli unit := print (text +:+ nl).

(** The verb [%d] of package fmt on an integer. *)
Definition Sprintf_d (x : Z) : string := NilZero.string_of_int (Z.to_int x).

(** [os.Args[i]]: out of range, the index expression panics. *)
Definition index (args : list string) (i : nat) : Cli string :=
  match args !! i with
  | Some a => mret a
  | None =>
      crash ("runtime error: index out of range [" +:+ Sprintf_d (Z.of_nat i)
             +:+ "] with length " +:+ Sprintf_d (Z.of_nat (length args)))
  end.

(** [strings.Join(elems, sep)] and [strings.Repeat(s, count)]. *)
Fixpoint Join (elems : list string) (sep : string) : string :=
  match elems with
  | [] => ""
  | [a] => a
  | a :: rest => a +:+ sep +:+ Join rest sep
  end.

Fixpoint Repeat (s : string) (count : nat) : string :=
  match count with
  | O => ""
  | S n => s +:+ Repeat s n
  end.

(** [len(s)]: the number of bytes of a string, of elements of a slice. *)
Definition len (s : string) : Z := Z.of_nat (String.length s).
Definition len_list {A} (l : list A) : Z := Z.of_nat (length l).

Module main_go.

Definition printUsage_lines : list string :=
  [ "Breez Tiny Spark";
    "==================";
    "";
    "Usage:";
    "  tiny-spark <command> [arguments]";
    "";
    "Commands:";
    "  balance, bal                    Show wallet balance";
    "  transactions, tx [limit]       Show transaction history (default 10)";
    "  receive <type> <amount> [desc]  Create payment request";
    "  send <type> <dest> <amount>    Send payment";
    "  payment <id>                   Show payment details";
    "  tokens                         Show token balances";
    "  help                           Show this help";
    "";
    "Receive types:";
    "  lightning    Create Lightning invoice";
    "  bitcoin      Create Bitcoin address";
    "  spark        Create Spark address";
    "";
    "Send types:";
    "  lightning    Pay Lightning invoice";
    "  bitcoin      Send to Bitcoin address";
    "  spark        Send to Spark address";
    "  lnurl        Pay LNURL address";
    "";
    "Examples:";
    "  tiny-spark balance";
    "  tiny-spark receive lightning 5000 'Coffee payment'";
    "  tiny-spark send lightning lnbc1... 5000";
    "  tiny-spark transactions 20" ].

Definition printUsage : Cli unit :=
  foldr (fun line rest => _ ← Println line; rest) (mret tt) printUsage_lines.

(** formatAmount formats satoshi amount with proper sign *)
Definition formatAmount (sats : Z) : string :=
  if sats =? 0 then "0"
  else if 0 <? sats then "+" +:+ Sprintf_d sats
  else Sprintf_d sats.

(** formatStatus makes the status more readable *)
Definition formatStatus (status : string) : string :=
  if String.eqb status "complete" then "Complete"
  else if String.eqb status "pending" then "Pending"
  else if String.eqb status "failed" then "Failed"
  else status.

(** truncateString truncates a string to max length with ellipsis if
    needed.  [None]: the slice expression [s[:maxLen]] panics, which it
    does for a negative [maxLen]. *)
Definition truncateString (s : string) (maxLen : Z) : option string :=
  if len s <=? maxLen then Some s
  else if maxLen <=? 3 then
    (if maxLen <? 0 then None else Some (String.substring 0 (Z.to_nat maxLen) s))
  else Some (String.substring 0 (Z.to_nat (maxLen - 3)) s +:+ "...").

Section Commands.

(** Library functions whose result depends on Unicode tables or on the
    local time zone are taken as given. *)
Variable ToLower : string -> string.          (* strings.ToLower *)
Variable Title : string -> string.            (* strings.Title *)
Variable Format : string -> Z -> string.      (* layout, instant: Time.Format *)
Variable string_of_PaymentStatus : PaymentStatus -> string.

Definition showBalance (w : wallet.Wallet)
    (order : list (string * breez_sdk_spark.TokenBalance)) : Cli unit :=
  _ ← Println "Wallet Balance:";
  _ ← Println "----------------";
  balance ← or_fatal "Failed to get balance" (wallet.GetBalance w order);
  _ ← print ("Lightning Balance: " +:+ Sprintf_d (wallet.LightningBalanceSats balance)
             +:+ " sats" +:+ nl);
  _ ← print ("Max Payable:       " +:+ Sprintf_d (wallet.MaxPayableSats balance)
             +:+ " sats" +:+ nl);
  print ("Max Receivable:    " +:+ Sprintf_d (wallet.MaxReceivableSats balance)
         +:+ " sats" +:+ nl).

(** One row of the transaction table. *)
Definition showTransactions_row (tx : wallet.Transaction) : Cli unit :=
  let timestamp := Format "2006-01-02 15:04" (wallet.Transaction_Timestamp tx) in
  let amountStr := formatAmount (wallet.Transaction_AmountSats tx) in
  let feeStr := formatAmount (wallet.Transaction_FeeSats tx) in
  match truncateString (wallet.Transaction_Description tx) 20 with
  | None => crash "slice bounds out of range"
  | Some description =>
      let description := if String.eqb description "" then "-" else description in
      tab_print (timestamp +:+ tab +:+ wallet.Type_ tx +:+ tab +:+ amountStr +:+ tab
                 +:+ feeStr +:+ tab +:+ wallet.Transaction_Status tx +:+ tab
                 +:+ description +:+ nl)
  end.

Definition showTransactions (w : wallet.Wallet) (limit : Z) : Cli unit :=
  _ ← print ("Last " +:+ Sprintf_d limit +:+ " Transactions:" +:+ nl);
  _ ← Println (Repeat "-" 20);
  transactions ← or_fatal "Failed to get transactions"
                   (wallet.GetTransactions string_of_PaymentStatus w limit);
  if len_list transactions =? 0 then Println "No transactions found"
  else
    _ ← tab_print ("TIME" +:+ tab +:+ "TYPE" +:+ tab +:+ "AMOUNT" +:+ tab +:+ "FEE"
                   +:+ tab +:+ "STATUS" +:+ tab +:+ "DESCRIPTION" +:+ nl);
    _ ← tab_print ("----" +:+ tab +:+ "----" +:+ tab +:+ "------" +:+ tab +:+ "---"
                   +:+ tab +:+ "------" +:+ tab +:+ "-----------" +:+ nl);
    _ ← foldr (fun tx rest => _ ← showTransactions_row tx; rest) (mret tt) transactions;
    Flush.

Definition receivePayment (w : wallet.Wallet) (now : Z)
    (paymentType amountStr description : string) : Cli unit :=
  let '(amount, err) := strconv.ParseUint amountStr in
  match err with
  | Some err => fatalf (Fatalf_NumError "Invalid amount" err)
  | None =>
      let description :=
        if String.eqb description "" then "Payment request" else description in
      let lower := ToLower paymentType in
      res ←
        (if String.eqb lower "lightning" || String.eqb lower "ln" then
           attempt (wallet.ReceiveLightningInvoice w now amount description)
         else if String.eqb lower "bitcoin" || String.eqb lower "btc" then
           attempt (wallet.ReceiveBitcoinAddress w now)
         else if String.eqb lower "spark" then
           attempt (wallet.ReceiveSparkAddress w now)
         else fatalf (Fatalf_text ("Unknown receive type: " +:+ paymentType)));
      match res with
      | inl err =>
          fatalf (Fatalf_error ("Failed to create " +:+ paymentType +:+ " payment request")
                               err)
      | inr response =>
          _ ← print ("Payment Request Created:" +:+ nl);
          _ ← print ("Type:        " +:+ Title paymentType +:+ nl);
          _ ← print ("Amount:      "
                     +:+ Sprintf_d (wallet.ReceivePaymentResponse_AmountSats response)
                     +:+ " sats" +:+ nl);
          _ ← print ("Fee:         "
                     +:+ Sprintf_d (wallet.ReceivePaymentResponse_FeeSats response)
                     +:+ " sats" +:+ nl);
          _ ← print ("Description: " +:+ wallet.ReceivePaymentResponse_Description response
                     +:+ nl);
          _ ← print ("Expires:     "
                     +:+ Format "2006-01-02 15:04:05" (wallet.ExpiresAt response) +:+ nl);
          print (nl +:+ "Payment Request:" +:+ nl +:+ wallet.PaymentRequest response +:+ nl)
      end
  end.

(** The amount of an on-chain or Spark send: [strconv.ParseInt]. *)
Definition sendPayment_amount (amountStr : string) : Cli Z :=
  let '(amount, err2) := strconv.ParseInt amountStr in
  match err2 with
  | Some err2 => fatalf (Fatalf_NumError "Invalid amount" err2)
  | None => mret amount
  end.

Definition sendPayment (w : wallet.Wallet) (paymentType destination amountStr : string)
    : Cli unit :=
  let lower := ToLower paymentType in
  res ←
    (if String.eqb lower "lightning" || String.eqb lower "ln" then
       attempt (wallet.SendLightningInvoice string_of_PaymentStatus w destination)
     else if String.eqb lower "bitcoin" || String.eqb lower "btc" then
       amount ← sendPayment_amount amountStr;
       attempt (wallet.SendBitcoinAddress string_of_PaymentStatus w destination amount)
     else if String.eqb lower "spark" then
       amount ← sendPayment_amount amountStr;
       attempt (wallet.SendSparkAddress string_of_PaymentStatus w destination amount)
     else if String.eqb lower "lnurl" then
       let '(amount, err2) := strconv.ParseUint amountStr in
       match err2 with
       | Some err2 => fatalf (Fatalf_NumError "Invalid amount" err2)
       | None =>
           attempt (wallet.LnUrlPay string_of_PaymentStatus w destination amount
                      "Payment via LNURL")
       end
     else fatalf (Fatalf_text ("Unknown send type: " +:+ paymentType)));
  match res with
  | inl err =>
      fatalf (Fatalf_error ("Failed to send " +:+ paymentType +:+ " payment") err)
  | inr response =>
      _ ← print ("Payment Sent:" +:+ nl);
      _ ← print ("Payment Hash: " +:+ wallet.PaymentHash response +:+ nl);
      _ ← print ("Amount:       " +:+ Sprintf_d (wallet.AmountSats response)
                 +:+ " sats" +:+ nl);
      _ ← print ("Fee:          " +:+ Sprintf_d (wallet.FeeSats response)
                 +:+ " sats" +:+ nl);
      _ ← print ("Status:       " +:+ wallet.PaymentResponse_Status response +:+ nl);
      print ("Completed:    "
             +:+ Format "2006-01-02 15:04:05" (wallet.CompletedAt response) +:+ nl)
  end.

Definition showPayment (w : wallet.Wallet) (paymentID : string) : Cli unit :=
  payment ← or_fatal "Failed to get payment"
              (wallet.GetPayment string_of_PaymentStatus w paymentID);
  _ ← print ("Payment Details:" +:+ nl);
  _ ← print ("ID:          " +:+ wallet.ID payment +:+ nl);
  _ ← print ("Type:        " +:+ wallet.Type_ payment +:+ nl);
  _ ← print ("Amount:      " +:+ formatAmount (wallet.Transaction_AmountSats payment)
             +:+ " sats" +:+ nl);
  _ ← print ("Fee:         " +:+ formatAmount (wallet.Transaction_FeeSats payment)
             +:+ " sats" +:+ nl);
  _ ← print ("Status:      " +:+ wallet.Transaction_Status payment +:+ nl);
  _ ← print ("Description: " +:+ wallet.Transaction_Description payment +:+ nl);
  print ("Time:        "
         +:+ Format "2006-01-02 15:04:05" (wallet.Transaction_Timestamp payment) +:+ nl).

Definition showTokens (w : wallet.Wallet)
    (order : list (string * breez_sdk_spark.TokenBalance)) : Cli unit :=
  _ ← Println "Token Balances:";
  _ ← Println "---------------";
  tokens ← or_fatal "Failed to get token balances" (wallet.GetTokenBalances w order);
  if len_list tokens =? 0 then Println "No tokens found"
  else
    _ ← tab_print ("TOKEN ID" +:+ tab +:+ "NAME" +:+ tab +:+ "TICKER" +:+ tab
                   +:+ "BALANCE" +:+ nl);
    _ ← tab_print ("---------" +:+ tab +:+ "----" +:+ tab +:+ "------" +:+ tab
                   +:+ "-------" +:+ nl);
    _ ← foldr (fun token rest =>
                 _ ← tab_print (wallet.TokenID token +:+ tab
                                +:+ wallet.TokenBalance_Name token +:+ tab
                                +:+ wallet.TokenBalance_Ticker token +:+ tab
                                +:+ wallet.TokenBalance_Balance token +:+ nl);
                 rest)
              (mret tt) tokens;
    Flush.

(** The limit of the [transactions] command: 10, unless a further
    argument is given and [strconv.Atoi] accepts it. *)
Definition main_limit (args : list string) : Cli Z :=
  let limit := 10 in
  if 2 <? len_list args then
    a ← index args 2;
    let '(l, err) := strconv.Atoi a in
    match err with
    | None => mret l
    | Some _ => mret limit
    end
  else mret limit.

(** The [switch command] of [main], on the connected wallet. *)
Definition main_switch (args : list string) (command : string) (w : wallet.Wallet)
    (order : list (string * breez_sdk_spark.TokenBalance)) (now : Z) : Cli unit :=
  if String.eqb command "balance" || String.eqb command "bal" then
    showBalance w order
  else if String.eqb command "transactions" || String.eqb command "tx" then
    limit ← main_limit args;
    showTransactions w limit
  else if String.eqb command "receive" then
    if len_list args <? 4 then
      _ ← Println "Usage: tiny-client receive <type> <amount> [description]";
      Println "Types: lightning, bitcoin, spark"
    else
      paymentType ← index args 2;
      amountStr ← index args 3;
      receivePayment w now paymentType amountStr (Join (drop 4 args) " ")
  else if String.eqb command "send" then
    if len_list args <? 4 then
      _ ← Println "Usage: tiny-client send <type> <destination> <amount>";
      Println "Types: lightning, bitcoin, spark, lnurl"
    else
      paymentType ← index args 2;
      destination ← index args 3;
      amountStr ← index args 4;
      sendPayment w paymentType destination amountStr
  else if String.eqb command "payment" then
    if len_list args <? 3 then
      Println "Usage: tiny-client payment <payment_id>"
    else
      paymentID ← index args 2;
      showPayment w paymentID
  else if String.eqb command "tokens" then
    showTokens w order
  else if String.eqb command "help" || String.eqb command "-h"
          || String.eqb command "--help" then
    printUsage
  else
    _ ← print ("Unknown command: " +:+ command +:+ nl +:+ nl);
    printUsage.

(** [main].  [args] is [os.Args]; [dotenv] is what [godotenv.Load] finds
    and [env] the process environment before that load. *)
Definition main (args : list string) (dotenv : config.Dotenv)
    (env : gmap string string) (h : Host)
    (order : list (string * breez_sdk_spark.TokenBalance)) (now : Z) : Cli unit :=
  if len_list args <? 2 then printUsage
  else
    command ← index args 1;
    cfg ← or_fatal "Failed to load configuration" (config.LoadConfig dotenv env);
    w ← or_fatal "Failed to initialize wallet" (wallet.NewWallet h cfg);
    defer_Close (main_switch args command w order now).

End Commands.

End main_go.

(** *** Predicates on what the process does *)

(** No event of the run disconnects the SDK instance. *)
Definition keeps_connection {A} (m : Cli A) : Prop :=
  Forall (fun e => e <> sdk_Disconnect) (events m).

(** The run only writes to standard output. *)
Definition only_prints {A} (m : Cli A) : Prop :=
  Forall (fun e => exists text, e = stdout text) (events m).

(** The event is a call of the backend made through the facade. *)
Definition is_backend_event (e : Event) : bool :=
  match e with
  | facade c => is_backend_call c
  | _ => false
  end.

(** What [LoadConfig] does before it reads the environment: it loads the
    file [.env] and reports the error of that load, if any, on standard
    output. *)
Definition dotenv_events (dotenv : config.Dotenv) : list Event :=
  facade <$> config.LoadConfig_calls dotenv.

(** Reading a formatted amount back: an optional plus sign, then a
    decimal number. *)
Definition amount_value (s : string) : option Z :=
  match s with
  | String c rest => if Ascii.eqb c strconv.plus_sign then decimal_value rest
                     else decimal_value s
  | EmptyString => None
  end.

Definition is_tabbed (e : Event) : bool :=
  match e with
  | tabbed _ => true
  | _ => false
  end.
(* ===================================================================== *)
(** ** Concrete backends and inputs used by the examples below            *)
(* ===================================================================== *)

Module samples.

(** One possible reading of [string(payment.Status)]. *)
Definition status_text (st : PaymentStatus) : string :=
  match st with
  | PaymentStatusCompleted => "completed"
  | PaymentStatusPending => "pending"
  | PaymentStatusFailed => "failed"
  | PaymentStatusOther _ => "?"
  end.

Definition zero_Payment : Payment :=
  {| Id := ""; PaymentType_ := PaymentTypeOther 0; Status := PaymentStatusOther 0;
     Amount := 0; Fees := 0; Timestamp := 0 |}.

(** A backend on which every call succeeds with a zero value. *)
Definition idle_sdk : BreezSdk :=
  {| GetInfo := fun _ => ({| BalanceSats := 0; TokenBalances := ∅ |}, no_SdkError);
     ListPayments := fun _ => ({| Payments := [] |}, no_SdkError);
     GetPayment := fun _ => ({| GetPaymentResponse_Payment := zero_Payment |}, no_SdkError);
     ReceivePayment := fun _ =>
       ({| ReceivePaymentResponse_PaymentRequest := ""; Fee := 0 |}, no_SdkError);
     PrepareSendPayment := fun _ => ({| prepared_send := "" |}, no_SdkError);
     SendPayment := fun _ => ({| SendPaymentResponse_Payment := zero_Payment |}, no_SdkError);
     Parse := fun _ => (InputType_nil, no_SdkError);
     PrepareLnurlPay := fun _ => ({| prepared_lnurl := "" |}, no_SdkError);
     LnurlPay := fun _ => ({| LnurlPayResponse_Payment := zero_Payment |}, no_SdkError) |}.

Definition with_GetInfo (f : GetInfoRequest -> GetInfoResponse * error)
    (s : BreezSdk) : BreezSdk :=
  {| GetInfo := f; ListPayments := ListPayments s; GetPayment := GetPayment s;
     ReceivePayment := ReceivePayment s; PrepareSendPayment := PrepareSendPayment s;
     SendPayment := SendPayment s; Parse := Parse s;
     PrepareLnurlPay := PrepareLnurlPay s; LnurlPay := LnurlPay s |}.

Definition with_payments (l : ListPaymentsRequest -> ListPaymentsResponse * error)
    (g : GetPaymentRequest -> GetPaymentResponse * error) (s : BreezSdk) : BreezSdk :=
  {| GetInfo := GetInfo s; ListPayments := l; GetPayment := g;
     ReceivePayment := ReceivePayment s; PrepareSendPayment := PrepareSendPayment s;
     SendPayment := SendPayment s; Parse := Parse s;
     PrepareLnurlPay := PrepareLnurlPay s; LnurlPay := LnurlPay s |}.

Definition with_send
    (p : PrepareSendPaymentRequest -> PrepareSendPaymentResponse * error)
    (x : SendPaymentRequest -> SendPaymentResponse * error) (s : BreezSdk) : BreezSdk :=
  {| GetInfo := GetInfo s; ListPayments := ListPayments s; GetPayment := GetPayment s;
     ReceivePayment := ReceivePayment s; PrepareSendPayment := p;
     SendPayment := x; Parse := Parse s;
     PrepareLnurlPay := PrepareLnurlPay s; LnurlPay := LnurlPay s |}.

Definition with_Parse (f : string -> InputType * error) (s : BreezSdk) : BreezSdk :=
  {| GetInfo := GetInfo s; ListPayments := ListPayments s; GetPayment := GetPayment s;
     ReceivePayment := ReceivePayment s; PrepareSendPayment := PrepareSendPayment s;
     SendPayment := SendPayment s; Parse := f;
     PrepareLnurlPay := PrepareLnurlPay s; LnurlPay := LnurlPay s |}.

Definition cfg : config.Config :=
  {| config.BreezAPIKey := "key";
     config.BreezMnemonic := "abandon ability able about above absent";
     config.BreezNetwork := "mainnet";
     config.BreezWorkingDir := ".tiny-spark-data" |}.

(** A configuration without credential and recovery phrase, and the
    connection request [NewWallet] builds from it. *)
Definition cfg_empty : config.Config :=
  {| config.BreezAPIKey := "";
     config.BreezMnemonic := "";
     config.BreezNetwork := "regtest";
     config.BreezWorkingDir := ".tiny-spark-data" |}.

Definition request_empty : ConnectRequest :=
  {| ConnectRequest_Config :=
       {| ApiKey := Some ""; Config_Network := NetworkRegtest; SyncIntervalSecs := 60 |};
     Seed := {| Mnemonic := ""; Passphrase := None |};
     StorageDir := ".tiny-spark-data" |}.

Definition wallet_on (s : BreezSdk) : wallet.Wallet :=
  {| wallet.sdk := s; wallet.config_ := cfg |}.

(** A host whose file system accepts every directory and whose [Connect]
    succeeds. *)
Definition host : Host :=
  {| DefaultConfig := fun n =>
       {| ApiKey := None; Config_Network := n; SyncIntervalSecs := 2 |};
     Connect := fun _ => (idle_sdk, no_SdkError);
     MkdirAll := fun _ => None;
     Stat := fun _ => inr true |}.

(** A wallet holding 5 sats and 7 units of one token. *)
Definition token : breez_sdk_spark.TokenBalance :=
  {| Balance := 7;
     TokenBalance_TokenMetadata := {| Name := "Token"; Ticker := "TKN"; Decimals := 0 |} |}.
Definition info_with_token : GetInfoResponse :=
  {| BalanceSats := 5; TokenBalances := {[ "btkn1" := token ]} |}.
Definition sdk_with_token : BreezSdk :=
  with_GetInfo (fun _ => (info_with_token, no_SdkError)) idle_sdk.

(** A backend whose [GetInfo] answers with the nil interface as error. *)
Definition sdk_nil_error : BreezSdk :=
  with_GetInfo (fun _ => ({| BalanceSats := 5; TokenBalances := ∅ |}, error_nil)) idle_sdk.

(** A backend holding one completed outgoing payment of 100 sats. *)
Definition sent : Payment :=
  {| Id := "p1"; PaymentType_ := PaymentTypeSend; Status := PaymentStatusCompleted;
     Amount := 100; Fees := 1; Timestamp := 1700000000 |}.
Definition sdk_one_payment : BreezSdk :=
  with_payments
    (fun _ => ({| Payments := [sent] |}, no_SdkError))
    (fun req =>
       if String.eqb (PaymentId req) "p1"
       then ({| GetPaymentResponse_Payment := sent |}, no_SdkError)
       else ({| GetPaymentResponse_Payment := zero_Payment |},
             error_SdkError (Some {| SdkError_Error := "payment not found" |})))
    idle_sdk.

(** A backend that executes an on-chain send and reports it the way it
    reports payments in the history: type send, amount positive. *)
Definition sdk_sending : BreezSdk :=
  with_send
    (fun _ => ({| prepared_send := "quote" |}, no_SdkError))
    (fun _ => ({| SendPaymentResponse_Payment :=
                    {| Id := "p2"; PaymentType_ := PaymentTypeSend;
                       Status := PaymentStatusPending;
                       Amount := 100; Fees := 2; Timestamp := 1700000000 |} |},
               no_SdkError))
    idle_sdk.

(** A backend whose prepare step rejects every payment. *)
Definition rejected : SdkError := {| SdkError_Error := "insufficient funds" |}.
Definition sdk_rejecting : BreezSdk :=
  with_send
    (fun _ => ({| prepared_send := "" |}, error_SdkError (Some rejected)))
    (SendPayment idle_sdk)
    idle_sdk.

(** A backend that resolves every text to an on-chain address. *)
Definition sdk_parsing_address : BreezSdk :=
  with_Parse (fun s => (InputTypeBitcoinAddress s, no_SdkError)) idle_sdk.

End samples.

(* ===================================================================== *)
(** ** Further concrete backends and inputs                               *)
(* ===================================================================== *)

Module examples.

(** A backend that rejects every call. *)
Definition sdk_down : BreezSdk :=
  let e := error_SdkError (Some samples.rejected) in
  {| GetInfo := fun _ => ({| BalanceSats := 0; TokenBalances := ∅ |}, e);
     ListPayments := fun _ => ({| Payments := [] |}, e);
     GetPayment := fun _ => ({| GetPaymentResponse_Payment := samples.zero_Payment |}, e);
     ReceivePayment := fun _ =>
       ({| ReceivePaymentResponse_PaymentRequest := ""; Fee := 0 |}, e);
     PrepareSendPayment := fun _ => ({| prepared_send := "" |}, e);
     SendPayment := fun _ =>
       ({| SendPaymentResponse_Payment := samples.zero_Payment |}, e);
     Parse := fun _ => (InputType_nil, e);
     PrepareLnurlPay := fun _ => ({| prepared_lnurl := "" |}, e);
     LnurlPay := fun _ => ({| LnurlPayResponse_Payment := samples.zero_Payment |}, e) |}.

(** An environment with both required variables. *)
Definition env : gmap string string :=
  {[ "BREEZ_API_KEY" := "key"; "BREEZ_MNEMONIC" := "abandon ability able" ]}.

(** The same, with the legacy data directory variable set. *)
Definition env_data_dir : gmap string string :=
  <[ "BREEZ_DATA_DIR" := "/var/lib/spark" ]> env.

(** An environment with the recovery phrase only. *)
Definition env_mnemonic_only : gmap string string :=
  {[ "BREEZ_MNEMONIC" := "abandon ability able" ]}.

(** No file [.env] in the current directory. *)
Definition no_dotenv : config.Dotenv := inl "open .env: no such file or directory".

(** A file [.env] that defines the key and the legacy data directory. *)
Definition dotenv_file : config.Dotenv :=
  inr {[ "BREEZ_API_KEY" := "key from file"; "BREEZ_DATA_DIR" := "/srv/spark" ]}.

(** An empty file [.env]. *)
Definition dotenv_empty : config.Dotenv := inr ∅.

(** A host whose [Connect] is rejected. *)
Definition host_refusing : Host :=
  {| DefaultConfig := DefaultConfig samples.host;
     Connect := fun _ => (samples.idle_sdk, error_SdkError (Some samples.rejected));
     MkdirAll := MkdirAll samples.host;
     Stat := Stat samples.host |}.

(** A host on which the working directory path is an existing file. *)
Definition host_file_in_the_way : Host :=
  {| DefaultConfig := DefaultConfig samples.host;
     Connect := Connect samples.host;
     MkdirAll := fun _ => Some "mkdir .tiny-spark-data: not a directory";
     Stat := fun _ => inr false |}.

End examples.

Module examples2.

(** A backend whose prepare step accepts and whose execute step rejects. *)
Definition sdk_execute_fails : BreezSdk :=
  samples.with_send
    (fun _ => ({| prepared_send := "quote" |}, no_SdkError))
    (fun _ => ({| SendPaymentResponse_Payment := samples.zero_Payment |},
               error_SdkError (Some samples.rejected)))
    samples.idle_sdk.

Definition alice : LightningAddressDetails :=
  {| Address := "alice@example.com";
     LightningAddressDetails_PayRequest := {| Callback := "https://example.com/lnurlp/alice" |} |}.

Definition paid : Payment :=
  {| Id := "p3"; PaymentType_ := PaymentTypeSend; Status := PaymentStatusCompleted;
     Amount := 5000; Fees := 3; Timestamp := 1700000000 |}.

(** A backend that resolves every alias to Alice's Lightning address and
    whose LNURL prepare step answers as given. *)
Definition sdk_lnurl (prepare_err pay_err : error) : BreezSdk :=
  {| GetInfo := GetInfo samples.idle_sdk;
     ListPayments := ListPayments samples.idle_sdk;
     GetPayment := GetPayment samples.idle_sdk;
     ReceivePayment := ReceivePayment samples.idle_sdk;
     PrepareSendPayment := PrepareSendPayment samples.idle_sdk;
     SendPayment := SendPayment samples.idle_sdk;
     Parse := fun _ => (InputTypeLightningAddress alice, no_SdkError);
     PrepareLnurlPay := fun _ => ({| prepared_lnurl := "quote" |}, prepare_err);
     LnurlPay := fun _ => ({| LnurlPayResponse_Payment := paid |}, pay_err) |}.

(** A wallet holding two tokens, one with a balance beyond 64 bits. *)
Definition big_token : breez_sdk_spark.TokenBalance :=
  {| Balance := 2 ^ 70;
     TokenBalance_TokenMetadata := {| Name := "Big"; Ticker := "BIG"; Decimals := 8 |} |}.
Definition info_two_tokens : GetInfoResponse :=
  {| BalanceSats := 0;
     TokenBalances := {[ "btkn1" := samples.token; "btkn2" := big_token ]} |}.
Definition sdk_two_tokens : BreezSdk :=
  samples.with_GetInfo (fun _ => (info_two_tokens, no_SdkError)) samples.idle_sdk.

(** A wallet holding 11 sats and 10^19 units of one token, more than an
    [int64] holds. *)
Definition large_token : breez_sdk_spark.TokenBalance :=
  {| Balance := 10 ^ 19;
     TokenBalance_TokenMetadata := {| Name := "Large"; Ticker := "LRG"; Decimals := 8 |} |}.
Definition info_large_token : GetInfoResponse :=
  {| BalanceSats := 11; TokenBalances := {[ "btkn9" := large_token ]} |}.
Definition sdk_large_token : BreezSdk :=
  samples.with_GetInfo (fun _ => (info_large_token, no_SdkError)) samples.idle_sdk.

(** A wallet holding 2^64 + 5 units of one token. *)
Definition wrapping_token : breez_sdk_spark.TokenBalance :=
  {| Balance := 2 ^ 64 + 5;
     TokenBalance_TokenMetadata := {| Name := "Wrap"; Ticker := "WRP"; Decimals := 8 |} |}.
Definition info_wrapping_token : GetInfoResponse :=
  {| BalanceSats := 11; TokenBalances := {[ "btkn8" := wrapping_token ]} |}.
Definition sdk_wrapping_token : BreezSdk :=
  samples.with_GetInfo (fun _ => (info_wrapping_token, no_SdkError)) samples.idle_sdk.

(** A backend that executes every prepared send and reports the payment
    with the given amount and fees. *)
Definition sdk_reporting (amount fees : Z) : BreezSdk :=
  samples.with_send
    (fun _ => ({| prepared_send := "quote" |}, no_SdkError))
    (fun _ => ({| SendPaymentResponse_Payment :=
                    {| Id := "p3"; PaymentType_ := PaymentTypeSend;
                       Status := PaymentStatusPending;
                       Amount := amount; Fees := fees; Timestamp := 1700000000 |} |},
               no_SdkError))
    samples.idle_sdk.

End examples2.

Module cli_examples.

(** [strings.ToLower] and [strings.Title] on the texts of the examples,
    which are in lower case, and a stand-in for the formatting of
    instants. *)
Definition ToLower (s : string) : string := s.
Definition Title (s : string) : string := s.
Definition Format (layout : string) (t : Z) : string := Sprintf_d t.

Definition main :=
  main_go.main ToLower Title Format samples.status_text.

(** The wallet start-up builds from [examples.env] on [samples.host]. *)
Definition cfg : config.Config :=
  {| config.BreezAPIKey := "key";
     config.BreezMnemonic := "abandon ability able";
     config.BreezNetwork := "mainnet";
     config.BreezWorkingDir := ".tiny-spark-data" |}.

Definition w : wallet.Wallet := {| wallet.sdk := samples.idle_sdk; wallet.config_ := cfg |}.

Definition connecting : list Call :=
  [os_MkdirAll ".tiny-spark-data"; os_Stat ".tiny-spark-data";
   sdk_DefaultConfig NetworkMainnet;
   sdk_Connect (connect_request samples.host cfg);
   time_Sleep 10].

(** A host whose backend holds the outgoing payment "p1". *)
Definition host_one_payment : Host :=
  {| DefaultConfig := DefaultConfig samples.host;
     Connect := fun _ => (samples.sdk_one_payment, no_SdkError);
     MkdirAll := MkdirAll samples.host;
     Stat := Stat samples.host |}.

End cli_examples.

(* ===================================================================== *)
(** ** Properties                                                         *)
(* ===================================================================== *)

(** *** Integer conversions *)

Lemma int64_exact (x : Z) : Go.is_int64 x -> Go.int64 x = x.
Proof.
  unfold Go.is_int64, Go.int64. intros H.
  rewrite Z.mod_small by lia. lia.
Qed.

Lemma int64_range (x : Z) : Go.is_int64 (Go.int64 x).
Proof.
  unfold Go.is_int64, Go.int64.
  pose proof (Z.mod_pos_bound (x + 2 ^ 63) (2 ^ 64) ltac:(lia)). lia.
Qed.

Lemma uint32_exact (x : Z) : 0 <= x < 2 ^ 32 -> Go.uint32 x = x.
Proof. intros H. unfold Go.uint32. apply Z.mod_small. lia. Qed.

Lemma big_Int64_exact (x : Z) : Go.is_int64 x -> Go.big_Int64 x = x.
Proof.
  unfold Go.is_int64, Go.big_Int64. intros H.
  destruct (Z.ltb_spec x 0) as [Hneg | Hpos].
  - assert (Hx : x = - 2 ^ 63 \/ - 2 ^ 63 < x) by lia.
    destruct Hx as [-> | Hx]; [reflexivity |].
    rewrite (Z.mod_small (Z.abs x)) by lia.
    rewrite (int64_exact (Z.abs x)) by (unfold Go.is_int64; lia).
    rewrite int64_exact by (unfold Go.is_int64; lia). lia.
  - rewrite (Z.mod_small (Z.abs x)) by lia.
    rewrite int64_exact by (unfold Go.is_int64; lia). lia.
Qed.

(** *** Runs *)

Lemma bind_Return {A B} (t : list Call) (a : A) (k : A -> Run B) :
  mbind k (t, Return a) = (t ++ calls (k a), outcome (k a)).
Proof. unfold mbind, Run_bind, calls, outcome. destruct (k a); reflexivity. Qed.

Lemma assert_SdkError_ok (p : option SdkError) :
  assert_SdkError (error_SdkError p) = ([], Return p).
Proof. reflexivity. Qed.

(** Unfolds one facade operation after its answers have been rewritten. *)
Ltac run := cbn [mbind mret Run_bind Run_ret invoke fail panic assert_SdkError
                 calls outcome fst snd app wrap_error negb].

(** Splits a [Forall] over an explicit trace into one goal per call. *)
Ltac each_call :=
  cbn [calls fst];
  repeat match goal with
         | |- Forall _ (_ ++ _) => apply Forall_app; split
         | |- Forall _ (_ :: _) => constructor
         | |- Forall _ [] => constructor
         end.

(** *** networkFromString and the network handed to the SDK *)

Lemma networkFromString_mainnet (network : string) :
  wallet.networkFromString network = NetworkMainnet <-> network = "mainnet".
Proof.
  unfold wallet.networkFromString.
  destruct (String.eqb_spec network "mainnet") as [-> | Hne].
  - split; reflexivity.
  - destruct (String.eqb network "testnet"); split; intros H; congruence.
Qed.

Lemma createWorkingDir_calls (h : Host) (path : string) :
  Forall (fun c => c = os_MkdirAll path \/ c = os_Stat path)
         (calls (wallet.createWorkingDir h path)).
Proof.
  unfold wallet.createWorkingDir.
  destruct (String.eqb path ""); [constructor |].
  run. destruct (MkdirAll h path); run; [each_call; auto |].
  destruct (Stat h path) as [e | []]; run; each_call; auto.
Qed.

Lemma createWorkingDir_never_panics (h : Host) (path : string) :
  ~ panics (wallet.createWorkingDir h path).
Proof.
  intros [reason Hpanic]. revert Hpanic. unfold wallet.createWorkingDir.
  destruct (String.eqb path ""); [discriminate |].
  run. destruct (MkdirAll h path); run; [discriminate |].
  destruct (Stat h path) as [e | []]; run; discriminate.
Qed.

Section Network_properties.

Variable h : Host.
Variable cfg : config.Config.

Local Abbreviation network := (wallet.networkFromString (config.BreezNetwork cfg)).

(** C9: only the text "mainnet" selects the production network; with any
    other text [NewWallet] asks the SDK for the regtest configuration and
    connects with it (every network handed to the SDK is that one). *)
Theorem NewWallet_network :
  (network = NetworkMainnet <-> config.BreezNetwork cfg = "mainnet") /\
  (config.BreezNetwork cfg <> "mainnet" -> network = NetworkRegtest) /\
  Forall (requests_network h network) (calls (wallet.NewWallet h cfg)) /\
  (returns (wallet.createWorkingDir h (config.BreezWorkingDir cfg)) ->
   sdk_DefaultConfig network ∈ calls (wallet.NewWallet h cfg) /\
   exists request,
     sdk_Connect request ∈ calls (wallet.NewWallet h cfg) /\
     Config_Network (ConnectRequest_Config request) =
       Config_Network (DefaultConfig h network)).
Proof.
  split; [apply networkFromString_mainnet |].
  split.
  { intros Hne. destruct network eqn:E; [| reflexivity].
    apply networkFromString_mainnet in E. contradiction. }
  pose proof (createWorkingDir_calls h (config.BreezWorkingDir cfg)) as Hos.
  unfold wallet.NewWallet.
  destruct (wallet.createWorkingDir h (config.BreezWorkingDir cfg))
    as [t [[] | e | r]] eqn:Hdir; run.
  - assert (Ht : Forall (requests_network h network) t).
    { eapply Forall_impl; [exact Hos |]. intros c [-> | ->]; exact I. }
    destruct (ApiKey (DefaultConfig h network));
      (destruct (Connect h _) as [conn err] eqn:Hc; run;
       destruct err as [| [e1 |] | | |]; run;
       (split;
        [ each_call; solve [exact Ht | exact I | reflexivity]
        | intros _; split;
          [ apply elem_of_app; right; apply list_elem_of_here
          | eexists; split;
            [ apply elem_of_app; right; apply list_elem_of_further, list_elem_of_here
            | reflexivity ] ] ])).
  - split.
    + eapply Forall_impl; [exact Hos |]. intros c [-> | ->]; exact I.
    + intros [a Ha]. discriminate.
  - split.
    + eapply Forall_impl; [exact Hos |]. intros c [-> | ->]; exact I.
    + intros [a Ha]. discriminate.
Qed.

End Network_properties.

(** *** Configuration *)

Lemma getEnv_spec (env : gmap string string) (key defaultValue : string) :
  config.getEnv env key defaultValue =
    if String.eqb (config.Getenv env key) "" then defaultValue else config.Getenv env key.
Proof. unfold config.getEnv. destruct (String.eqb _ ""); reflexivity. Qed.

Lemma getEnv_default_empty (env : gmap string string) (key : string) :
  config.getEnv env key "" = config.Getenv env key.
Proof.
  rewrite getEnv_spec.
  destruct (String.eqb_spec (config.Getenv env key) "") as [-> | _]; reflexivity.
Qed.

(** What a run of [LoadConfig] is: the load of [.env] with its warning,
    then the two checks on the environment after the load. *)
Lemma LoadConfig_run (dotenv : config.Dotenv) (env : gmap string string) :
  config.LoadConfig dotenv env =
    (config.LoadConfig_calls dotenv,
     if String.eqb (config.Getenv (config.Load dotenv env) "BREEZ_API_KEY") "" then
       Fail (Errorf "BREEZ_API_KEY is required")
     else if String.eqb (config.Getenv (config.Load dotenv env) "BREEZ_MNEMONIC") "" then
       Fail (Errorf "BREEZ_MNEMONIC is required")
     else
       Return {|
         config.BreezAPIKey := config.Getenv (config.Load dotenv env) "BREEZ_API_KEY";
         config.BreezMnemonic := config.Getenv (config.Load dotenv env) "BREEZ_MNEMONIC";
         config.BreezNetwork :=
           config.getEnv (config.Load dotenv env) "BREEZ_NETWORK" "mainnet";
         config.BreezWorkingDir :=
           config.getEnv (config.Load dotenv env) "BREEZ_WORKING_DIR"
             (config.getEnv (config.Load dotenv env) "BREEZ_DATA_DIR" ".tiny-spark-data")
       |}).
Proof.
  unfold config.LoadConfig, config.LoadConfig_calls, config.Load_error.
  cbn [config.BreezAPIKey config.BreezMnemonic].
  rewrite !getEnv_default_empty.
  destruct dotenv as [err | vars];
    (destruct (String.eqb (config.Getenv _ "BREEZ_API_KEY") "");
     [| destruct (String.eqb (config.Getenv _ "BREEZ_MNEMONIC") "")]);
    reflexivity.
Qed.

Lemma LoadConfig_calls_eq (dotenv : config.Dotenv) (env : gmap string string) :
  calls (config.LoadConfig dotenv env) = config.LoadConfig_calls dotenv.
Proof. rewrite LoadConfig_run. reflexivity. Qed.

(** The calls of [LoadConfig] reach neither the backend nor the working
    directory. *)
Lemma LoadConfig_calls_local (dotenv : config.Dotenv) :
  Forall (fun c => c = godotenv_Load ".env" \/ exists text, c = fmt_Print text)
         (config.LoadConfig_calls dotenv).
Proof.
  unfold config.LoadConfig_calls.
  apply Forall_cons_2; [left; reflexivity |].
  destruct dotenv as [err | vars]; [| apply Forall_nil_2].
  apply Forall_cons_2; [right; eexists; reflexivity |].
  apply Forall_cons_2; [right; eexists; reflexivity | apply Forall_nil_2].
Qed.

(** [godotenv.Load] never changes a variable that is set. *)
Lemma Load_keeps (dotenv : config.Dotenv) (env : gmap string string) (key value : string) :
  env !! key = Some value -> config.Load dotenv env !! key = Some value.
Proof.
  intros H. destruct dotenv as [err | vars]; [exact H |].
  cbn [config.Load]. by apply lookup_union_Some_l.
Qed.

(** *** GetTransactions: page size and classification *)

Section ListPayments_properties.

Variable string_of_PaymentStatus : PaymentStatus -> string.
Variable w : wallet.Wallet.

Local Abbreviation GetTransactions := (wallet.GetTransactions string_of_PaymentStatus w).
Local Abbreviation GetTransactions_body := (wallet.GetTransactions_body string_of_PaymentStatus).

Lemma GetTransactions_body_classified (payment : Payment) :
  classified payment (GetTransactions_body payment).
Proof.
  unfold classified, wallet.GetTransactions_body, rawAmount.
  destruct (PaymentType_ payment); cbn; try reflexivity.
  destruct (Z.ltb_spec 0 (Go.big_Int64 (Amount payment))); cbn;
    split; split; intros; try reflexivity; try discriminate; lia.
Qed.

Lemma GetTransactions_body_ID (payment : Payment) :
  wallet.ID (GetTransactions_body payment) = Id payment.
Proof.
  unfold wallet.GetTransactions_body.
  destruct (PaymentType_ payment); cbn; try reflexivity.
  destruct (0 <? _); reflexivity.
Qed.

(** What a run of [GetTransactions] is, given the backend's answer. *)
Lemma GetTransactions_run (limit : Z) :
  GetTransactions limit =
    let req := wallet.GetTransactions_request limit in
    ([sdk_ListPayments req],
     match (ListPayments (wallet.sdk w) req).2 with
     | error_SdkError None =>
         Return (map GetTransactions_body (Payments (ListPayments (wallet.sdk w) req).1))
     | error_SdkError (Some e) =>
         Fail (Errorf_w "failed to get transaction history" (error_SdkError (Some e)))
     | error_nil =>
         Panic "interface conversion: error is nil, not *breez_sdk_spark.SdkError"
     | _ => Panic "interface conversion: error is not *breez_sdk_spark.SdkError"
     end).
Proof.
  unfold wallet.GetTransactions.
  destruct (ListPayments _ _) as [response err].
  destruct err as [| [e |] | | |]; reflexivity.
Qed.

(** C5: each entry that [GetTransactions] returns is typed "receive"
    (incoming) when the backend record carries the receive tag, "send"
    (outgoing) when it carries the send tag, whatever the sign of the raw
    amount; with any other tag it is "receive" exactly when the raw amount
    is positive and "send" otherwise. *)
Theorem GetTransactions_direction (limit : Z) (txs : list wallet.Transaction) :
  outcome (GetTransactions limit) = Return txs ->
  exists response,
    ListPayments (wallet.sdk w) (wallet.GetTransactions_request limit)
      = (response, no_SdkError) /\
    Forall2 classified (Payments response) txs.
Proof.
  rewrite GetTransactions_run. cbn [outcome snd].
  destruct (ListPayments _ _) as [response err]. cbn [fst snd].
  destruct err as [| [e |] | | |]; intros H; try discriminate.
  injection H as <-. exists response. split; [reflexivity |].
  induction (Payments response) as [| payment rest IH]; cbn [map].
  - constructor.
  - constructor; [apply GetTransactions_body_classified | exact IH].
Qed.

(** C8 (amended): for a limit below 10 the backend is asked for 100
    entries; for a limit from 10 up to the largest 32-bit value it is asked
    for exactly [limit] entries; and the result has one entry per entry of
    the backend's answer, in the same order, none dropped. *)
Theorem GetTransactions_page_size (limit : Z) (response : ListPaymentsResponse) :
  0 <= limit < 2 ^ 32 ->
  ListPayments (wallet.sdk w) (wallet.GetTransactions_request limit)
    = (response, no_SdkError) ->
  exists page txs,
    GetTransactions limit =
      ([sdk_ListPayments {| Offset := Some 0; Limit := Some page |}], Return txs) /\
    (limit < 10 -> page = 100) /\
    (10 <= limit -> page = limit) /\
    length txs = length (Payments response) /\
    Forall2 (fun payment tx => wallet.ID tx = Id payment) (Payments response) txs.
Proof.
  intros Hlimit Hanswer.
  exists (if limit <? 10 then 100 else limit),
         (map GetTransactions_body (Payments response)).
  split; [| split; [| split; [| split]]].
  - rewrite GetTransactions_run. cbn zeta. rewrite Hanswer. cbn [fst snd].
    unfold wallet.GetTransactions_request.
    rewrite (uint32_exact limit) by exact Hlimit.
    reflexivity.
  - intros H. destruct (Z.ltb_spec limit 10); [reflexivity | lia].
  - intros H. destruct (Z.ltb_spec limit 10); [lia | reflexivity].
  - apply length_map.
  - induction (Payments response) as [| payment rest IH]; cbn [map]; constructor;
      [apply GetTransactions_body_ID | exact IH].
Qed.

End ListPayments_properties.

(** C5, at a backend holding one outgoing payment of raw amount +100. *)
Lemma GetTransactions_direction_witness :
  exists response,
    ListPayments samples.sdk_one_payment (wallet.GetTransactions_request 10)
      = (response, no_SdkError) /\
    Forall2 classified (Payments response)
      [ {| wallet.ID := "p1"; wallet.Transaction_AmountSats := -100;
           wallet.Transaction_FeeSats := 1; wallet.Transaction_Status := "Complete";
           wallet.Type_ := "send"; wallet.Transaction_Description := "Payment";
           wallet.Transaction_Timestamp := 1700000000;
           wallet.Transaction_PaymentHash := "p1" |} ].
Proof.
  apply (GetTransactions_direction samples.status_text
           (samples.wallet_on samples.sdk_one_payment) 10).
  reflexivity.
Defined.

(** C8 (amended), at the limits 5 and 20. *)
Lemma GetTransactions_page_size_witness :
  (exists page txs,
     wallet.GetTransactions samples.status_text (samples.wallet_on samples.idle_sdk) 5 =
       ([sdk_ListPayments {| Offset := Some 0; Limit := Some page |}], Return txs) /\
     (5 < 10 -> page = 100) /\ (10 <= 5 -> page = 5) /\
     length txs = length (@nil Payment) /\
     Forall2 (fun payment tx => wallet.ID tx = Id payment) [] txs) /\
  (exists page txs,
     wallet.GetTransactions samples.status_text (samples.wallet_on samples.idle_sdk) 20 =
       ([sdk_ListPayments {| Offset := Some 0; Limit := Some page |}], Return txs) /\
     (20 < 10 -> page = 100) /\ (10 <= 20 -> page = 20) /\
     length txs = length (@nil Payment) /\
     Forall2 (fun payment tx => wallet.ID tx = Id payment) [] txs).
Proof.
  split.
  - apply (GetTransactions_page_size samples.status_text
             (samples.wallet_on samples.idle_sdk) 5 {| Payments := [] |});
      [lia | reflexivity].
  - apply (GetTransactions_page_size samples.status_text
             (samples.wallet_on samples.idle_sdk) 20 {| Payments := [] |});
      [lia | reflexivity].
Defined.

(** C8 (as stated, refuted): the limit 4294967296 = 2^32 is at least 10, yet
    its conversion to [uint32] is 0, so the backend is asked for 100
    entries, not for 4294967296. *)
Lemma GetTransactions_limit_wraps :
  10 <= 4294967296 /\ Go.is_int 4294967296 /\
  calls (wallet.GetTransactions samples.status_text
           (samples.wallet_on samples.idle_sdk) 4294967296)
    = [sdk_ListPayments {| Offset := Some 0; Limit := Some 100 |}] /\
  Some 100 <> Some 4294967296.
Proof.
  split; [lia |]. split; [unfold Go.is_int; lia |].
  split; [reflexivity | discriminate].
Qed.

(** *** Sending: prepare, then execute *)

Section Send_properties.

Variable string_of_PaymentStatus : PaymentStatus -> string.
Variable w : wallet.Wallet.

Local Abbreviation SendLightningInvoice :=
  (wallet.SendLightningInvoice string_of_PaymentStatus w).
Local Abbreviation SendBitcoinAddress :=
  (wallet.SendBitcoinAddress string_of_PaymentStatus w).
Local Abbreviation SendSparkAddress :=
  (wallet.SendSparkAddress string_of_PaymentStatus w).
Local Abbreviation LnUrlPay := (wallet.LnUrlPay string_of_PaymentStatus w).

(** C10: when the prepare step of a send operation fails, the operation
    returns the wrapped prepare error at once and the only call it has
    made is the prepare call: the execute step is not invoked.  This holds
    for Lightning invoices, on-chain addresses and Spark addresses. *)
Theorem prepare_failure_never_executes (destination : string) (amountSats : Z)
    (e : SdkError) :
  ((PrepareSendPayment (wallet.sdk w)
      {| PrepareSendPaymentRequest_PaymentRequest := destination;
         PrepareSendPaymentRequest_Amount := None |}).2 = error_SdkError (Some e) ->
   SendLightningInvoice destination =
     ([sdk_PrepareSendPayment
         {| PrepareSendPaymentRequest_PaymentRequest := destination;
            PrepareSendPaymentRequest_Amount := None |}],
      Fail (Errorf_w "failed to prepare lightning payment" (error_SdkError (Some e)))) /\
   Forall (fun c => is_execute c = false) (calls (SendLightningInvoice destination))) /\
  ((PrepareSendPayment (wallet.sdk w)
      {| PrepareSendPaymentRequest_PaymentRequest := destination;
         PrepareSendPaymentRequest_Amount := Some amountSats |}).2
     = error_SdkError (Some e) ->
   SendBitcoinAddress destination amountSats =
     ([sdk_PrepareSendPayment
         {| PrepareSendPaymentRequest_PaymentRequest := destination;
            PrepareSendPaymentRequest_Amount := Some amountSats |}],
      Fail (Errorf_w "failed to prepare onchain payment" (error_SdkError (Some e)))) /\
   Forall (fun c => is_execute c = false)
          (calls (SendBitcoinAddress destination amountSats)) /\
   SendSparkAddress destination amountSats =
     ([sdk_PrepareSendPayment
         {| PrepareSendPaymentRequest_PaymentRequest := destination;
            PrepareSendPaymentRequest_Amount := Some amountSats |}],
      Fail (Errorf_w "failed to prepare spark payment" (error_SdkError (Some e)))) /\
   Forall (fun c => is_execute c = false)
          (calls (SendSparkAddress destination amountSats))).
Proof.
  unfold wallet.SendLightningInvoice, wallet.SendBitcoinAddress,
    wallet.SendSparkAddress, Go.big_NewInt.
  split; intros Hprepare;
    match goal with
    | |- context [PrepareSendPayment (wallet.sdk w) ?req] =>
        destruct (PrepareSendPayment (wallet.sdk w) req) as [prepareResp perr];
        cbn [snd] in Hprepare; subst perr
    end;
    run; repeat split; each_call; reflexivity.
Qed.

(** Whatever the error of the prepare step is, as long as it is not the
    SDK's success value, no execute call is made (the operation returns
    the error or panics in the assertion). *)
Lemma prepare_error_never_executes (destination : string) (amountSats : Z) :
  (forall req, (PrepareSendPayment (wallet.sdk w) req).2 <> no_SdkError) ->
  Forall (fun c => is_execute c = false) (calls (SendLightningInvoice destination)) /\
  Forall (fun c => is_execute c = false) (calls (SendBitcoinAddress destination amountSats)) /\
  Forall (fun c => is_execute c = false) (calls (SendSparkAddress destination amountSats)).
Proof.
  intros Hprepare.
  unfold wallet.SendLightningInvoice, wallet.SendBitcoinAddress,
    wallet.SendSparkAddress, Go.big_NewInt.
  repeat match goal with
         | |- context [PrepareSendPayment (wallet.sdk w) ?req] =>
             let Herr := fresh "Herr" in
             let perr := fresh "perr" in
             pose proof (Hprepare req) as Herr;
             destruct (PrepareSendPayment (wallet.sdk w) req) as [? perr];
             cbn [snd] in Herr;
             destruct perr as [| [? |] | ? | ? | ? ?];
             try (exfalso; apply Herr; reflexivity)
         end;
    run; repeat split; each_call; reflexivity.
Qed.

(** What a successful on-chain send went through. *)
Lemma SendBitcoinAddress_run (address : string) (amountSats : Z)
    (prepareResp : PrepareSendPaymentResponse) (response : SendPaymentResponse)
    (err : error) :
  let prepareReq :=
    {| PrepareSendPaymentRequest_PaymentRequest := address;
       PrepareSendPaymentRequest_Amount := Some amountSats |} in
  let sendReq :=
    {| SendPaymentRequest_PrepareResponse := prepareResp;
       Options := Some (SendPaymentOptionsBitcoinAddress OnchainConfirmationSpeedMedium) |} in
  PrepareSendPayment (wallet.sdk w) prepareReq = (prepareResp, no_SdkError) ->
  SendPayment (wallet.sdk w) sendReq = (response, err) ->
  SendBitcoinAddress address amountSats =
    ([sdk_PrepareSendPayment prepareReq; sdk_SendPayment sendReq],
     match err with
     | error_SdkError None =>
         Return (wallet.PaymentResponse_of string_of_PaymentStatus
                   (SendPaymentResponse_Payment response))
     | error_SdkError (Some e) =>
         Fail (Errorf_w "failed to send onchain payment" err)
     | error_nil =>
         Panic "interface conversion: error is nil, not *breez_sdk_spark.SdkError"
     | _ => Panic "interface conversion: error is not *breez_sdk_spark.SdkError"
     end).
Proof.
  intros prepareReq sendReq Hprepare Hsend.
  unfold wallet.SendBitcoinAddress, Go.big_NewInt.
  fold prepareReq. rewrite Hprepare. run. fold sendReq. rewrite Hsend.
  destruct err as [| [e |] | | |]; reflexivity.
Qed.

(** C3 (amended): a successful on-chain send has handed the address and
    the requested amount, unchanged, to the prepare step, the prepare step
    has answered without error, and the payment it prepared is the one
    that has been executed, at medium confirmation speed.  The returned
    amount and fee are the amount and the fees of the payment the backend
    reports for that execution, read as [int64] and not negated.  So, for
    an amount the backend reports within the [int64] range, the returned
    amount is that amount: it is negative exactly when the backend reports
    it negative, and its magnitude is the requested amount exactly when
    the magnitude of the reported amount is.  The returned fee is the
    reported fee, hence not negative, whenever the backend reports fees
    from 0 to 2^63 - 1. *)
Theorem SendBitcoinAddress_success (address : string) (amountSats : Z)
    (result : wallet.PaymentResponse) :
  outcome (SendBitcoinAddress address amountSats) = Return result ->
  exists prepareResp payment,
    PrepareSendPayment (wallet.sdk w)
      {| PrepareSendPaymentRequest_PaymentRequest := address;
         PrepareSendPaymentRequest_Amount := Some amountSats |}
      = (prepareResp, no_SdkError) /\
    SendPayment (wallet.sdk w)
      {| SendPaymentRequest_PrepareResponse := prepareResp;
         Options :=
           Some (SendPaymentOptionsBitcoinAddress OnchainConfirmationSpeedMedium) |}
      = ({| SendPaymentResponse_Payment := payment |}, no_SdkError) /\
    calls (SendBitcoinAddress address amountSats) =
      [ sdk_PrepareSendPayment
          {| PrepareSendPaymentRequest_PaymentRequest := address;
             PrepareSendPaymentRequest_Amount := Some amountSats |};
        sdk_SendPayment
          {| SendPaymentRequest_PrepareResponse := prepareResp;
             Options :=
               Some (SendPaymentOptionsBitcoinAddress OnchainConfirmationSpeedMedium) |} ] /\
    wallet.AmountSats result = Go.big_Int64 (Amount payment) /\
    wallet.FeeSats result = Go.big_Int64 (Fees payment) /\
    wallet.PaymentHash result = Id payment /\
    (Go.is_int64 (Amount payment) ->
       wallet.AmountSats result = Amount payment /\
       (wallet.AmountSats result < 0 <-> Amount payment < 0) /\
       (Z.abs (wallet.AmountSats result) = amountSats <->
        Z.abs (Amount payment) = amountSats)) /\
    (0 <= Fees payment < 2 ^ 63 ->
       wallet.FeeSats result = Fees payment /\ 0 <= wallet.FeeSats result).
Proof.
  destruct (PrepareSendPayment (wallet.sdk w)
              {| PrepareSendPaymentRequest_PaymentRequest := address;
                 PrepareSendPaymentRequest_Amount := Some amountSats |})
    as [prepareResp perr] eqn:Hprepare.
  destruct perr as [| [e |] | | |];
    try (unfold wallet.SendBitcoinAddress, Go.big_NewInt; rewrite Hprepare;
         run; discriminate).
  destruct (SendPayment (wallet.sdk w)
              {| SendPaymentRequest_PrepareResponse := prepareResp;
                 Options :=
                   Some (SendPaymentOptionsBitcoinAddress
                           OnchainConfirmationSpeedMedium) |})
    as [[payment] err] eqn:Hsend.
  rewrite (SendBitcoinAddress_run address amountSats prepareResp _ err Hprepare Hsend).
  cbn [outcome calls fst snd].
  destruct err as [| [e |] | | |]; intros H; try discriminate.
  injection H as <-.
  exists prepareResp, payment.
  cbn [wallet.PaymentResponse_of wallet.AmountSats wallet.FeeSats wallet.PaymentHash
       SendPaymentResponse_Payment].
  split; [reflexivity |]. split; [exact Hsend |].
  do 4 (split; [reflexivity |]).
  split.
  - intros Hrange. rewrite (big_Int64_exact _ Hrange).
    split; [reflexivity |]. split; reflexivity.
  - intros Hrange.
    rewrite big_Int64_exact by (unfold Go.is_int64; lia).
    split; [reflexivity | lia].
Qed.

(** C7: when the backend resolves the alias to anything but a Lightning
    address (a pay request), [LnUrlPay] makes no call besides the
    resolution itself, so neither prepare nor execute is invoked, and it
    fails with the error "unsupported LNURL address type". *)
Theorem LnUrlPay_unsupported_type (lnurlAddress : string) (amountSats : Z)
    (comment : string) (input : InputType) :
  Parse (wallet.sdk w) lnurlAddress = (input, no_SdkError) ->
  (forall details, input <> InputTypeLightningAddress details) ->
  LnUrlPay lnurlAddress amountSats comment =
    ([sdk_Parse lnurlAddress], Fail (Errorf "unsupported LNURL address type")) /\
  Forall (fun c => is_prepare c = false /\ is_execute c = false)
         (calls (LnUrlPay lnurlAddress amountSats comment)).
Proof.
  intros Hparse Hother.
  assert (Hrun : LnUrlPay lnurlAddress amountSats comment =
                 ([sdk_Parse lnurlAddress], Fail (Errorf "unsupported LNURL address type"))).
  { unfold wallet.LnUrlPay. rewrite Hparse. run.
    destruct input; try reflexivity.
    exfalso. eapply Hother. reflexivity. }
  split; [exact Hrun |].
  rewrite Hrun. each_call. split; reflexivity.
Qed.

(** Whatever the resolution reports as its error, an alias that did not
    resolve to a Lightning address leads to no call besides the
    resolution. *)
Lemma LnUrlPay_other_type_calls (lnurlAddress : string) (amountSats : Z)
    (comment : string) :
  (forall details, (Parse (wallet.sdk w) lnurlAddress).1 <> InputTypeLightningAddress details) ->
  calls (LnUrlPay lnurlAddress amountSats comment) = [sdk_Parse lnurlAddress].
Proof.
  intros Hother. unfold wallet.LnUrlPay.
  destruct (Parse (wallet.sdk w) lnurlAddress) as [input err]. cbn [fst] in Hother.
  destruct err as [| [e |] | ? | ? | ? ?]; run; try reflexivity.
  destruct input; try reflexivity.
  exfalso. eapply Hother. reflexivity.
Qed.

End Send_properties.

(** C10, at a backend whose prepare step rejects every payment. *)
Lemma prepare_failure_never_executes_witness :
  (wallet.SendLightningInvoice samples.status_text
     (samples.wallet_on samples.sdk_rejecting) "lnbc1" =
     ([sdk_PrepareSendPayment
         {| PrepareSendPaymentRequest_PaymentRequest := "lnbc1";
            PrepareSendPaymentRequest_Amount := None |}],
      Fail (Errorf_w "failed to prepare lightning payment"
              (error_SdkError (Some samples.rejected)))) /\
   Forall (fun c => is_execute c = false)
          (calls (wallet.SendLightningInvoice samples.status_text
                    (samples.wallet_on samples.sdk_rejecting) "lnbc1"))) /\
  (wallet.SendBitcoinAddress samples.status_text
     (samples.wallet_on samples.sdk_rejecting) "bc1qexample" 100 =
     ([sdk_PrepareSendPayment
         {| PrepareSendPaymentRequest_PaymentRequest := "bc1qexample";
            PrepareSendPaymentRequest_Amount := Some 100 |}],
      Fail (Errorf_w "failed to prepare onchain payment"
              (error_SdkError (Some samples.rejected)))) /\
   Forall (fun c => is_execute c = false)
          (calls (wallet.SendBitcoinAddress samples.status_text
                    (samples.wallet_on samples.sdk_rejecting) "bc1qexample" 100)) /\
   wallet.SendSparkAddress samples.status_text
     (samples.wallet_on samples.sdk_rejecting) "bc1qexample" 100 =
     ([sdk_PrepareSendPayment
         {| PrepareSendPaymentRequest_PaymentRequest := "bc1qexample";
            PrepareSendPaymentRequest_Amount := Some 100 |}],
      Fail (Errorf_w "failed to prepare spark payment"
              (error_SdkError (Some samples.rejected)))) /\
   Forall (fun c => is_execute c = false)
          (calls (wallet.SendSparkAddress samples.status_text
                    (samples.wallet_on samples.sdk_rejecting) "bc1qexample" 100))).
Proof.
  split.
  - apply (proj1 (prepare_failure_never_executes samples.status_text
                    (samples.wallet_on samples.sdk_rejecting) "lnbc1" 100
                    samples.rejected)).
    reflexivity.
  - apply (proj2 (prepare_failure_never_executes samples.status_text
                    (samples.wallet_on samples.sdk_rejecting) "bc1qexample" 100
                    samples.rejected)).
    reflexivity.
Defined.

(** C7, at a backend that resolves the alias to an on-chain address. *)
Lemma LnUrlPay_unsupported_type_witness :
  wallet.LnUrlPay samples.status_text (samples.wallet_on samples.sdk_parsing_address)
      "bc1qexample" 5000 "Payment via LNURL" =
    ([sdk_Parse "bc1qexample"], Fail (Errorf "unsupported LNURL address type")) /\
  Forall (fun c => is_prepare c = false /\ is_execute c = false)
         (calls (wallet.LnUrlPay samples.status_text
                   (samples.wallet_on samples.sdk_parsing_address)
                   "bc1qexample" 5000 "Payment via LNURL")).
Proof.
  apply (LnUrlPay_unsupported_type samples.status_text
           (samples.wallet_on samples.sdk_parsing_address)
           "bc1qexample" 5000 "Payment via LNURL" (InputTypeBitcoinAddress "bc1qexample")).
  - reflexivity.
  - intros details. discriminate.
Defined.

(** C3 (amended), at a backend that reports the executed payment with
    amount 100 and fees 2. *)
Lemma SendBitcoinAddress_success_witness :
  exists prepareResp payment,
    PrepareSendPayment samples.sdk_sending
      {| PrepareSendPaymentRequest_PaymentRequest := "bc1qexample";
         PrepareSendPaymentRequest_Amount := Some 100 |}
      = (prepareResp, no_SdkError) /\
    SendPayment samples.sdk_sending
      {| SendPaymentRequest_PrepareResponse := prepareResp;
         Options :=
           Some (SendPaymentOptionsBitcoinAddress OnchainConfirmationSpeedMedium) |}
      = ({| SendPaymentResponse_Payment := payment |}, no_SdkError) /\
    calls (wallet.SendBitcoinAddress samples.status_text
             (samples.wallet_on samples.sdk_sending) "bc1qexample" 100) =
      [ sdk_PrepareSendPayment
          {| PrepareSendPaymentRequest_PaymentRequest := "bc1qexample";
             PrepareSendPaymentRequest_Amount := Some 100 |};
        sdk_SendPayment
          {| SendPaymentRequest_PrepareResponse := prepareResp;
             Options :=
               Some (SendPaymentOptionsBitcoinAddress OnchainConfirmationSpeedMedium) |} ] /\
    100 = Go.big_Int64 (Amount payment) /\
    2 = Go.big_Int64 (Fees payment) /\
    "p2" = Id payment /\
    (Go.is_int64 (Amount payment) ->
       100 = Amount payment /\
       (100 < 0 <-> Amount payment < 0) /\
       (Z.abs 100 = 100 <-> Z.abs (Amount payment) = 100)) /\
    (0 <= Fees payment < 2 ^ 63 -> 2 = Fees payment /\ 0 <= 2).
Proof.
  apply (SendBitcoinAddress_success samples.status_text
           (samples.wallet_on samples.sdk_sending) "bc1qexample" 100
           {| wallet.PaymentHash := "p2"; wallet.AmountSats := 100; wallet.FeeSats := 2;
              wallet.PaymentResponse_Status := "pending"; wallet.Preimage := "";
              wallet.CompletedAt := 1700000000 |}).
  reflexivity.
Defined.

(** C3 (as stated, refuted), for a send of 100 sats that succeeds.  At a
    backend that reports the payment as it reports sends in the history,
    with the positive amount 100, the returned amount is 100, which is not
    negative.  At a backend that reports the amount debited, 102 with the
    fees, the magnitude of the returned amount is not the requested
    amount.  At a backend that reports fees of 2^63, the returned fee is
    negative. *)
Lemma SendBitcoinAddress_amount_not_negated :
  (exists result,
     outcome (wallet.SendBitcoinAddress samples.status_text
                (samples.wallet_on samples.sdk_sending) "bc1qexample" 100)
       = Return result /\
     wallet.AmountSats result = 100 /\
     ~ (wallet.AmountSats result < 0 /\ Z.abs (wallet.AmountSats result) = 100 /\
        0 <= wallet.FeeSats result)) /\
  (exists result,
     outcome (wallet.SendBitcoinAddress samples.status_text
                (samples.wallet_on (examples2.sdk_reporting 102 2)) "bc1qexample" 100)
       = Return result /\
     wallet.AmountSats result = 102 /\
     Z.abs (wallet.AmountSats result) <> 100) /\
  (exists result,
     outcome (wallet.SendBitcoinAddress samples.status_text
                (samples.wallet_on (examples2.sdk_reporting 100 (2 ^ 63)))
                "bc1qexample" 100)
       = Return result /\
     wallet.AmountSats result = 100 /\
     wallet.FeeSats result = - 2 ^ 63 /\
     ~ 0 <= wallet.FeeSats result).
Proof.
  split; [| split].
  - eexists. split; [reflexivity |]. split; [reflexivity |].
    intros [H _]. vm_compute in H. discriminate.
  - eexists. split; [reflexivity |]. split; [reflexivity |].
    vm_compute. discriminate.
  - eexists. split; [reflexivity |]. split; [reflexivity |].
    split; [reflexivity |].
    intros H. vm_compute in H. apply H. reflexivity.
Qed.


(** *** GetBalance *)

Lemma GetBalance_range_no_positive
    (order : list (string * breez_sdk_spark.TokenBalance)) (balanceSats : Z) :
  (forall tokenId balance,
      (tokenId, balance) ∈ order -> Go.big_Int64 (Balance balance) <= 0) ->
  wallet.GetBalance_range order balanceSats = balanceSats.
Proof.
  induction order as [| [tokenId balance] rest IH]; intros Hnone; cbn.
  - reflexivity.
  - destruct (Z.ltb_spec 0 (Go.big_Int64 (Balance balance))) as [Hpos | _].
    + pose proof (Hnone tokenId balance (list_elem_of_here _ _)). lia.
    + apply IH. intros k b Hin. apply (Hnone k b). by apply list_elem_of_further.
Qed.

(** The loop stops at the first entry, in iteration order, whose balance
    is positive, and yields that balance. *)
Lemma GetBalance_range_first
    (before after : list (string * breez_sdk_spark.TokenBalance))
    (tokenId : string) (balance : breez_sdk_spark.TokenBalance) (balanceSats : Z) :
  (forall k b, (k, b) ∈ before -> Go.big_Int64 (Balance b) <= 0) ->
  0 < Go.big_Int64 (Balance balance) ->
  wallet.GetBalance_range (before ++ (tokenId, balance) :: after) balanceSats
    = Go.big_Int64 (Balance balance).
Proof.
  intros Hbefore Hpos.
  induction before as [| [k b] rest IH]; cbn.
  - destruct (Z.ltb_spec 0 (Go.big_Int64 (Balance balance))); [reflexivity | lia].
  - destruct (Z.ltb_spec 0 (Go.big_Int64 (Balance b))) as [Hb | _].
    + pose proof (Hbefore k b (list_elem_of_here _ _)). lia.
    + apply IH. intros k' b' Hin. apply (Hbefore k' b'). by apply list_elem_of_further.
Qed.

Lemma GetBalance_range_some_positive
    (order : list (string * breez_sdk_spark.TokenBalance)) (balanceSats : Z) :
  (exists tokenId balance,
      (tokenId, balance) ∈ order /\ 0 < Go.big_Int64 (Balance balance)) ->
  exists tokenId balance,
    (tokenId, balance) ∈ order /\ 0 < Go.big_Int64 (Balance balance) /\
    wallet.GetBalance_range order balanceSats = Go.big_Int64 (Balance balance).
Proof.
  induction order as [| [k b] rest IH]; intros (tokenId & balance & Hin & Hpos).
  - by apply elem_of_nil in Hin.
  - cbn. destruct (Z.ltb_spec 0 (Go.big_Int64 (Balance b))) as [Hb | Hb].
    + exists k, b. split; [apply list_elem_of_here | split; [exact Hb | reflexivity]].
    + apply elem_of_cons in Hin. destruct Hin as [Heq | Hin].
      * injection Heq as -> ->. lia.
      * destruct IH as (k' & b' & Hin' & Hpos' & Hrun); [by exists tokenId, balance |].
        exists k', b'. split; [by apply list_elem_of_further | by split].
Qed.

(** C1 (amended): [GetBalance] replaces the primary balance by a per-asset
    balance whenever some asset balance, read as a signed 64-bit integer
    (the method [Int64] of the balance), is positive, whatever the primary
    balance is; the balance it takes is such a reading, that of the first
    entry reading as positive in the order in which the backend's map is
    ranged over.  When no asset balance reads as positive, the spendable
    amount is the primary balance, converted to [int64], unchanged.  For
    asset balances within the [int64] range the reading is the balance
    itself: then a positive asset balance is taken whenever there is one,
    and the primary balance is kept when there is none.  The two other
    fields always repeat the spendable amount. *)
Theorem GetBalance_spendable (w : wallet.Wallet)
    (order : list (string * breez_sdk_spark.TokenBalance)) (info : GetInfoResponse) :
  GetInfo (wallet.sdk w) {| EnsureSynced := None |} = (info, no_SdkError) ->
  order ≡ₚ map_to_list (TokenBalances info) ->
  exists balance,
    wallet.GetBalance w order =
      ([sdk_GetInfo {| EnsureSynced := None |}], Return balance) /\
    wallet.MaxPayableSats balance = wallet.LightningBalanceSats balance /\
    wallet.MaxReceivableSats balance = wallet.LightningBalanceSats balance /\
    ((forall tokenId tb,
         TokenBalances info !! tokenId = Some tb -> Go.big_Int64 (Balance tb) <= 0) ->
     wallet.LightningBalanceSats balance = Go.int64 (BalanceSats info)) /\
    ((exists tokenId tb,
         TokenBalances info !! tokenId = Some tb /\ 0 < Go.big_Int64 (Balance tb)) ->
     exists tokenId tb,
       TokenBalances info !! tokenId = Some tb /\ 0 < Go.big_Int64 (Balance tb) /\
       wallet.LightningBalanceSats balance = Go.big_Int64 (Balance tb)) /\
    (forall before after tokenId tb,
        order = before ++ (tokenId, tb) :: after ->
        (forall k b, (k, b) ∈ before -> Go.big_Int64 (Balance b) <= 0) ->
        0 < Go.big_Int64 (Balance tb) ->
        wallet.LightningBalanceSats balance = Go.big_Int64 (Balance tb)) /\
    ((forall tokenId tb,
         TokenBalances info !! tokenId = Some tb -> Go.is_int64 (Balance tb)) ->
     ((forall tokenId tb,
          TokenBalances info !! tokenId = Some tb -> Balance tb <= 0) ->
      wallet.LightningBalanceSats balance = Go.int64 (BalanceSats info) /\
      (0 <= BalanceSats info < 2 ^ 63 ->
       wallet.LightningBalanceSats balance = BalanceSats info)) /\
     ((exists tokenId tb,
          TokenBalances info !! tokenId = Some tb /\ 0 < Balance tb) ->
      exists tokenId tb,
        TokenBalances info !! tokenId = Some tb /\ 0 < Balance tb /\
        wallet.LightningBalanceSats balance = Balance tb)).
Proof.
  intros Hinfo Horder.
  assert (Hin : forall k b, (k, b) ∈ order <-> TokenBalances info !! k = Some b).
  { intros k b. rewrite Horder. apply elem_of_map_to_list. }
  unfold wallet.GetBalance. rewrite Hinfo. run.
  eexists. split; [reflexivity |].
  cbn [wallet.LightningBalanceSats wallet.MaxPayableSats wallet.MaxReceivableSats].
  split; [reflexivity |]. split; [reflexivity |].
  assert (Hnone :
    (forall tokenId tb,
        TokenBalances info !! tokenId = Some tb -> Go.big_Int64 (Balance tb) <= 0) ->
    (if 0 <? Z.of_nat (size (TokenBalances info))
     then wallet.GetBalance_range order (Go.int64 (BalanceSats info))
     else Go.int64 (BalanceSats info)) = Go.int64 (BalanceSats info)).
  { intros Hnone.
    destruct (0 <? Z.of_nat (size (TokenBalances info))); [| reflexivity].
    apply GetBalance_range_no_positive.
    intros k b Hkb. apply (Hnone k b). by apply Hin. }
  assert (Hsome :
    (exists tokenId tb,
        TokenBalances info !! tokenId = Some tb /\ 0 < Go.big_Int64 (Balance tb)) ->
    exists tokenId tb,
      TokenBalances info !! tokenId = Some tb /\ 0 < Go.big_Int64 (Balance tb) /\
      (if 0 <? Z.of_nat (size (TokenBalances info))
       then wallet.GetBalance_range order (Go.int64 (BalanceSats info))
       else Go.int64 (BalanceSats info)) = Go.big_Int64 (Balance tb)).
  { intros (k & b & Hkb & Hpos).
    destruct (Z.ltb_spec 0 (Z.of_nat (size (TokenBalances info)))) as [_ | Hsize].
    + destruct (GetBalance_range_some_positive order (Go.int64 (BalanceSats info)))
        as (k' & b' & Hin' & Hpos' & Hrun).
      { exists k, b. split; [by apply Hin | exact Hpos]. }
      exists k', b'. split; [by apply Hin | by split].
    + assert (Hempty : TokenBalances info = ∅) by (apply map_size_empty_iff; lia).
      rewrite Hempty, lookup_empty in Hkb. discriminate. }
  split; [exact Hnone |]. split; [exact Hsome |].
  split.
  { intros before after k b Hsplit Hbefore Hpos.
    assert (Hsize : 0 < Z.of_nat (size (TokenBalances info))).
    { rewrite <- length_map_to_list, <- Horder, Hsplit, length_app. cbn [length]. lia. }
    destruct (Z.ltb_spec 0 (Z.of_nat (size (TokenBalances info)))); [| lia].
    rewrite Hsplit. by apply GetBalance_range_first. }
  intros Hrange. split.
  - intros Hzero.
    assert (Heq : (if 0 <? Z.of_nat (size (TokenBalances info))
                   then wallet.GetBalance_range order (Go.int64 (BalanceSats info))
                   else Go.int64 (BalanceSats info)) = Go.int64 (BalanceSats info)).
    { apply Hnone. intros k b Hkb.
      rewrite (big_Int64_exact _ (Hrange k b Hkb)). by apply (Hzero k b). }
    split; [exact Heq |].
    intros Hprimary. rewrite Heq. apply int64_exact. unfold Go.is_int64. lia.
  - intros (k & b & Hkb & Hpos).
    destruct Hsome as (k' & b' & Hkb' & Hpos' & Hrun).
    { exists k, b. split; [exact Hkb |].
      by rewrite (big_Int64_exact _ (Hrange k b Hkb)). }
    rewrite (big_Int64_exact _ (Hrange k' b' Hkb')) in Hpos', Hrun.
    exists k', b'. by repeat split.
Qed.

(** C1 (amended), at a wallet with primary balance 5 and one token
    balance of 7. *)
Lemma GetBalance_spendable_witness :
  exists balance,
    wallet.GetBalance (samples.wallet_on samples.sdk_with_token)
        [("btkn1", samples.token)] =
      ([sdk_GetInfo {| EnsureSynced := None |}], Return balance) /\
    wallet.MaxPayableSats balance = wallet.LightningBalanceSats balance /\
    wallet.MaxReceivableSats balance = wallet.LightningBalanceSats balance /\
    ((forall tokenId tb,
         TokenBalances samples.info_with_token !! tokenId = Some tb ->
         Go.big_Int64 (Balance tb) <= 0) ->
     wallet.LightningBalanceSats balance = Go.int64 (BalanceSats samples.info_with_token)) /\
    ((exists tokenId tb,
         TokenBalances samples.info_with_token !! tokenId = Some tb /\
         0 < Go.big_Int64 (Balance tb)) ->
     exists tokenId tb,
       TokenBalances samples.info_with_token !! tokenId = Some tb /\
       0 < Go.big_Int64 (Balance tb) /\
       wallet.LightningBalanceSats balance = Go.big_Int64 (Balance tb)) /\
    (forall before after tokenId tb,
        [("btkn1", samples.token)] = before ++ (tokenId, tb) :: after ->
        (forall k b, (k, b) ∈ before -> Go.big_Int64 (Balance b) <= 0) ->
        0 < Go.big_Int64 (Balance tb) ->
        wallet.LightningBalanceSats balance = Go.big_Int64 (Balance tb)) /\
    ((forall tokenId tb,
         TokenBalances samples.info_with_token !! tokenId = Some tb ->
         Go.is_int64 (Balance tb)) ->
     ((forall tokenId tb,
          TokenBalances samples.info_with_token !! tokenId = Some tb -> Balance tb <= 0) ->
      wallet.LightningBalanceSats balance = Go.int64 (BalanceSats samples.info_with_token) /\
      (0 <= BalanceSats samples.info_with_token < 2 ^ 63 ->
       wallet.LightningBalanceSats balance = BalanceSats samples.info_with_token)) /\
     ((exists tokenId tb,
          TokenBalances samples.info_with_token !! tokenId = Some tb /\ 0 < Balance tb) ->
      exists tokenId tb,
        TokenBalances samples.info_with_token !! tokenId = Some tb /\ 0 < Balance tb /\
        wallet.LightningBalanceSats balance = Balance tb)).
Proof.
  apply (GetBalance_spendable (samples.wallet_on samples.sdk_with_token)
           [("btkn1", samples.token)] samples.info_with_token).
  - reflexivity.
  - unfold samples.info_with_token. cbn [TokenBalances].
    rewrite map_to_list_singleton. reflexivity.
Defined.

(** C1 (as stated, refuted): the backend reports the primary balance 5,
    which is not zero, and one token balance of 7; the spendable amount
    returned is 7, not 5. *)
Lemma GetBalance_replaces_nonzero_primary :
  BalanceSats samples.info_with_token = 5 /\
  [("btkn1", samples.token)] ≡ₚ map_to_list (TokenBalances samples.info_with_token) /\
  wallet.GetBalance (samples.wallet_on samples.sdk_with_token) [("btkn1", samples.token)] =
    ([sdk_GetInfo {| EnsureSynced := None |}],
     Return {| wallet.LightningBalanceSats := 7;
               wallet.MaxPayableSats := 7;
               wallet.MaxReceivableSats := 7 |}) /\
  7 <> BalanceSats samples.info_with_token.
Proof.
  split; [reflexivity |]. split.
  { unfold samples.info_with_token. cbn [TokenBalances].
    rewrite map_to_list_singleton. reflexivity. }
  split; [vm_compute; reflexivity | discriminate].
Qed.

(** An asset balance of 2^63 or more need not read as positive: beside the
    primary balance 11, a token balance of 10^19 reads as a negative
    number and the spendable amount stays 11. *)
Lemma GetBalance_keeps_primary_beside_large_token :
  Go.big_Int64 (Balance examples2.large_token) < 0 /\
  wallet.GetBalance (samples.wallet_on examples2.sdk_large_token)
      [("btkn9", examples2.large_token)] =
    ([sdk_GetInfo {| EnsureSynced := None |}],
     Return {| wallet.LightningBalanceSats := 11;
               wallet.MaxPayableSats := 11;
               wallet.MaxReceivableSats := 11 |}).
Proof. split; vm_compute; reflexivity. Qed.

(** *** GetPayment against the history *)

(** X12: the record [GetPayment] builds from the backend payment [payment]
    and the entry [GetTransactions] builds from the same payment carry the
    same id, status and fee.  The amounts agree unless the payment is
    tagged as a send: the history negates the amount, [GetPayment] does
    not. *)
Lemma GetPayment_against_history (string_of_PaymentStatus : PaymentStatus -> string)
    (w : wallet.Wallet) (payment : Payment) :
  GetPayment (wallet.sdk w) {| PaymentId := Id payment |}
    = ({| GetPaymentResponse_Payment := payment |}, no_SdkError) ->
  exists fetched,
    wallet.GetPayment string_of_PaymentStatus w (Id payment) =
      ([sdk_GetPayment {| PaymentId := Id payment |}], Return fetched) /\
    let listed := wallet.GetTransactions_body string_of_PaymentStatus payment in
    wallet.ID fetched = wallet.ID listed /\
    wallet.Transaction_Status fetched = wallet.Transaction_Status listed /\
    wallet.Transaction_FeeSats fetched = wallet.Transaction_FeeSats listed /\
    wallet.Transaction_AmountSats fetched = rawAmount payment /\
    wallet.Transaction_AmountSats listed =
      match PaymentType_ payment with
      | PaymentTypeSend => Go.int64 (- rawAmount payment)
      | _ => rawAmount payment
      end.
Proof.
  intros Hget. unfold wallet.GetPayment. rewrite Hget. run.
  eexists. split; [reflexivity |].
  unfold wallet.GetTransactions_body, rawAmount. cbn.
  destruct (PaymentType_ payment); cbn; try (repeat split; reflexivity).
  destruct (0 <? Go.big_Int64 (Amount payment)); repeat split; reflexivity.
Qed.

(** C2 (the code departs from it): the backend holds the outgoing payment
    "p1" of 100 sats.  The history lists it with amount -100; [GetPayment]
    for the listed id returns the same id and status with amount +100. *)
Theorem GetPayment_amount_differs_from_history
    (string_of_PaymentStatus : PaymentStatus -> string) :
  exists listed fetched,
    outcome (wallet.GetTransactions string_of_PaymentStatus
               (samples.wallet_on samples.sdk_one_payment) 10) = Return [listed] /\
    outcome (wallet.GetPayment string_of_PaymentStatus
               (samples.wallet_on samples.sdk_one_payment) (wallet.ID listed))
      = Return fetched /\
    wallet.ID fetched = wallet.ID listed /\
    wallet.Transaction_Status fetched = wallet.Transaction_Status listed /\
    wallet.Transaction_AmountSats listed = -100 /\
    wallet.Transaction_AmountSats fetched = 100 /\
    wallet.Transaction_AmountSats fetched <> wallet.Transaction_AmountSats listed.
Proof.
  eexists. eexists.
  split; [reflexivity |]. split; [reflexivity |].
  repeat split; try reflexivity. discriminate.
Qed.

(** *** Start-up: LoadConfig before NewWallet *)

(** C4 (amended): when, after the load of the file [.env], the credential
    or the recovery phrase is empty or not set, configuration loading
    fails with the error that names the missing variable: the credential
    when it is missing (also when the phrase is missing too), the phrase
    when only the phrase is missing.  The program does not reach
    [NewWallet]: the only calls it has made are those of [LoadConfig], the
    load of [.env] and, when that load failed, the two lines of its
    warning on standard output.  No call reaches the backend and the
    working directory is not touched. *)
Theorem startup_requires_credentials (h : Host) (dotenv : config.Dotenv)
    (env : gmap string string) :
  config.Getenv (config.Load dotenv env) "BREEZ_API_KEY" = "" \/
  config.Getenv (config.Load dotenv env) "BREEZ_MNEMONIC" = "" ->
  calls (main.startup h dotenv env) =
    godotenv_Load ".env" ::
    match dotenv with
    | inl err =>
        [fmt_Print ("Warning: Could not load .env file: " +:+ err +:+ nl);
         fmt_Print ("Using environment variables from system" +:+ nl)]
    | inr vars => []
    end /\
  Forall (fun c => is_backend_call c = false) (calls (main.startup h dotenv env)) /\
  Forall (fun c => forall path, c <> os_MkdirAll path /\ c <> os_Stat path)
         (calls (main.startup h dotenv env)) /\
  (config.Getenv (config.Load dotenv env) "BREEZ_API_KEY" = "" ->
   outcome (main.startup h dotenv env) = Fail (Errorf "BREEZ_API_KEY is required")) /\
  (config.Getenv (config.Load dotenv env) "BREEZ_API_KEY" <> "" ->
   outcome (main.startup h dotenv env) = Fail (Errorf "BREEZ_MNEMONIC is required")).
Proof.
  intros Hempty. unfold main.startup. rewrite LoadConfig_run.
  assert (Hrun :
    forall e : error,
      mbind (wallet.NewWallet h) (config.LoadConfig_calls dotenv, Fail e)
        = (config.LoadConfig_calls dotenv, Fail e)) by reflexivity.
  destruct (String.eqb_spec (config.Getenv (config.Load dotenv env) "BREEZ_API_KEY") "")
    as [Hkey | Hkey].
  - rewrite Hrun. cbn [calls outcome fst snd].
    split; [reflexivity |].
    split; [destruct dotenv; repeat constructor |].
    split; [destruct dotenv; repeat constructor; discriminate |].
    split; [reflexivity | intros H; contradiction].
  - destruct (String.eqb_spec (config.Getenv (config.Load dotenv env) "BREEZ_MNEMONIC") "")
      as [Hphrase | Hphrase].
    + rewrite Hrun. cbn [calls outcome fst snd].
      split; [reflexivity |].
      split; [destruct dotenv; repeat constructor |].
      split; [destruct dotenv; repeat constructor; discriminate |].
      split; [intros H; contradiction | reflexivity].
    + destruct Hempty as [H | H]; contradiction.
Qed.

(** C4 (amended), with no recovery phrase in the environment and no file
    [.env]. *)
Lemma startup_requires_credentials_witness :
  calls (main.startup samples.host examples.no_dotenv {[ "BREEZ_API_KEY" := "key" ]}) =
    godotenv_Load ".env" ::
    match examples.no_dotenv with
    | inl err =>
        [fmt_Print ("Warning: Could not load .env file: " +:+ err +:+ nl);
         fmt_Print ("Using environment variables from system" +:+ nl)]
    | inr vars => []
    end /\
  Forall (fun c => is_backend_call c = false)
         (calls (main.startup samples.host examples.no_dotenv
                   {[ "BREEZ_API_KEY" := "key" ]})) /\
  Forall (fun c => forall path, c <> os_MkdirAll path /\ c <> os_Stat path)
         (calls (main.startup samples.host examples.no_dotenv
                   {[ "BREEZ_API_KEY" := "key" ]})) /\
  (config.Getenv (config.Load examples.no_dotenv {[ "BREEZ_API_KEY" := "key" ]})
     "BREEZ_API_KEY" = "" ->
   outcome (main.startup samples.host examples.no_dotenv {[ "BREEZ_API_KEY" := "key" ]})
     = Fail (Errorf "BREEZ_API_KEY is required")) /\
  (config.Getenv (config.Load examples.no_dotenv {[ "BREEZ_API_KEY" := "key" ]})
     "BREEZ_API_KEY" <> "" ->
   outcome (main.startup samples.host examples.no_dotenv {[ "BREEZ_API_KEY" := "key" ]})
     = Fail (Errorf "BREEZ_MNEMONIC is required")).
Proof.
  apply (startup_requires_credentials samples.host examples.no_dotenv
           {[ "BREEZ_API_KEY" := "key" ]}).
  right. vm_compute. reflexivity.
Defined.

(** C4 (as stated, refuted): [NewWallet] itself, given a configuration
    whose credential and recovery phrase are both empty, prepares the
    working directory and calls the backend's [Connect] with them. *)
Lemma NewWallet_connects_with_empty_credentials :
  config.BreezAPIKey samples.cfg_empty = "" /\
  config.BreezMnemonic samples.cfg_empty = "" /\
  wallet.NewWallet samples.host samples.cfg_empty =
    ([os_MkdirAll ".tiny-spark-data"; os_Stat ".tiny-spark-data";
      sdk_DefaultConfig NetworkRegtest;
      sdk_Connect samples.request_empty;
      time_Sleep 10],
     Return {| wallet.sdk := samples.idle_sdk; wallet.config_ := samples.cfg_empty |}) /\
  is_backend_call (sdk_Connect samples.request_empty) = true.
Proof. repeat split; reflexivity. Qed.

(** *** The error assertion on success *)

Section Assertion_properties.

Variable string_of_PaymentStatus : PaymentStatus -> string.
Variable w : wallet.Wallet.
Variable h : Host.

(** Rewrites the answers of the backend that report no [SdkError]. *)
Ltac answer Hok :=
  destruct Hok as (HGetInfo & HListPayments & HGetPayment & HReceivePayment &
                   HPrepareSendPayment & HSendPayment & HParse &
                   HPrepareLnurlPay & HLnurlPay).



End Assertion_properties.


(** The assertion relies on the bindings' convention.  An answer whose
    error were the nil interface, which the SDK does not produce (every
    start-up runs the same assertion on the answer of [Connect]), would
    make the single-result assertion panic. *)
Lemma GetBalance_panics_on_nil_error :
  (GetInfo samples.sdk_nil_error {| EnsureSynced := None |}).2 = error_nil /\
  wallet.GetBalance (samples.wallet_on samples.sdk_nil_error) [] =
    ([sdk_GetInfo {| EnsureSynced := None |}],
     Panic "interface conversion: error is nil, not *breez_sdk_spark.SdkError") /\
  panics (wallet.GetBalance (samples.wallet_on samples.sdk_nil_error) []).
Proof.
  split; [reflexivity |]. split; [reflexivity |].
  eexists. reflexivity.
Qed.

(** *** Configuration and start-up *)

(** X1: the only calls of [LoadConfig] are the load of the file [.env]
    and, exactly when that load fails, the two lines of its warning on
    standard output; no call reaches the backend.  The load adds the
    variables of the file to the environment and changes none that is
    set.  [LoadConfig] returns a configuration exactly when, after the
    load, both the credential and the recovery phrase are set and
    non-empty; a missing credential is reported first. *)
Theorem LoadConfig_returns_iff (dotenv : config.Dotenv) (env : gmap string string) :
  calls (config.LoadConfig dotenv env) =
    godotenv_Load ".env" ::
    match dotenv with
    | inl err =>
        [fmt_Print ("Warning: Could not load .env file: " +:+ err +:+ nl);
         fmt_Print ("Using environment variables from system" +:+ nl)]
    | inr vars => []
    end /\
  Forall (fun c => is_backend_call c = false) (calls (config.LoadConfig dotenv env)) /\
  (forall key value,
      env !! key = Some value -> config.Load dotenv env !! key = Some value) /\
  (forall vars key,
      dotenv = inr vars -> env !! key = None ->
      config.Load dotenv env !! key = vars !! key) /\
  (forall err, dotenv = inl err -> config.Load dotenv env = env) /\
  (returns (config.LoadConfig dotenv env) <->
   config.Getenv (config.Load dotenv env) "BREEZ_API_KEY" <> "" /\
   config.Getenv (config.Load dotenv env) "BREEZ_MNEMONIC" <> "") /\
  (config.Getenv (config.Load dotenv env) "BREEZ_API_KEY" = "" ->
   outcome (config.LoadConfig dotenv env) = Fail (Errorf "BREEZ_API_KEY is required")) /\
  (config.Getenv (config.Load dotenv env) "BREEZ_API_KEY" <> "" ->
   config.Getenv (config.Load dotenv env) "BREEZ_MNEMONIC" = "" ->
   outcome (config.LoadConfig dotenv env) = Fail (Errorf "BREEZ_MNEMONIC is required")).
Proof.
  split; [rewrite LoadConfig_calls_eq; reflexivity |].
  split.
  { rewrite LoadConfig_calls_eq.
    destruct dotenv as [err | vars]; repeat constructor. }
  split; [intros key value; apply Load_keeps |].
  split.
  { intros vars key -> Hkey. cbn [config.Load].
    destruct (vars !! key) as [v |] eqn:Hv.
    - apply lookup_union_Some_raw. right. by split.
    - apply lookup_union_None. by split. }
  split; [intros err ->; reflexivity |].
  rewrite LoadConfig_run. cbn [outcome snd]. unfold returns. cbn [outcome snd].
  destruct (String.eqb_spec (config.Getenv (config.Load dotenv env) "BREEZ_API_KEY") "")
    as [Hk | Hk];
    [| destruct (String.eqb_spec
                   (config.Getenv (config.Load dotenv env) "BREEZ_MNEMONIC") "")
         as [Hm | Hm]];
    (split; [split |]).
  - intros [a Ha]. discriminate.
  - intros [H _]. contradiction.
  - split; [reflexivity | intros H; contradiction].
  - intros [a Ha]. discriminate.
  - intros [_ H]. contradiction.
  - split; [intros H; contradiction | reflexivity].
  - intros _. split; assumption.
  - intros _. eexists; reflexivity.
  - split; intros H; contradiction.
Qed.

(** X2: the configuration [LoadConfig] returns carries the credential and
    the phrase of the environment, as it is after the load of [.env],
    unchanged; the network is "mainnet" unless BREEZ_NETWORK is set and
    non-empty; the working directory is BREEZ_WORKING_DIR, else
    BREEZ_DATA_DIR, else ".tiny-spark-data" (a variable set to the empty
    text counts as not set).  Neither the network nor the directory is
    ever empty. *)
Theorem LoadConfig_fields (dotenv : config.Dotenv) (env : gmap string string)
    (cfg : config.Config) :
  outcome (config.LoadConfig dotenv env) = Return cfg ->
  config.BreezAPIKey cfg = config.Getenv (config.Load dotenv env) "BREEZ_API_KEY" /\
  config.BreezMnemonic cfg = config.Getenv (config.Load dotenv env) "BREEZ_MNEMONIC" /\
  config.BreezNetwork cfg =
    first_nonempty (config.Getenv (config.Load dotenv env) "BREEZ_NETWORK") "" "mainnet" /\
  config.BreezWorkingDir cfg =
    first_nonempty (config.Getenv (config.Load dotenv env) "BREEZ_WORKING_DIR")
                   (config.Getenv (config.Load dotenv env) "BREEZ_DATA_DIR")
                   ".tiny-spark-data" /\
  config.BreezAPIKey cfg <> "" /\ config.BreezMnemonic cfg <> "" /\
  config.BreezNetwork cfg <> "" /\ config.BreezWorkingDir cfg <> "".
Proof.
  rewrite LoadConfig_run. cbn [outcome snd].
  rewrite !getEnv_spec. unfold first_nonempty.
  destruct (String.eqb_spec (config.Getenv (config.Load dotenv env) "BREEZ_API_KEY") "")
    as [Hk | Hk]; [discriminate |].
  destruct (String.eqb_spec (config.Getenv (config.Load dotenv env) "BREEZ_MNEMONIC") "")
    as [Hm | Hm]; [discriminate |].
  intros H. injection H as <-. cbn.
  repeat split; try assumption; try reflexivity.
  - destruct (String.eqb_spec (config.Getenv (config.Load dotenv env) "BREEZ_NETWORK") "");
      [discriminate | assumption].
  - destruct (String.eqb_spec
                (config.Getenv (config.Load dotenv env) "BREEZ_WORKING_DIR") "");
      [| assumption].
    destruct (String.eqb_spec (config.Getenv (config.Load dotenv env) "BREEZ_DATA_DIR") "");
      [discriminate | assumption].
Qed.

(** X2, with the credential and the legacy directory variable taken from
    the file [.env] and the recovery phrase from the environment. *)
Lemma LoadConfig_fields_witness :
  "key from file" =
    config.Getenv (config.Load examples.dotenv_file examples.env_mnemonic_only)
      "BREEZ_API_KEY" /\
  "abandon ability able" =
    config.Getenv (config.Load examples.dotenv_file examples.env_mnemonic_only)
      "BREEZ_MNEMONIC" /\
  "mainnet" =
    first_nonempty
      (config.Getenv (config.Load examples.dotenv_file examples.env_mnemonic_only)
         "BREEZ_NETWORK") "" "mainnet" /\
  "/srv/spark" =
    first_nonempty
      (config.Getenv (config.Load examples.dotenv_file examples.env_mnemonic_only)
         "BREEZ_WORKING_DIR")
      (config.Getenv (config.Load examples.dotenv_file examples.env_mnemonic_only)
         "BREEZ_DATA_DIR")
      ".tiny-spark-data" /\
  "key from file" <> "" /\ "abandon ability able" <> "" /\ "mainnet" <> "" /\
  "/srv/spark" <> "".
Proof.
  apply (LoadConfig_fields examples.dotenv_file examples.env_mnemonic_only
           {| config.BreezAPIKey := "key from file";
              config.BreezMnemonic := "abandon ability able";
              config.BreezNetwork := "mainnet";
              config.BreezWorkingDir := "/srv/spark" |}).
  vm_compute. reflexivity.
Defined.

(** *** createWorkingDir and NewWallet *)

Section NewWallet_properties.

Variable h : Host.

(** What a run of [createWorkingDir] is, given the answers of the file
    system. *)
Lemma createWorkingDir_run (path : string) :
  wallet.createWorkingDir h path =
    if String.eqb path "" then ([], Fail (Errorf "working directory path cannot be empty"))
    else match MkdirAll h path with
         | Some e =>
             ([os_MkdirAll path],
              Fail (Errorf_w ("failed to create working directory " +:+ path) (error_os e)))
         | None =>
             ([os_MkdirAll path; os_Stat path],
              match Stat h path with
              | inl e =>
                  Fail (Errorf_w ("working directory " +:+ path +:+ " is not accessible")
                                 (error_os e))
              | inr false =>
                  Fail (Errorf ("working directory path " +:+ path +:+ " is not a directory"))
              | inr true => Return tt
              end)
         end.
Proof.
  unfold wallet.createWorkingDir.
  destruct (String.eqb path ""); [reflexivity |].
  run. destruct (MkdirAll h path); [reflexivity |].
  run. destruct (Stat h path) as [e | []]; reflexivity.
Qed.

Lemma createWorkingDir_returns (path : string) :
  returns (wallet.createWorkingDir h path) ->
  path <> "" /\ MkdirAll h path = None /\ Stat h path = inr true.
Proof.
  rewrite createWorkingDir_run.
  destruct (String.eqb_spec path "") as [-> | Hpath];
    [intros [a Ha]; discriminate |].
  destruct (MkdirAll h path); [intros [a Ha]; discriminate |].
  destruct (Stat h path) as [e | []]; intros [a Ha]; try discriminate.
  repeat split; assumption.
Qed.

(** X3: [createWorkingDir] succeeds exactly when the path is not empty,
    [os.MkdirAll] reports no error and [os.Stat] then reports a
    directory.  An empty path is refused without touching the file
    system, and [os.Stat] is consulted only after [os.MkdirAll]
    succeeded. *)
Theorem createWorkingDir_returns_iff (path : string) :
  (returns (wallet.createWorkingDir h path) <->
   path <> "" /\ MkdirAll h path = None /\ Stat h path = inr true) /\
  (path = "" -> calls (wallet.createWorkingDir h path) = []) /\
  (os_Stat path ∈ calls (wallet.createWorkingDir h path) -> MkdirAll h path = None).
Proof.
  split; [split; [apply createWorkingDir_returns |] |].
  - intros (Hpath & Hmk & Hstat). rewrite createWorkingDir_run.
    destruct (String.eqb_spec path ""); [contradiction |].
    rewrite Hmk, Hstat. eexists; reflexivity.
  - rewrite createWorkingDir_run. split.
    + intros ->. reflexivity.
    + destruct (String.eqb path ""); cbn [calls fst].
      * intros H. by apply elem_of_nil in H.
      * destruct (MkdirAll h path); [| reflexivity].
        cbn [calls fst]. intros H. apply list_elem_of_singleton in H. discriminate.
Qed.

(** What a run of [NewWallet] is, given the answers of the host. *)
Lemma NewWallet_run (cfg : config.Config) :
  wallet.NewWallet h cfg =
    match wallet.createWorkingDir h (config.BreezWorkingDir cfg) with
    | (t, Return _) =>
        let network := wallet.networkFromString (config.BreezNetwork cfg) in
        let request := connect_request h cfg in
        match (Connect h request).2 with
        | error_SdkError None =>
            (t ++ [sdk_DefaultConfig network; sdk_Connect request; time_Sleep 10],
             Return {| wallet.sdk := (Connect h request).1; wallet.config_ := cfg |})
        | error_SdkError (Some e) =>
            (t ++ [sdk_DefaultConfig network; sdk_Connect request],
             Fail (Errorf_w "failed to connect to Breez SDK" (error_SdkError (Some e))))
        | error_nil =>
            (t ++ [sdk_DefaultConfig network; sdk_Connect request],
             Panic "interface conversion: error is nil, not *breez_sdk_spark.SdkError")
        | _ =>
            (t ++ [sdk_DefaultConfig network; sdk_Connect request],
             Panic "interface conversion: error is not *breez_sdk_spark.SdkError")
        end
    | (t, Fail e) => (t, Fail (Errorf_w "failed to create working directory" e))
    | (t, Panic r) => (t, Panic r)
    end.
Proof.
  unfold wallet.NewWallet, connect_request.
  destruct (wallet.createWorkingDir h (config.BreezWorkingDir cfg)) as [t [[] | e | r]];
    run; try reflexivity.
  destruct (ApiKey (DefaultConfig h _));
    (destruct (Connect h _) as [conn err]; cbn [fst snd];
     destruct err as [| [e |] | ? | ? | ? ?]; reflexivity).
Qed.

(** X4: when the working directory cannot be prepared, [createWorkingDir]
    has returned an error, and [NewWallet] fails with that very error
    wrapped under "failed to create working directory".  It has made the
    calls of [createWorkingDir] and no other, which are calls of the file
    system on the working directory: the SDK is neither configured nor
    connected. *)
Theorem NewWallet_directory_failure (cfg : config.Config) :
  ~ returns (wallet.createWorkingDir h (config.BreezWorkingDir cfg)) ->
  exists e,
    outcome (wallet.createWorkingDir h (config.BreezWorkingDir cfg)) = Fail e /\
    wallet.NewWallet h cfg =
      (calls (wallet.createWorkingDir h (config.BreezWorkingDir cfg)),
       Fail (Errorf_w "failed to create working directory" e)) /\
    Forall (fun c => c = os_MkdirAll (config.BreezWorkingDir cfg) \/
                     c = os_Stat (config.BreezWorkingDir cfg))
           (calls (wallet.NewWallet h cfg)).
Proof.
  intros Hdir. rewrite NewWallet_run.
  pose proof (createWorkingDir_calls h (config.BreezWorkingDir cfg)) as Hos.
  pose proof (createWorkingDir_never_panics h (config.BreezWorkingDir cfg)) as Hpanic.
  destruct (wallet.createWorkingDir h (config.BreezWorkingDir cfg)) as [t [[] | e | r]].
  - exfalso. apply Hdir. eexists; reflexivity.
  - exists e. split; [reflexivity |]. split; [reflexivity | exact Hos].
  - exfalso. apply Hpanic. eexists; reflexivity.
Qed.

(** X5: once the working directory is prepared, [NewWallet] asks the SDK
    for the default configuration of the selected network and connects
    with the credential, the recovery phrase (no passphrase), the working
    directory as storage and a sync interval of 60 seconds, whatever the
    SDK's defaults were.  When the connection is accepted it waits 10
    seconds and returns a wallet on the connected instance; when it is
    rejected it returns the wrapped SDK error without waiting. *)
Theorem NewWallet_connects (cfg : config.Config) (conn : BreezSdk) (err : error) :
  returns (wallet.createWorkingDir h (config.BreezWorkingDir cfg)) ->
  Connect h (connect_request h cfg) = (conn, err) ->
  (err = no_SdkError ->
   wallet.NewWallet h cfg =
     ([os_MkdirAll (config.BreezWorkingDir cfg); os_Stat (config.BreezWorkingDir cfg);
       sdk_DefaultConfig (wallet.networkFromString (config.BreezNetwork cfg));
       sdk_Connect (connect_request h cfg);
       time_Sleep 10],
      Return {| wallet.sdk := conn; wallet.config_ := cfg |})) /\
  (forall e, err = error_SdkError (Some e) ->
   wallet.NewWallet h cfg =
     ([os_MkdirAll (config.BreezWorkingDir cfg); os_Stat (config.BreezWorkingDir cfg);
       sdk_DefaultConfig (wallet.networkFromString (config.BreezNetwork cfg));
       sdk_Connect (connect_request h cfg)],
      Fail (Errorf_w "failed to connect to Breez SDK" err))).
Proof.
  intros Hdir Hconnect.
  apply createWorkingDir_returns in Hdir. destruct Hdir as (Hpath & Hmk & Hstat).
  rewrite NewWallet_run. unfold wallet.createWorkingDir.
  destruct (String.eqb_spec (config.BreezWorkingDir cfg) "") as [He | _];
    [contradiction |].
  rewrite Hmk. run. rewrite Hstat. run. rewrite Hconnect. cbn [fst snd].
  split.
  - intros ->. reflexivity.
  - intros e ->. reflexivity.
Qed.

End NewWallet_properties.

(** X4, on a host where the directory path is taken by a file. *)
Lemma NewWallet_directory_failure_witness :
  exists e,
    outcome (wallet.createWorkingDir examples.host_file_in_the_way
               (config.BreezWorkingDir samples.cfg)) = Fail e /\
    wallet.NewWallet examples.host_file_in_the_way samples.cfg =
      (calls (wallet.createWorkingDir examples.host_file_in_the_way
                (config.BreezWorkingDir samples.cfg)),
       Fail (Errorf_w "failed to create working directory" e)) /\
    Forall (fun c => c = os_MkdirAll (config.BreezWorkingDir samples.cfg) \/
                     c = os_Stat (config.BreezWorkingDir samples.cfg))
           (calls (wallet.NewWallet examples.host_file_in_the_way samples.cfg)).
Proof.
  apply (NewWallet_directory_failure examples.host_file_in_the_way samples.cfg).
  intros [a Ha]. vm_compute in Ha. discriminate.
Defined.

(** X5, on a host whose [Connect] is rejected. *)
Lemma NewWallet_connects_witness :
  (error_SdkError (Some samples.rejected) = no_SdkError ->
   wallet.NewWallet examples.host_refusing samples.cfg =
     ([os_MkdirAll (config.BreezWorkingDir samples.cfg);
       os_Stat (config.BreezWorkingDir samples.cfg);
       sdk_DefaultConfig (wallet.networkFromString (config.BreezNetwork samples.cfg));
       sdk_Connect (connect_request examples.host_refusing samples.cfg);
       time_Sleep 10],
      Return {| wallet.sdk := samples.idle_sdk; wallet.config_ := samples.cfg |})) /\
  (forall e, error_SdkError (Some samples.rejected) = error_SdkError (Some e) ->
   wallet.NewWallet examples.host_refusing samples.cfg =
     ([os_MkdirAll (config.BreezWorkingDir samples.cfg);
       os_Stat (config.BreezWorkingDir samples.cfg);
       sdk_DefaultConfig (wallet.networkFromString (config.BreezNetwork samples.cfg));
       sdk_Connect (connect_request examples.host_refusing samples.cfg)],
      Fail (Errorf_w "failed to connect to Breez SDK"
              (error_SdkError (Some samples.rejected))))).
Proof.
  apply (NewWallet_connects examples.host_refusing samples.cfg samples.idle_sdk
           (error_SdkError (Some samples.rejected))).
  - exists tt. reflexivity.
  - reflexivity.
Defined.

(** X6: with the credential and the recovery phrase set and BREEZ_NETWORK
    not set (or empty) after the load of [.env], start-up selects the
    production network: the wallet is built from a configuration whose
    network text is "mainnet", and once the working directory is prepared
    the SDK is asked for the mainnet configuration.  The calls of
    start-up are those of [LoadConfig] followed by those of [NewWallet]. *)
Theorem startup_default_network (h : Host) (dotenv : config.Dotenv)
    (env : gmap string string) :
  config.Getenv (config.Load dotenv env) "BREEZ_API_KEY" <> "" ->
  config.Getenv (config.Load dotenv env) "BREEZ_MNEMONIC" <> "" ->
  config.Getenv (config.Load dotenv env) "BREEZ_NETWORK" = "" ->
  exists cfg,
    config.LoadConfig dotenv env = (config.LoadConfig_calls dotenv, Return cfg) /\
    main.startup h dotenv env =
      (config.LoadConfig_calls dotenv ++ calls (wallet.NewWallet h cfg),
       outcome (wallet.NewWallet h cfg)) /\
    config.BreezNetwork cfg = "mainnet" /\
    (returns (wallet.createWorkingDir h (config.BreezWorkingDir cfg)) ->
     sdk_DefaultConfig NetworkMainnet ∈ calls (main.startup h dotenv env)).
Proof.
  intros Hk Hm Hn.
  unfold main.startup. rewrite LoadConfig_run.
  rewrite (getEnv_spec _ "BREEZ_NETWORK"), Hn.
  destruct (String.eqb_spec (config.Getenv (config.Load dotenv env) "BREEZ_API_KEY") "");
    [contradiction |].
  destruct (String.eqb_spec (config.Getenv (config.Load dotenv env) "BREEZ_MNEMONIC") "");
    [contradiction |].
  cbn [String.eqb].
  eexists. split; [reflexivity |].
  rewrite bind_Return.
  split; [reflexivity |]. split; [reflexivity |].
  intros Hdir. cbn [calls fst].
  apply elem_of_app. right.
  match goal with
  | |- context [wallet.NewWallet h ?cfg] => rewrite (NewWallet_run h cfg)
  end.
  destruct (wallet.createWorkingDir h _) as [t [[] | e | r]];
    try (destruct Hdir as [a Ha]; discriminate).
  cbn [config.BreezNetwork wallet.networkFromString String.eqb Ascii.eqb Bool.eqb].
  destruct ((Connect h _).2) as [| [e |] | ? | ? | ? ?]; cbn [calls fst app];
    apply elem_of_app; right; apply list_elem_of_here.
Qed.

(** X6, in an environment holding only the two required variables, with
    no file [.env]. *)
Lemma startup_default_network_witness :
  exists cfg,
    config.LoadConfig examples.no_dotenv examples.env =
      (config.LoadConfig_calls examples.no_dotenv, Return cfg) /\
    main.startup samples.host examples.no_dotenv examples.env =
      (config.LoadConfig_calls examples.no_dotenv
         ++ calls (wallet.NewWallet samples.host cfg),
       outcome (wallet.NewWallet samples.host cfg)) /\
    config.BreezNetwork cfg = "mainnet" /\
    (returns (wallet.createWorkingDir samples.host (config.BreezWorkingDir cfg)) ->
     sdk_DefaultConfig NetworkMainnet
       ∈ calls (main.startup samples.host examples.no_dotenv examples.env)).
Proof.
  apply (startup_default_network samples.host examples.no_dotenv examples.env).
  - vm_compute. discriminate.
  - vm_compute. discriminate.
  - vm_compute. reflexivity.
Defined.

(** *** The facade against a failing backend *)

Section Failure_properties.

Variable string_of_PaymentStatus : PaymentStatus -> string.
Variable w : wallet.Wallet.

(** Rewrites the next answer of the backend with the hypothesis [H] on the
    error of that method. *)
Ltac reject H :=
  match goal with
  | |- context [?f (wallet.sdk w) ?req] =>
      let Herr := fresh "Herr" in
      let resp := fresh "resp" in
      let err := fresh "err" in
      pose proof (H req) as Herr;
      destruct (f (wallet.sdk w) req) as [resp err];
      cbn [snd] in Herr; subst err
  end.

(** X7: on a backend that rejects every call with the SDK error [e], every
    facade operation fails after its first backend call, with that error
    wrapped under the operation's own message.  No operation panics,
    retries, or goes on to a second call. *)
Theorem rejected_at_first_call (e : SdkError)
    (order : list (string * breez_sdk_spark.TokenBalance)) (limit now amountSats : Z)
    (text description : string) :
  rejects_all (wallet.sdk w) e ->
  wallet.GetBalance w order =
    ([sdk_GetInfo {| EnsureSynced := None |}],
     Fail (Errorf_w "failed to get wallet info" (error_SdkError (Some e)))) /\
  wallet.GetTokenBalances w order =
    ([sdk_GetInfo {| EnsureSynced := Some false |}],
     Fail (Errorf_w "failed to get token balances" (error_SdkError (Some e)))) /\
  wallet.GetTransactions string_of_PaymentStatus w limit =
    ([sdk_ListPayments (wallet.GetTransactions_request limit)],
     Fail (Errorf_w "failed to get transaction history" (error_SdkError (Some e)))) /\
  wallet.GetPayment string_of_PaymentStatus w text =
    ([sdk_GetPayment {| PaymentId := text |}],
     Fail (Errorf_w "failed to get payment" (error_SdkError (Some e)))) /\
  wallet.ReceiveLightningInvoice w now amountSats description =
    ([sdk_ReceivePayment
        {| PaymentMethod :=
             ReceivePaymentMethodBolt11Invoice description (Some amountSats) |}],
     Fail (Errorf_w "failed to create lightning invoice" (error_SdkError (Some e)))) /\
  wallet.ReceiveBitcoinAddress w now =
    ([sdk_ReceivePayment {| PaymentMethod := ReceivePaymentMethodBitcoinAddress |}],
     Fail (Errorf_w "failed to create bitcoin address" (error_SdkError (Some e)))) /\
  wallet.ReceiveSparkAddress w now =
    ([sdk_ReceivePayment {| PaymentMethod := ReceivePaymentMethodSparkAddress |}],
     Fail (Errorf_w "failed to create spark address" (error_SdkError (Some e)))) /\
  wallet.SendLightningInvoice string_of_PaymentStatus w text =
    ([sdk_PrepareSendPayment (invoice_request text)],
     Fail (Errorf_w "failed to prepare lightning payment" (error_SdkError (Some e)))) /\
  wallet.SendBitcoinAddress string_of_PaymentStatus w text amountSats =
    ([sdk_PrepareSendPayment (amount_request text amountSats)],
     Fail (Errorf_w "failed to prepare onchain payment" (error_SdkError (Some e)))) /\
  wallet.SendSparkAddress string_of_PaymentStatus w text amountSats =
    ([sdk_PrepareSendPayment (amount_request text amountSats)],
     Fail (Errorf_w "failed to prepare spark payment" (error_SdkError (Some e)))) /\
  wallet.LnUrlPay string_of_PaymentStatus w text amountSats description =
    ([sdk_Parse text], Fail (Errorf_w "failed to parse lnurl address" (error_SdkError (Some e)))).
Proof.
  intros (HGetInfo & HListPayments & HGetPayment & HReceivePayment &
          HPrepareSendPayment & HSendPayment & HParse & HPrepareLnurlPay & HLnurlPay).
  repeat match goal with |- _ /\ _ => split end.
  - unfold wallet.GetBalance. reject HGetInfo. reflexivity.
  - unfold wallet.GetTokenBalances. reject HGetInfo. reflexivity.
  - unfold wallet.GetTransactions. reject HListPayments. reflexivity.
  - unfold wallet.GetPayment. reject HGetPayment. reflexivity.
  - unfold wallet.ReceiveLightningInvoice. reject HReceivePayment. reflexivity.
  - unfold wallet.ReceiveBitcoinAddress. reject HReceivePayment. reflexivity.
  - unfold wallet.ReceiveSparkAddress. reject HReceivePayment. reflexivity.
  - unfold wallet.SendLightningInvoice. reject HPrepareSendPayment. reflexivity.
  - unfold wallet.SendBitcoinAddress. reject HPrepareSendPayment. reflexivity.
  - unfold wallet.SendSparkAddress. reject HPrepareSendPayment. reflexivity.
  - unfold wallet.LnUrlPay.
    pose proof (HParse text) as Herr.
    destruct (Parse (wallet.sdk w) text) as [input err].
    cbn [snd] in Herr. subst err. reflexivity.
Qed.

End Failure_properties.

(** X7, on a backend that rejects every call. *)
Lemma rejected_at_first_call_witness :
  wallet.GetBalance (samples.wallet_on examples.sdk_down) [] =
    ([sdk_GetInfo {| EnsureSynced := None |}],
     Fail (Errorf_w "failed to get wallet info" (error_SdkError (Some samples.rejected)))) /\
  wallet.GetTokenBalances (samples.wallet_on examples.sdk_down) [] =
    ([sdk_GetInfo {| EnsureSynced := Some false |}],
     Fail (Errorf_w "failed to get token balances" (error_SdkError (Some samples.rejected)))) /\
  wallet.GetTransactions samples.status_text (samples.wallet_on examples.sdk_down) 10 =
    ([sdk_ListPayments (wallet.GetTransactions_request 10)],
     Fail (Errorf_w "failed to get transaction history" (error_SdkError (Some samples.rejected)))) /\
  wallet.GetPayment samples.status_text (samples.wallet_on examples.sdk_down) "lnbc1" =
    ([sdk_GetPayment {| PaymentId := "lnbc1" |}],
     Fail (Errorf_w "failed to get payment" (error_SdkError (Some samples.rejected)))) /\
  wallet.ReceiveLightningInvoice (samples.wallet_on examples.sdk_down) 1700000000 5000 "Coffee payment" =
    ([sdk_ReceivePayment
        {| PaymentMethod :=
             ReceivePaymentMethodBolt11Invoice "Coffee payment" (Some 5000) |}],
     Fail (Errorf_w "failed to create lightning invoice" (error_SdkError (Some samples.rejected)))) /\
  wallet.ReceiveBitcoinAddress (samples.wallet_on examples.sdk_down) 1700000000 =
    ([sdk_ReceivePayment {| PaymentMethod := ReceivePaymentMethodBitcoinAddress |}],
     Fail (Errorf_w "failed to create bitcoin address" (error_SdkError (Some samples.rejected)))) /\
  wallet.ReceiveSparkAddress (samples.wallet_on examples.sdk_down) 1700000000 =
    ([sdk_ReceivePayment {| PaymentMethod := ReceivePaymentMethodSparkAddress |}],
     Fail (Errorf_w "failed to create spark address" (error_SdkError (Some samples.rejected)))) /\
  wallet.SendLightningInvoice samples.status_text (samples.wallet_on examples.sdk_down) "lnbc1" =
    ([sdk_PrepareSendPayment (invoice_request "lnbc1")],
     Fail (Errorf_w "failed to prepare lightning payment" (error_SdkError (Some samples.rejected)))) /\
  wallet.SendBitcoinAddress samples.status_text (samples.wallet_on examples.sdk_down) "lnbc1" 5000 =
    ([sdk_PrepareSendPayment (amount_request "lnbc1" 5000)],
     Fail (Errorf_w "failed to prepare onchain payment" (error_SdkError (Some samples.rejected)))) /\
  wallet.SendSparkAddress samples.status_text (samples.wallet_on examples.sdk_down) "lnbc1" 5000 =
    ([sdk_PrepareSendPayment (amount_request "lnbc1" 5000)],
     Fail (Errorf_w "failed to prepare spark payment" (error_SdkError (Some samples.rejected)))) /\
  wallet.LnUrlPay samples.status_text (samples.wallet_on examples.sdk_down) "lnbc1" 5000 "Coffee payment" =
    ([sdk_Parse "lnbc1"], Fail (Errorf_w "failed to parse lnurl address" (error_SdkError (Some samples.rejected)))).
Proof.
  apply (rejected_at_first_call samples.status_text (samples.wallet_on examples.sdk_down)
           samples.rejected [] 10 1700000000 5000 "lnbc1" "Coffee payment").
  repeat split; intros req; reflexivity.
Defined.

(** *** Balance and history, further *)

(** X8: [GetBalance] takes the first token balance, in the order in which
    the map of token balances is ranged over, that is positive when read
    as a signed 64-bit integer (the method [Int64] of the balance):
    entries visited before it (none of them reading as positive) and
    entries after it (positive or not) do not matter, nor does the primary
    balance.  All three fields of the result carry that reading, which is
    the balance itself when the balance is within the [int64] range. *)
Theorem GetBalance_first_in_order (w : wallet.Wallet) (info : GetInfoResponse)
    (before after : list (string * breez_sdk_spark.TokenBalance))
    (tokenId : string) (balance : breez_sdk_spark.TokenBalance) :
  GetInfo (wallet.sdk w) {| EnsureSynced := None |} = (info, no_SdkError) ->
  before ++ (tokenId, balance) :: after ≡ₚ map_to_list (TokenBalances info) ->
  (forall k b, (k, b) ∈ before -> Go.big_Int64 (Balance b) <= 0) ->
  0 < Go.big_Int64 (Balance balance) ->
  outcome (wallet.GetBalance w (before ++ (tokenId, balance) :: after)) =
    Return {| wallet.LightningBalanceSats := Go.big_Int64 (Balance balance);
              wallet.MaxPayableSats := Go.big_Int64 (Balance balance);
              wallet.MaxReceivableSats := Go.big_Int64 (Balance balance) |} /\
  (Go.is_int64 (Balance balance) ->
   0 < Balance balance /\
   outcome (wallet.GetBalance w (before ++ (tokenId, balance) :: after)) =
     Return {| wallet.LightningBalanceSats := Balance balance;
               wallet.MaxPayableSats := Balance balance;
               wallet.MaxReceivableSats := Balance balance |}).
Proof.
  intros Hinfo Horder Hbefore Hpos.
  assert (Hrun :
    outcome (wallet.GetBalance w (before ++ (tokenId, balance) :: after)) =
      Return {| wallet.LightningBalanceSats := Go.big_Int64 (Balance balance);
                wallet.MaxPayableSats := Go.big_Int64 (Balance balance);
                wallet.MaxReceivableSats := Go.big_Int64 (Balance balance) |}).
  { unfold wallet.GetBalance. rewrite Hinfo. run.
    assert (Hsize : 0 < Z.of_nat (size (TokenBalances info))).
    { rewrite <- length_map_to_list, <- Horder, length_app. cbn [length]. lia. }
    destruct (Z.ltb_spec 0 (Z.of_nat (size (TokenBalances info)))); [| lia].
    rewrite GetBalance_range_first by assumption. reflexivity. }
  split; [exact Hrun |].
  intros Hrange.
  rewrite (big_Int64_exact _ Hrange) in Hrun, Hpos. by split.
Qed.

(** X8, at a wallet with primary balance 5 and one token balance of 7. *)
Lemma GetBalance_first_in_order_witness :
  outcome (wallet.GetBalance (samples.wallet_on samples.sdk_with_token)
             ([] ++ ("btkn1", samples.token) :: [])) =
    Return {| wallet.LightningBalanceSats := Go.big_Int64 (Balance samples.token);
              wallet.MaxPayableSats := Go.big_Int64 (Balance samples.token);
              wallet.MaxReceivableSats := Go.big_Int64 (Balance samples.token) |} /\
  (Go.is_int64 (Balance samples.token) ->
   0 < Balance samples.token /\
   outcome (wallet.GetBalance (samples.wallet_on samples.sdk_with_token)
              ([] ++ ("btkn1", samples.token) :: [])) =
     Return {| wallet.LightningBalanceSats := Balance samples.token;
               wallet.MaxPayableSats := Balance samples.token;
               wallet.MaxReceivableSats := Balance samples.token |}).
Proof.
  apply (GetBalance_first_in_order (samples.wallet_on samples.sdk_with_token)
           samples.info_with_token [] [] "btkn1" samples.token).
  - reflexivity.
  - unfold samples.info_with_token. cbn [TokenBalances app].
    rewrite map_to_list_singleton. reflexivity.
  - intros k b H. by apply elem_of_nil in H.
  - vm_compute. reflexivity.
Defined.

(** Only the low 64 bits of a token balance are read: beside the primary
    balance 11, a token balance of 2^64 + 5 gives the spendable amount 5. *)
Lemma GetBalance_reads_low_64_bits :
  wallet.GetBalance (samples.wallet_on examples2.sdk_wrapping_token)
      [("btkn8", examples2.wrapping_token)] =
    ([sdk_GetInfo {| EnsureSynced := None |}],
     Return {| wallet.LightningBalanceSats := 5;
               wallet.MaxPayableSats := 5;
               wallet.MaxReceivableSats := 5 |}).
Proof. vm_compute. reflexivity. Qed.

(** X9: whatever [limit] is, the history request starts at offset 0 and
    asks for a page of at least 10 and fewer than 2^32 entries: the low 32
    bits of [limit], or 100 when those are below 10. *)
Theorem GetTransactions_request_bounds (limit : Z) :
  exists page,
    wallet.GetTransactions_request limit = {| Offset := Some 0; Limit := Some page |} /\
    10 <= page < 2 ^ 32 /\
    (page = limit mod 2 ^ 32 \/ (limit mod 2 ^ 32 < 10 /\ page = 100)).
Proof.
  unfold wallet.GetTransactions_request, Go.uint32.
  pose proof (Z.mod_pos_bound limit (2 ^ 32) ltac:(lia)) as Hmod.
  destruct (Z.ltb_spec (limit mod 2 ^ 32) 10).
  - exists 100. split; [reflexivity |]. split; [lia |]. right. split; [assumption | reflexivity].
  - exists (limit mod 2 ^ 32). split; [reflexivity |]. split; [lia |]. left. reflexivity.
Qed.

(** X10: a negative limit is not refused.  Down to -(2^32 - 10) it asks
    the backend for [2^32 + limit] entries: -1 asks for 4294967295. *)
Theorem GetTransactions_negative_limit (limit : Z) :
  - (2 ^ 32 - 10) <= limit < 0 ->
  wallet.GetTransactions_request limit =
    {| Offset := Some 0; Limit := Some (2 ^ 32 + limit) |}.
Proof.
  intros Hlimit. unfold wallet.GetTransactions_request, Go.uint32.
  assert (Hmod : limit mod 2 ^ 32 = 2 ^ 32 + limit).
  { symmetry. apply (Z.mod_unique limit (2 ^ 32) (-1)); lia. }
  rewrite Hmod.
  destruct (Z.ltb_spec (2 ^ 32 + limit) 10); [lia | reflexivity].
Qed.

Lemma GetTransactions_negative_limit_witness :
  wallet.GetTransactions_request (-1) =
    {| Offset := Some 0; Limit := Some (2 ^ 32 + -1) |}.
Proof. apply (GetTransactions_negative_limit (-1)). lia. Defined.

Section History_properties.

Variable string_of_PaymentStatus : PaymentStatus -> string.
Variable w : wallet.Wallet.

Lemma GetTransactions_body_signed (payment : Payment) :
  0 <= Amount payment < 2 ^ 63 ->
  signed_entry payment (wallet.GetTransactions_body string_of_PaymentStatus payment).
Proof.
  intros Hamount.
  unfold signed_entry, wallet.GetTransactions_body.
  rewrite (big_Int64_exact (Amount payment)) by (unfold Go.is_int64; lia).
  destruct (PaymentType_ payment); cbn.
  - rewrite int64_exact by (unfold Go.is_int64; lia).
    repeat split; auto; intros; try discriminate; lia.
  - repeat split; auto; intros; try discriminate; lia.
  - destruct (Z.ltb_spec 0 (Amount payment)); cbn;
      repeat split; auto; intros; try discriminate; lia.
Qed.

(** X11: when the backend reports amounts as non-negative numbers that
    fit 63 bits, every history entry is signed by its direction: its
    magnitude is the backend amount, an entry typed "receive" is not
    negative and one typed "send" is not positive; a send-tagged payment
    is listed with the negated amount and a receive-tagged one with the
    amount itself. *)
Theorem GetTransactions_sign_convention (limit : Z) (response : ListPaymentsResponse) :
  ListPayments (wallet.sdk w) (wallet.GetTransactions_request limit)
    = (response, no_SdkError) ->
  Forall (fun payment => 0 <= Amount payment < 2 ^ 63) (Payments response) ->
  exists txs,
    outcome (wallet.GetTransactions string_of_PaymentStatus w limit) = Return txs /\
    Forall2 signed_entry (Payments response) txs.
Proof.
  intros Hanswer Hamounts.
  exists (map (wallet.GetTransactions_body string_of_PaymentStatus) (Payments response)).
  split.
  - rewrite GetTransactions_run. cbn zeta. rewrite Hanswer. reflexivity.
  - induction Hamounts as [| payment rest Hp _ IH]; cbn [map]; constructor;
      [apply GetTransactions_body_signed; exact Hp | exact IH].
Qed.

End History_properties.

(** X11, at a backend holding one outgoing payment of 100 sats. *)
Lemma GetTransactions_sign_convention_witness :
  exists txs,
    outcome (wallet.GetTransactions samples.status_text
               (samples.wallet_on samples.sdk_one_payment) 10) = Return txs /\
    Forall2 signed_entry [samples.sent] txs.
Proof.
  apply (GetTransactions_sign_convention samples.status_text
           (samples.wallet_on samples.sdk_one_payment) 10
           {| Payments := [samples.sent] |}).
  - reflexivity.
  - repeat constructor; cbn; lia.
Defined.

(** X12 (the theorem is [GetPayment_against_history]), at the backend
    holding the outgoing payment "p1". *)
Lemma GetPayment_against_history_witness :
  exists fetched,
    wallet.GetPayment samples.status_text (samples.wallet_on samples.sdk_one_payment)
        (Id samples.sent) =
      ([sdk_GetPayment {| PaymentId := Id samples.sent |}], Return fetched) /\
    let listed := wallet.GetTransactions_body samples.status_text samples.sent in
    wallet.ID fetched = wallet.ID listed /\
    wallet.Transaction_Status fetched = wallet.Transaction_Status listed /\
    wallet.Transaction_FeeSats fetched = wallet.Transaction_FeeSats listed /\
    wallet.Transaction_AmountSats fetched = rawAmount samples.sent /\
    wallet.Transaction_AmountSats listed =
      match PaymentType_ samples.sent with
      | PaymentTypeSend => Go.int64 (- rawAmount samples.sent)
      | _ => rawAmount samples.sent
      end.
Proof.
  apply (GetPayment_against_history samples.status_text
           (samples.wallet_on samples.sdk_one_payment) samples.sent).
  reflexivity.
Defined.

(** *** Receiving *)

Section Receive_properties.

Variable w : wallet.Wallet.
Variable now : Z.

(** X13: a Lightning invoice request hands the description and the amount
    to the backend, and an accepted one returns the backend's invoice
    text and fee together with the requested amount (below 2^63) and the
    description, both unchanged.  The two address methods send neither
    amount nor description and return amount 0 and a fixed description.
    All three set the expiry 24 hours after the current time. *)
Theorem receive_results (amountSats : Z) (description : string)
    (answer : ReceivePaymentRequest -> breez_sdk_spark.ReceivePaymentResponse) :
  0 <= amountSats < 2 ^ 63 ->
  (forall req, ReceivePayment (wallet.sdk w) req = (answer req, no_SdkError)) ->
  wallet.ReceiveLightningInvoice w now amountSats description =
    (let req := {| PaymentMethod :=
                     ReceivePaymentMethodBolt11Invoice description (Some amountSats) |} in
     ([sdk_ReceivePayment req],
      Return {| wallet.PaymentRequest := ReceivePaymentResponse_PaymentRequest (answer req);
                wallet.ReceivePaymentResponse_AmountSats := amountSats;
                wallet.ReceivePaymentResponse_FeeSats := Go.big_Int64 (Fee (answer req));
                wallet.ReceivePaymentResponse_Description := description;
                wallet.ExpiresAt := now + 86400 |})) /\
  wallet.ReceiveBitcoinAddress w now =
    (let req := {| PaymentMethod := ReceivePaymentMethodBitcoinAddress |} in
     ([sdk_ReceivePayment req],
      Return {| wallet.PaymentRequest := ReceivePaymentResponse_PaymentRequest (answer req);
                wallet.ReceivePaymentResponse_AmountSats := 0;
                wallet.ReceivePaymentResponse_FeeSats := Go.big_Int64 (Fee (answer req));
                wallet.ReceivePaymentResponse_Description := "Bitcoin address deposit";
                wallet.ExpiresAt := now + 86400 |})) /\
  wallet.ReceiveSparkAddress w now =
    (let req := {| PaymentMethod := ReceivePaymentMethodSparkAddress |} in
     ([sdk_ReceivePayment req],
      Return {| wallet.PaymentRequest := ReceivePaymentResponse_PaymentRequest (answer req);
                wallet.ReceivePaymentResponse_AmountSats := 0;
                wallet.ReceivePaymentResponse_FeeSats := Go.big_Int64 (Fee (answer req));
                wallet.ReceivePaymentResponse_Description := "Spark address deposit";
                wallet.ExpiresAt := now + 86400 |})).
Proof.
  intros Hamount Hanswer.
  unfold wallet.ReceiveLightningInvoice, wallet.ReceiveBitcoinAddress,
    wallet.ReceiveSparkAddress.
  rewrite !Hanswer. run.
  rewrite (int64_exact amountSats) by (unfold Go.is_int64; lia).
  repeat split.
Qed.

(** X14: an invoice amount from 2^63 up (the command line accepts amounts
    up to 2^64 - 1) is handed to the backend as it is, but the result
    reports it reduced by 2^64, a negative number. *)
Theorem ReceiveLightningInvoice_amount_wraps (amountSats : Z) (description : string)
    (result : wallet.ReceivePaymentResponse) :
  2 ^ 63 <= amountSats < 2 ^ 64 ->
  outcome (wallet.ReceiveLightningInvoice w now amountSats description) = Return result ->
  calls (wallet.ReceiveLightningInvoice w now amountSats description) =
    [sdk_ReceivePayment
       {| PaymentMethod :=
            ReceivePaymentMethodBolt11Invoice description (Some amountSats) |}] /\
  wallet.ReceivePaymentResponse_AmountSats result = amountSats - 2 ^ 64 /\
  wallet.ReceivePaymentResponse_AmountSats result < 0.
Proof.
  intros Hamount. unfold wallet.ReceiveLightningInvoice.
  destruct (ReceivePayment _ _) as [response err].
  destruct err as [| [e |] | ? | ? | ? ?]; run; intros H; try discriminate.
  injection H as <-. cbn.
  assert (Hwrap : Go.int64 amountSats = amountSats - 2 ^ 64).
  { assert (Hmod : (amountSats + 2 ^ 63) mod 2 ^ 64 = amountSats - 2 ^ 63)
      by (symmetry; apply (Z.mod_unique _ _ 1); lia).
    unfold Go.int64. rewrite Hmod. lia. }
  rewrite Hwrap. repeat split; lia.
Qed.

End Receive_properties.

(** X13, at a backend that accepts every receive request. *)
Lemma receive_results_witness :
  wallet.ReceiveLightningInvoice (samples.wallet_on samples.idle_sdk) 1700000000 5000
      "Coffee payment" =
    ([sdk_ReceivePayment
        {| PaymentMethod := ReceivePaymentMethodBolt11Invoice "Coffee payment" (Some 5000) |}],
     Return {| wallet.PaymentRequest := "";
               wallet.ReceivePaymentResponse_AmountSats := 5000;
               wallet.ReceivePaymentResponse_FeeSats := 0;
               wallet.ReceivePaymentResponse_Description := "Coffee payment";
               wallet.ExpiresAt := 1700000000 + 86400 |}) /\
  wallet.ReceiveBitcoinAddress (samples.wallet_on samples.idle_sdk) 1700000000 =
    ([sdk_ReceivePayment {| PaymentMethod := ReceivePaymentMethodBitcoinAddress |}],
     Return {| wallet.PaymentRequest := "";
               wallet.ReceivePaymentResponse_AmountSats := 0;
               wallet.ReceivePaymentResponse_FeeSats := 0;
               wallet.ReceivePaymentResponse_Description := "Bitcoin address deposit";
               wallet.ExpiresAt := 1700000000 + 86400 |}) /\
  wallet.ReceiveSparkAddress (samples.wallet_on samples.idle_sdk) 1700000000 =
    ([sdk_ReceivePayment {| PaymentMethod := ReceivePaymentMethodSparkAddress |}],
     Return {| wallet.PaymentRequest := "";
               wallet.ReceivePaymentResponse_AmountSats := 0;
               wallet.ReceivePaymentResponse_FeeSats := 0;
               wallet.ReceivePaymentResponse_Description := "Spark address deposit";
               wallet.ExpiresAt := 1700000000 + 86400 |}).
Proof.
  apply (receive_results (samples.wallet_on samples.idle_sdk) 1700000000 5000
           "Coffee payment"
           (fun _ => {| ReceivePaymentResponse_PaymentRequest := ""; Fee := 0 |})).
  - lia.
  - intros req. reflexivity.
Defined.

(** X14, for the largest amount the command line accepts. *)
Lemma ReceiveLightningInvoice_amount_wraps_witness :
  calls (wallet.ReceiveLightningInvoice (samples.wallet_on samples.idle_sdk) 1700000000
           18446744073709551615 "Coffee payment") =
    [sdk_ReceivePayment
       {| PaymentMethod :=
            ReceivePaymentMethodBolt11Invoice "Coffee payment"
              (Some 18446744073709551615) |}] /\
  -1 = 18446744073709551615 - 2 ^ 64 /\
  -1 < 0.
Proof.
  apply (ReceiveLightningInvoice_amount_wraps (samples.wallet_on samples.idle_sdk)
           1700000000 18446744073709551615 "Coffee payment"
           {| wallet.PaymentRequest := "";
              wallet.ReceivePaymentResponse_AmountSats := -1;
              wallet.ReceivePaymentResponse_FeeSats := 0;
              wallet.ReceivePaymentResponse_Description := "Coffee payment";
              wallet.ExpiresAt := 1700000000 + 86400 |}).
  - lia.
  - reflexivity.
Defined.

(** *** Sending, further *)

Section Two_phase_properties.

Variable string_of_PaymentStatus : PaymentStatus -> string.
Variable w : wallet.Wallet.

Local Abbreviation SendLightningInvoice :=
  (wallet.SendLightningInvoice string_of_PaymentStatus w).
Local Abbreviation SendBitcoinAddress :=
  (wallet.SendBitcoinAddress string_of_PaymentStatus w).
Local Abbreviation SendSparkAddress :=
  (wallet.SendSparkAddress string_of_PaymentStatus w).
Local Abbreviation LnUrlPay := (wallet.LnUrlPay string_of_PaymentStatus w).
Local Abbreviation PaymentResponse_of :=
  (wallet.PaymentResponse_of string_of_PaymentStatus).

(** The three send functions are one program up to the request, the
    options and the two messages; this is what a run of it is. *)
Lemma two_phase_run (prepareReq : PrepareSendPaymentRequest)
    (options : option SendPaymentOptions) (prepare_text send_text : string)
    (r : Run wallet.PaymentResponse) :
  r = ('(prepareResp, err) ←
         invoke (sdk_PrepareSendPayment prepareReq)
                (PrepareSendPayment (wallet.sdk w) prepareReq);
       sdkErr ← assert_SdkError err;
       if sdkErr is Some _ then fail (Errorf_w prepare_text err) else
       let sendReq := execute_request prepareResp options in
       '(response, err) ← invoke (sdk_SendPayment sendReq) (SendPayment (wallet.sdk w) sendReq);
       sdkErr ← assert_SdkError err;
       if sdkErr is Some _ then fail (Errorf_w send_text err) else
       mret (PaymentResponse_of (SendPaymentResponse_Payment response))) ->
  calls r = two_phase_trace (wallet.sdk w) prepareReq options /\
  (forall result, outcome r = Return result ->
     (PrepareSendPayment (wallet.sdk w) prepareReq).2 = no_SdkError /\
     (SendPayment (wallet.sdk w)
        (execute_request (PrepareSendPayment (wallet.sdk w) prepareReq).1 options)).2
       = no_SdkError /\
     result =
       PaymentResponse_of
         (SendPaymentResponse_Payment
            (SendPayment (wallet.sdk w)
               (execute_request (PrepareSendPayment (wallet.sdk w) prepareReq).1
                  options)).1)) /\
  (forall e,
     (PrepareSendPayment (wallet.sdk w) prepareReq).2 = no_SdkError ->
     (SendPayment (wallet.sdk w)
        (execute_request (PrepareSendPayment (wallet.sdk w) prepareReq).1 options)).2
       = error_SdkError (Some e) ->
     outcome r = Fail (Errorf_w send_text (error_SdkError (Some e)))).
Proof.
  intros ->. unfold two_phase_trace.
  destruct (PrepareSendPayment (wallet.sdk w) prepareReq) as [prepareResp perr].
  cbn [fst snd].
  destruct perr as [| [e |] | ? | ? | ? ?]; run;
    try (split; [reflexivity |]; split; [intros result H; discriminate |];
         intros e' H; discriminate).
  destruct (SendPayment (wallet.sdk w) (execute_request prepareResp options))
    as [response serr].
  cbn [fst snd].
  destruct serr as [| [e |] | ? | ? | ? ?]; run;
    (split; [reflexivity |]; split;
     [ intros result H; try discriminate
     | intros e' _ H; try discriminate ]).
  - injection H as ->. reflexivity.
  - injection H as <-. repeat split.
Qed.

(** X15: whatever the backend answers, a send operation makes the prepare
    call and then at most one execute call, which it makes exactly when
    the prepare step reported success and to which it hands the prepared
    payment unchanged.  A Lightning invoice is prepared without amount;
    only the on-chain send passes options (medium confirmation speed). *)
Theorem send_is_two_phase (destination : string) (amountSats : Z) :
  calls (SendLightningInvoice destination) =
    two_phase_trace (wallet.sdk w) (invoice_request destination) None /\
  calls (SendBitcoinAddress destination amountSats) =
    two_phase_trace (wallet.sdk w) (amount_request destination amountSats) medium_speed /\
  calls (SendSparkAddress destination amountSats) =
    two_phase_trace (wallet.sdk w) (amount_request destination amountSats) None.
Proof.
  split; [| split].
  - eapply two_phase_run. reflexivity.
  - eapply two_phase_run. reflexivity.
  - eapply two_phase_run. reflexivity.
Qed.

(** X16: when the prepare step succeeds and the execute step fails, each
    send operation returns the execute error wrapped under its own "failed
    to send" message. *)
Theorem execute_failure_is_wrapped (destination : string) (amountSats : Z) (e : SdkError) :
  (forall req, (PrepareSendPayment (wallet.sdk w) req).2 = no_SdkError) ->
  (forall req, (SendPayment (wallet.sdk w) req).2 = error_SdkError (Some e)) ->
  outcome (SendLightningInvoice destination) =
    Fail (Errorf_w "failed to send lightning payment" (error_SdkError (Some e))) /\
  outcome (SendBitcoinAddress destination amountSats) =
    Fail (Errorf_w "failed to send onchain payment" (error_SdkError (Some e))) /\
  outcome (SendSparkAddress destination amountSats) =
    Fail (Errorf_w "failed to send spark payment" (error_SdkError (Some e))).
Proof.
  intros Hprepare Hsend.
  split; [| split].
  - eapply two_phase_run; [reflexivity | apply Hprepare | apply Hsend].
  - eapply two_phase_run; [reflexivity | apply Hprepare | apply Hsend].
  - eapply two_phase_run; [reflexivity | apply Hprepare | apply Hsend].
Qed.

(** X17: a Lightning or Spark send that succeeds returns the payment the
    backend reports for the execution of the prepared payment: its id as
    payment hash, its amount and fees converted to [int64] with their
    sign, its timestamp as completion time. *)
Theorem send_result_is_backend_payment (destination : string) (amountSats : Z)
    (result : wallet.PaymentResponse) (payment : Payment) :
  (outcome (SendLightningInvoice destination) = Return result /\
   (SendPayment (wallet.sdk w)
      (execute_request
         (PrepareSendPayment (wallet.sdk w) (invoice_request destination)).1 None)).1
     = {| SendPaymentResponse_Payment := payment |}) \/
  (outcome (SendSparkAddress destination amountSats) = Return result /\
   (SendPayment (wallet.sdk w)
      (execute_request
         (PrepareSendPayment (wallet.sdk w) (amount_request destination amountSats)).1
         None)).1
     = {| SendPaymentResponse_Payment := payment |}) ->
  wallet.PaymentHash result = Id payment /\
  wallet.AmountSats result = Go.big_Int64 (Amount payment) /\
  wallet.FeeSats result = Go.big_Int64 (Fees payment) /\
  wallet.CompletedAt result = Go.int64 (Timestamp payment) /\
  wallet.Preimage result = "".
Proof.
  intros [[H Hpayment] | [H Hpayment]];
    (eapply two_phase_run in H; [| reflexivity]);
    destruct H as (_ & _ & ->);
    cbv [invoice_request amount_request Go.big_NewInt] in *;
    rewrite Hpayment; repeat split.
Qed.

(** *** LnUrlPay: resolve, prepare, execute *)

(** X18: for an alias that resolves to a Lightning address, [LnUrlPay]
    prepares a payment of the requested amount to the resolved pay
    request, with the comment and with validation of the success action
    URL switched on.  When that prepare step fails, the prepare error is
    returned wrapped and the payment is not executed. *)
Theorem LnUrlPay_prepare_failure (lnurlAddress comment : string) (amountSats : Z)
    (details : LightningAddressDetails) (e : SdkError) :
  Parse (wallet.sdk w) lnurlAddress = (InputTypeLightningAddress details, no_SdkError) ->
  (PrepareLnurlPay (wallet.sdk w) (lnurl_request details amountSats comment)).2
    = error_SdkError (Some e) ->
  LnUrlPay lnurlAddress amountSats comment =
    ([sdk_Parse lnurlAddress;
      sdk_PrepareLnurlPay (lnurl_request details amountSats comment)],
     Fail (Errorf_w "failed to prepare lnurl pay" (error_SdkError (Some e)))).
Proof.
  intros Hparse Hprepare.
  unfold wallet.LnUrlPay. rewrite Hparse. run.
  fold (lnurl_request details amountSats comment).
  destruct (PrepareLnurlPay _ _) as [prepareResp err].
  cbn [snd] in Hprepare. subst err. reflexivity.
Qed.

(** X19: when resolution and prepare succeed, [LnUrlPay] executes the
    prepared payment, as the third and last call.  It returns the payment
    the backend reports when the execution succeeds, and the wrapped
    execute error when it fails. *)
Theorem LnUrlPay_executes (lnurlAddress comment : string) (amountSats : Z)
    (details : LightningAddressDetails) (prepareResp : PrepareLnurlPayResponse)
    (response : LnurlPayResponse) (err : error) :
  Parse (wallet.sdk w) lnurlAddress = (InputTypeLightningAddress details, no_SdkError) ->
  PrepareLnurlPay (wallet.sdk w) (lnurl_request details amountSats comment)
    = (prepareResp, no_SdkError) ->
  LnurlPay (wallet.sdk w) {| LnurlPayRequest_PrepareResponse := prepareResp |}
    = (response, err) ->
  calls (LnUrlPay lnurlAddress amountSats comment) =
    [sdk_Parse lnurlAddress;
     sdk_PrepareLnurlPay (lnurl_request details amountSats comment);
     sdk_LnurlPay {| LnurlPayRequest_PrepareResponse := prepareResp |}] /\
  (err = no_SdkError ->
   outcome (LnUrlPay lnurlAddress amountSats comment) =
     Return (PaymentResponse_of (LnurlPayResponse_Payment response))) /\
  (forall e, err = error_SdkError (Some e) ->
   outcome (LnUrlPay lnurlAddress amountSats comment) =
     Fail (Errorf_w "failed to send lnurl payment" err)).
Proof.
  intros Hparse Hprepare Hpay.
  unfold wallet.LnUrlPay. rewrite Hparse. run.
  fold (lnurl_request details amountSats comment). rewrite Hprepare. run.
  rewrite Hpay.
  destruct err as [| [e |] | ? | ? | ? ?]; run;
    (split; [reflexivity |]; split; [intros H | intros e' H]);
    try discriminate; reflexivity.
Qed.

End Two_phase_properties.

(** X16, at a backend whose execute step rejects the prepared payment. *)
Lemma execute_failure_is_wrapped_witness :
  outcome (wallet.SendLightningInvoice samples.status_text
             (samples.wallet_on examples2.sdk_execute_fails) "lnbc1") =
    Fail (Errorf_w "failed to send lightning payment"
            (error_SdkError (Some samples.rejected))) /\
  outcome (wallet.SendBitcoinAddress samples.status_text
             (samples.wallet_on examples2.sdk_execute_fails) "lnbc1" 100) =
    Fail (Errorf_w "failed to send onchain payment"
            (error_SdkError (Some samples.rejected))) /\
  outcome (wallet.SendSparkAddress samples.status_text
             (samples.wallet_on examples2.sdk_execute_fails) "lnbc1" 100) =
    Fail (Errorf_w "failed to send spark payment"
            (error_SdkError (Some samples.rejected))).
Proof.
  apply (execute_failure_is_wrapped samples.status_text
           (samples.wallet_on examples2.sdk_execute_fails) "lnbc1" 100 samples.rejected).
  - intros req. reflexivity.
  - intros req. reflexivity.
Defined.

(** X17, for a Spark send at a backend that executes it. *)
Lemma send_result_is_backend_payment_witness :
  "p2" = Id (SendPaymentResponse_Payment (SendPayment samples.sdk_sending
               (execute_request {| prepared_send := "quote" |} None)).1) /\
  100 = Go.big_Int64 (Amount (SendPaymentResponse_Payment (SendPayment samples.sdk_sending
               (execute_request {| prepared_send := "quote" |} None)).1)) /\
  2 = Go.big_Int64 (Fees (SendPaymentResponse_Payment (SendPayment samples.sdk_sending
               (execute_request {| prepared_send := "quote" |} None)).1)) /\
  1700000000 =
    Go.int64 (Timestamp (SendPaymentResponse_Payment (SendPayment samples.sdk_sending
               (execute_request {| prepared_send := "quote" |} None)).1)) /\
  "" = "".
Proof.
  apply (send_result_is_backend_payment samples.status_text
           (samples.wallet_on samples.sdk_sending) "sp1example" 100
           {| wallet.PaymentHash := "p2"; wallet.AmountSats := 100; wallet.FeeSats := 2;
              wallet.PaymentResponse_Status := "pending"; wallet.Preimage := "";
              wallet.CompletedAt := 1700000000 |}).
  right. split; reflexivity.
Defined.

(** X18, at a backend whose LNURL prepare step is rejected. *)
Lemma LnUrlPay_prepare_failure_witness :
  wallet.LnUrlPay samples.status_text
      (samples.wallet_on
         (examples2.sdk_lnurl (error_SdkError (Some samples.rejected)) no_SdkError))
      "alice@example.com" 5000 "Payment via LNURL" =
    ([sdk_Parse "alice@example.com";
      sdk_PrepareLnurlPay (lnurl_request examples2.alice 5000 "Payment via LNURL")],
     Fail (Errorf_w "failed to prepare lnurl pay" (error_SdkError (Some samples.rejected)))).
Proof.
  apply (LnUrlPay_prepare_failure samples.status_text
           (samples.wallet_on
              (examples2.sdk_lnurl (error_SdkError (Some samples.rejected)) no_SdkError))
           "alice@example.com" "Payment via LNURL" 5000 examples2.alice samples.rejected).
  - reflexivity.
  - reflexivity.
Defined.

(** X19, at a backend that pays Alice. *)
Lemma LnUrlPay_executes_witness :
  calls (wallet.LnUrlPay samples.status_text
           (samples.wallet_on (examples2.sdk_lnurl no_SdkError no_SdkError))
           "alice@example.com" 5000 "Payment via LNURL") =
    [sdk_Parse "alice@example.com";
     sdk_PrepareLnurlPay (lnurl_request examples2.alice 5000 "Payment via LNURL");
     sdk_LnurlPay {| LnurlPayRequest_PrepareResponse := {| prepared_lnurl := "quote" |} |}] /\
  (no_SdkError = no_SdkError ->
   outcome (wallet.LnUrlPay samples.status_text
              (samples.wallet_on (examples2.sdk_lnurl no_SdkError no_SdkError))
              "alice@example.com" 5000 "Payment via LNURL") =
     Return (wallet.PaymentResponse_of samples.status_text
               (LnurlPayResponse_Payment {| LnurlPayResponse_Payment := examples2.paid |}))) /\
  (forall e, no_SdkError = error_SdkError (Some e) ->
   outcome (wallet.LnUrlPay samples.status_text
              (samples.wallet_on (examples2.sdk_lnurl no_SdkError no_SdkError))
              "alice@example.com" 5000 "Payment via LNURL") =
     Fail (Errorf_w "failed to send lnurl payment" no_SdkError)).
Proof.
  apply (LnUrlPay_executes samples.status_text
           (samples.wallet_on (examples2.sdk_lnurl no_SdkError no_SdkError))
           "alice@example.com" "Payment via LNURL" 5000 examples2.alice
           {| prepared_lnurl := "quote" |}
           {| LnurlPayResponse_Payment := examples2.paid |} no_SdkError).
  - reflexivity.
  - reflexivity.
  - reflexivity.
Defined.

(** *** Token balances *)

(** The decimal text of a balance reads back as that balance, however
    large it is. *)
Lemma decimal_value_big_String (x : Z) : decimal_value (Go.big_String x) = Some x.
Proof.
  unfold decimal_value, Go.big_String.
  rewrite NilZero.isi.
  - cbn. f_equal. apply DecimalZ.of_to.
  - destruct x; cbn; try discriminate.
    intros H. injection H as H. revert H. apply DecimalPos.Unsigned.to_uint_nonnil.
  - destruct x; cbn; try discriminate.
    intros H. injection H as H. revert H. apply DecimalPos.Unsigned.to_uint_nonnil.
Qed.

(** X20: [GetTokenBalances] returns exactly one entry per token of the
    backend's map, in the order the map is ranged over: the token ids are
    pairwise distinct, every entry repeats name, ticker and decimals of
    its token, and its balance text is the decimal writing of the
    backend's balance, which reads back as the same number without any
    reduction to 64 bits.  A wallet without tokens gets the empty list,
    not an error. *)
Theorem GetTokenBalances_entries (w : wallet.Wallet)
    (order : list (string * breez_sdk_spark.TokenBalance)) (info : GetInfoResponse) :
  GetInfo (wallet.sdk w) {| EnsureSynced := Some false |} = (info, no_SdkError) ->
  order ≡ₚ map_to_list (TokenBalances info) ->
  exists balances,
    wallet.GetTokenBalances w order =
      ([sdk_GetInfo {| EnsureSynced := Some false |}], Return balances) /\
    length balances = size (TokenBalances info) /\
    NoDup (wallet.TokenID <$> balances) /\
    (forall entry,
        entry ∈ balances <->
        exists tokenId tb,
          TokenBalances info !! tokenId = Some tb /\ entry = token_entry tokenId tb) /\
    (forall entry,
        entry ∈ balances ->
        exists tb,
          TokenBalances info !! wallet.TokenID entry = Some tb /\
          decimal_value (wallet.TokenBalance_Balance entry) = Some (Balance tb)) /\
    (TokenBalances info = ∅ -> balances = []).
Proof.
  intros Hinfo Horder.
  assert (Hin : forall k b, (k, b) ∈ order <-> TokenBalances info !! k = Some b).
  { intros k b. rewrite Horder. apply elem_of_map_to_list. }
  exists (map (fun '(tokenId, tb) => token_entry tokenId tb) order).
  assert (Hentries : forall entry,
             entry ∈ map (fun '(tokenId, tb) => token_entry tokenId tb) order <->
             exists tokenId tb,
               TokenBalances info !! tokenId = Some tb /\ entry = token_entry tokenId tb).
  { intros entry. rewrite list_elem_of_In, in_map_iff. split.
    - intros [[k b] [<- Hkb]]. exists k, b. split; [| reflexivity].
      apply Hin. by apply list_elem_of_In.
    - intros (k & b & Hkb & ->). exists (k, b). split; [reflexivity |].
      apply list_elem_of_In. by apply Hin. }
  split; [| split; [| split; [| split; [exact Hentries | split]]]].
  - unfold wallet.GetTokenBalances. rewrite Hinfo. run. unfold token_entry.
    reflexivity.
  - rewrite length_map, Horder. apply length_map_to_list.
  - assert (Hkeys : wallet.TokenID <$> map (fun '(tokenId, tb) => token_entry tokenId tb) order
                    = order.*1).
    { clear. induction order as [| [k b] rest IH]; cbn; [reflexivity |].
      f_equal. exact IH. }
    rewrite Hkeys, Horder. apply NoDup_fst_map_to_list.
  - intros entry Hentry. apply Hentries in Hentry.
    destruct Hentry as (k & b & Hkb & ->). exists b. split; [exact Hkb |].
    cbn. apply decimal_value_big_String.
  - intros Hempty. rewrite Hempty, map_to_list_empty in Horder.
    apply Permutation_nil_r in Horder. rewrite Horder. reflexivity.
Qed.

(** X20, at a wallet holding two tokens, one of them with 2^70 units. *)
Lemma GetTokenBalances_entries_witness :
  exists balances,
    wallet.GetTokenBalances (samples.wallet_on examples2.sdk_two_tokens)
        (map_to_list (TokenBalances examples2.info_two_tokens)) =
      ([sdk_GetInfo {| EnsureSynced := Some false |}], Return balances) /\
    length balances = size (TokenBalances examples2.info_two_tokens) /\
    NoDup (wallet.TokenID <$> balances) /\
    (forall entry,
        entry ∈ balances <->
        exists tokenId tb,
          TokenBalances examples2.info_two_tokens !! tokenId = Some tb /\
          entry = token_entry tokenId tb) /\
    (forall entry,
        entry ∈ balances ->
        exists tb,
          TokenBalances examples2.info_two_tokens !! wallet.TokenID entry = Some tb /\
          decimal_value (wallet.TokenBalance_Balance entry) = Some (Balance tb)) /\
    (TokenBalances examples2.info_two_tokens = ∅ -> balances = []).
Proof.
  apply (GetTokenBalances_entries (samples.wallet_on examples2.sdk_two_tokens)
           (map_to_list (TokenBalances examples2.info_two_tokens))
           examples2.info_two_tokens).
  - reflexivity.
  - reflexivity.
Defined.

(** *** package main: formatting helpers *)

Lemma decimal_value_Sprintf_d (x : Z) : decimal_value (Sprintf_d x) = Some x.
Proof. apply decimal_value_big_String. Qed.

Lemma Sprintf_d_first (x : Z) :
  exists c rest, Sprintf_d x = String c rest /\ c <> strconv.plus_sign.
Proof.
  unfold Sprintf_d. destruct x as [| p | p]; cbn.
  - eexists _, _. split; [reflexivity | discriminate].
  - destruct (Pos.to_uint p); eexists _, _; split; first [reflexivity | discriminate].
  - eexists _, _. split; [reflexivity | discriminate].
Qed.

(** X21: [formatAmount] writes 0 as "0", a positive amount with a leading
    plus sign and a negative one with its minus sign, and the text
    determines the amount: reading it back gives the amount again, so two
    different amounts are never shown alike. *)
Theorem formatAmount_reads_back (sats : Z) :
  amount_value (main_go.formatAmount sats) = Some sats /\
  (sats = 0 -> main_go.formatAmount sats = "0") /\
  (0 < sats -> main_go.formatAmount sats = "+" +:+ Sprintf_d sats) /\
  (sats < 0 -> exists digits, main_go.formatAmount sats = "-" +:+ digits).
Proof.
  unfold main_go.formatAmount.
  destruct (Z.eqb_spec sats 0) as [-> | Hne].
  { repeat split; try reflexivity; intros; lia. }
  destruct (Z.ltb_spec 0 sats) as [Hpos | Hneg].
  - split; [| repeat split; intros; try reflexivity; lia].
    cbn. apply decimal_value_Sprintf_d.
  - split.
    + destruct (Sprintf_d_first sats) as (c & rest & Heq & Hc).
      unfold amount_value. rewrite Heq.
      destruct (Ascii.eqb_spec c strconv.plus_sign); [contradiction |].
      rewrite <- Heq. apply decimal_value_Sprintf_d.
    + repeat split; intros; try lia.
      destruct sats as [| p | p]; try lia.
      eexists. reflexivity.
Qed.

Lemma substring_length (n : nat) (s : string) :
  String.length (String.substring 0 n s) = Nat.min n (String.length s).
Proof.
  revert s. induction n as [| n IH]; intros [| c s]; cbn; try reflexivity.
  rewrite IH. reflexivity.
Qed.

Lemma substring_prefix (n : nat) (s : string) :
  String.prefix (String.substring 0 n s) s = true.
Proof.
  revert s. induction n as [| n IH]; intros [| c s]; cbn; try reflexivity.
  destruct (Ascii.ascii_dec c c); [apply IH | contradiction].
Qed.

Lemma append_length (a b : string) :
  String.length (a +:+ b) = (String.length a + String.length b)%nat.
Proof. induction a as [| c a IH]; simpl; [reflexivity | f_equal; exact IH]. Qed.

(** X22: for a length limit that is not negative, [truncateString] returns
    a text of at most [maxLen] bytes: the text itself when it fits;
    otherwise, for a limit above 3, its first [maxLen - 3] bytes followed
    by three dots (exactly [maxLen] bytes), and for a limit up to 3 just
    its first [maxLen] bytes.  With a negative limit it panics. *)
Theorem truncateString_bounds (s : string) (maxLen : Z) :
  (0 <= maxLen ->
   exists r,
     main_go.truncateString s maxLen = Some r /\
     len r = Z.min (len s) maxLen /\
     (len s <= maxLen -> r = s) /\
     (maxLen < len s -> maxLen <= 3 ->
      String.prefix r s = true) /\
     (maxLen < len s -> 3 < maxLen ->
      exists head, r = head +:+ "..." /\ String.prefix head s = true /\
                   len head = maxLen - 3)) /\
  (maxLen < 0 -> main_go.truncateString s maxLen = None).
Proof.
  unfold main_go.truncateString, len.
  split.
  - intros Hmax.
    destruct (Z.leb_spec (Z.of_nat (String.length s)) maxLen) as [Hfits | Hlong].
    { exists s. repeat split; try lia; intros; lia. }
    destruct (Z.leb_spec maxLen 3) as [Hsmall | Hbig].
    + destruct (Z.ltb_spec maxLen 0); [lia |].
      eexists. split; [reflexivity |].
      rewrite substring_length.
      repeat split; try lia; intros; try lia.
      apply substring_prefix.
    + eexists. split; [reflexivity |].
      rewrite append_length, substring_length. cbn [String.length].
      repeat split; try lia; intros; try lia.
      eexists. split; [reflexivity |]. split; [apply substring_prefix |].
      rewrite substring_length. lia.
  - intros Hneg.
    destruct (Z.leb_spec (Z.of_nat (String.length s)) maxLen); [lia |].
    destruct (Z.leb_spec maxLen 3); [| lia].
    destruct (Z.ltb_spec maxLen 0); [reflexivity | lia].
Qed.

(** *** package main: commands *)

Lemma Cli_bind_Done {A B} (t : list Event) (a : A) (k : A -> Cli B) :
  mbind k (t, Done a) = (t ++ events (k a), exit (k a)).
Proof. unfold mbind, Cli_bind, events, exit. destruct (k a); reflexivity. Qed.

Lemma Cli_bind_events {A B} (m : Cli A) (k : A -> Cli B) :
  exists rest, events (m ≫= k) = events m ++ rest /\
               (rest = [] \/ exists a, exit m = Done a /\ rest = events (k a)).
Proof.
  destruct m as [t [a | f | r]]; cbn.
  - destruct (k a) as [t' o] eqn:E. exists t'. split; [reflexivity |].
    right. exists a. rewrite E. split; reflexivity.
  - exists []. rewrite app_nil_r. split; [reflexivity | left; reflexivity].
  - exists []. rewrite app_nil_r. split; [reflexivity | left; reflexivity].
Qed.

Lemma Forall_bind {A B} (P : Event -> Prop) (m : Cli A) (k : A -> Cli B) :
  Forall P (events m) -> (forall a, Forall P (events (k a))) ->
  Forall P (events (m ≫= k)).
Proof.
  intros Hm Hk.
  destruct (Cli_bind_events m k) as (rest & -> & [-> | (a & _ & ->)]).
  - rewrite app_nil_r. exact Hm.
  - apply Forall_app. split; [exact Hm | apply Hk].
Qed.

Lemma Forall_foldr {A} (P : Event -> Prop) (f : A -> Cli unit) (l : list A) :
  (forall x, Forall P (events (f x))) ->
  Forall P (events (foldr (fun x rest => _ ← f x; rest) (mret tt) l)).
Proof.
  intros Hf. induction l as [| x l IH]; cbn [foldr].
  - constructor.
  - apply Forall_bind; [apply Hf | intros _; exact IH].
Qed.

Lemma Forall_attempt {A} (P : Event -> Prop) (r : Run A) :
  (forall c, P (facade c)) -> Forall P (events (attempt r)).
Proof.
  intros HP. destruct r as [t [a | e | p]]; cbn;
    apply Forall_fmap; apply Forall_forall; intros c _; apply HP.
Qed.

Lemma Forall_or_fatal {A} (P : Event -> Prop) (text : string) (r : Run A) :
  (forall c, P (facade c)) -> Forall P (events (or_fatal text r)).
Proof.
  intros HP. unfold or_fatal. apply Forall_bind; [by apply Forall_attempt |].
  intros [e | a]; constructor.
Qed.

(** Proves that every event of a command satisfies a property that holds
    of all output and facade events. *)
Ltac all_events :=
  repeat first
    [ assumption
    | apply Forall_foldr; intros ?
    | apply Forall_attempt; intros ?
    | apply Forall_bind; [| intros ?]
    | match goal with
      | |- Forall _ (events (if ?b then _ else _)) => destruct b
      | |- Forall _ (events (match ?x with _ => _ end)) => destruct x
      | |- Forall _ [] => constructor
      | |- Forall _ (_ :: _) => constructor
      | |- Forall _ (events _) =>
          progress (unfold Println, print, tab_print, Flush, fatalf, crash, index;
                    cbn [events fst mret Cli_ret])
      end ].

Section Command_properties.

Variable ToLower : string -> string.
Variable Title : string -> string.
Variable Format : string -> Z -> string.
Variable string_of_PaymentStatus : PaymentStatus -> string.

Local Abbreviation main_switch :=
  (main_go.main_switch ToLower Title Format string_of_PaymentStatus).
Local Abbreviation main := (main_go.main ToLower Title Format string_of_PaymentStatus).

Lemma printUsage_only_prints : only_prints main_go.printUsage.
Proof.
  unfold only_prints, main_go.printUsage.
  apply Forall_foldr. intros line. repeat constructor. eexists; reflexivity.
Qed.

Lemma printUsage_done : exit main_go.printUsage = Done tt.
Proof. reflexivity. Qed.

Lemma main_switch_keeps_connection (args : list string) (command : string)
    (w : wallet.Wallet) (order : list (string * breez_sdk_spark.TokenBalance)) (now : Z) :
  keeps_connection (main_switch args command w order now).
Proof.
  unfold keeps_connection, main_go.main_switch.
  assert (Husage : Forall (fun e => e <> sdk_Disconnect) (events main_go.printUsage)).
  { eapply Forall_impl; [apply printUsage_only_prints |].
    intros e [text ->]. discriminate. }
  repeat match goal with
         | |- Forall _ (events (if ?b then _ else _)) => destruct b
         end;
    try exact Husage.
  - unfold main_go.showBalance. all_events; discriminate.
  - unfold main_go.showTransactions, main_go.main_limit, main_go.showTransactions_row, index.
    all_events; discriminate.
  - all_events; discriminate.
  - unfold main_go.receivePayment, index. all_events; discriminate.
  - all_events; discriminate.
  - unfold main_go.sendPayment, main_go.sendPayment_amount, index.
    all_events; discriminate.
  - all_events; discriminate.
  - unfold main_go.showPayment, index. all_events; discriminate.
  - unfold main_go.showTokens. all_events; discriminate.
  - apply Forall_bind; [repeat constructor; discriminate | intros _; exact Husage].
Qed.

Lemma len_list_lt (args : list string) (i : nat) (a : string) :
  args !! i = Some a -> (len_list args <? Z.of_nat i + 1) = false.
Proof.
  intros H. apply lookup_lt_Some in H. unfold len_list.
  destruct (Z.ltb_spec (Z.of_nat (length args)) (Z.of_nat i + 1)); [lia | reflexivity].
Qed.

(** What a run of [main] is once a command is given and the configuration
    is complete. *)
Lemma main_run (args : list string) (command : string) (dotenv : config.Dotenv)
    (env : gmap string string) (h : Host)
    (order : list (string * breez_sdk_spark.TokenBalance)) (now : Z)
    (cfg : config.Config) :
  args !! 1%nat = Some command ->
  outcome (config.LoadConfig dotenv env) = Return cfg ->
  main args dotenv env h order now =
    match wallet.NewWallet h cfg with
    | (t, Return w) =>
        (dotenv_events dotenv ++ (facade <$> t)
           ++ events (defer_Close (main_switch args command w order now)),
         exit (defer_Close (main_switch args command w order now)))
    | (t, Fail e) =>
        (dotenv_events dotenv ++ (facade <$> t),
         Fatalf (Fatalf_error "Failed to initialize wallet" e))
    | (t, Panic r) => (dotenv_events dotenv ++ (facade <$> t), Crash r)
    end.
Proof.
  intros Hcommand Hcfg. unfold main_go.main.
  assert (Hlen : (len_list args <? 2) = false)
    by apply (len_list_lt args 1 command Hcommand).
  rewrite Hlen.
  unfold index. rewrite Hcommand.
  pose proof (LoadConfig_calls_eq dotenv env) as Hcalls.
  destruct (config.LoadConfig dotenv env) as [t0 o0].
  cbn [outcome calls fst snd] in Hcfg, Hcalls. subst t0 o0.
  unfold or_fatal, attempt, fatalf, dotenv_events.
  cbn [mbind Cli_bind mret Cli_ret].
  destruct (wallet.NewWallet h cfg) as [t [w | e | r]];
    cbn [mbind Cli_bind mret Cli_ret app];
    try (destruct (defer_Close _) as [t1 o1]);
    cbn [events exit fst snd app]; rewrite ?app_nil_r, <- ?(assoc_L (++)); reflexivity.
Qed.

(** X23: without a command, [main] prints the usage text and returns: it
    reads no configuration and makes no call. *)
Theorem main_without_command (args : list string) (dotenv : config.Dotenv)
    (env : gmap string string) (h : Host)
    (order : list (string * breez_sdk_spark.TokenBalance)) (now : Z) :
  (length args < 2)%nat ->
  main args dotenv env h order now = main_go.printUsage /\
  only_prints (main args dotenv env h order now) /\
  exit (main args dotenv env h order now) = Done tt.
Proof.
  intros Hargs. unfold main_go.main, len_list.
  destruct (Z.ltb_spec (Z.of_nat (length args)) 2); [| lia].
  split; [reflexivity |]. split; [apply printUsage_only_prints | reflexivity].
Qed.

(** X24: with a command, whatever it is, [main] first loads the
    configuration and builds the wallet.  When the configuration is
    incomplete the process exits after the load of the file [.env] (and
    the warning about it) and before any other call; otherwise every call
    of [NewWallet] (directory, SDK configuration, connection, the wait)
    follows and comes before anything the command does: also [help] and
    unknown commands connect to the backend first. *)
Theorem main_connects_before_command (args : list string) (command : string)
    (dotenv : config.Dotenv) (env : gmap string string) (h : Host)
    (order : list (string * breez_sdk_spark.TokenBalance)) (now : Z) :
  args !! 1%nat = Some command ->
  (forall e, outcome (config.LoadConfig dotenv env) = Fail e ->
     main args dotenv env h order now =
       (dotenv_events dotenv, Fatalf (Fatalf_error "Failed to load configuration" e))) /\
  (forall cfg, outcome (config.LoadConfig dotenv env) = Return cfg ->
     exists rest,
       events (main args dotenv env h order now) =
         dotenv_events dotenv ++ (facade <$> calls (wallet.NewWallet h cfg)) ++ rest).
Proof.
  intros Hcommand. split.
  - intros e He. unfold main_go.main.
    assert (Hlen : (len_list args <? 2) = false)
    by apply (len_list_lt args 1 command Hcommand).
  rewrite Hlen.
    unfold index. rewrite Hcommand.
    pose proof (LoadConfig_calls_eq dotenv env) as Hcalls.
    destruct (config.LoadConfig dotenv env) as [t0 o0].
    cbn [outcome calls fst snd] in He, Hcalls. subst t0 o0.
    unfold or_fatal, attempt, fatalf, dotenv_events.
    cbn [mbind Cli_bind mret Cli_ret]. rewrite app_nil_r. reflexivity.
  - intros cfg Hcfg.
    rewrite (main_run args command dotenv env h order now cfg Hcommand Hcfg).
    destruct (wallet.NewWallet h cfg) as [t [w | e | r]]; cbn [events calls fst].
    + eexists. reflexivity.
    + exists []. rewrite app_nil_r. reflexivity.
    + exists []. rewrite app_nil_r. reflexivity.
Qed.

Lemma defer_Close_events {A} (m : Cli A) :
  keeps_connection m ->
  (forall f, exit (defer_Close m) = Fatalf f ->
     Forall (fun e => e <> sdk_Disconnect) (events (defer_Close m))) /\
  ((forall f, exit (defer_Close m) <> Fatalf f) ->
     events (defer_Close m) = events m ++ [sdk_Disconnect]).
Proof.
  intros Hm. destruct m as [t [a | f | r]]; cbn; split;
    try (intros f' H; discriminate); try reflexivity.
  - intros f' _. exact Hm.
  - intros H. exfalso. eapply H. reflexivity.
Qed.

(** X25: the deferred [Close] runs exactly when [main] returns or panics.
    A run that ends in [log.Fatalf] never disconnects the SDK instance,
    although it may have connected; a run that built the wallet and does
    not end in [log.Fatalf] disconnects once, as its last event. *)
Theorem main_disconnects (args : list string) (command : string)
    (dotenv : config.Dotenv) (env : gmap string string) (h : Host)
    (order : list (string * breez_sdk_spark.TokenBalance)) (now : Z)
    (cfg : config.Config) (w : wallet.Wallet) :
  args !! 1%nat = Some command ->
  outcome (config.LoadConfig dotenv env) = Return cfg ->
  outcome (wallet.NewWallet h cfg) = Return w ->
  (forall f, exit (main args dotenv env h order now) = Fatalf f ->
     Forall (fun e => e <> sdk_Disconnect) (events (main args dotenv env h order now))) /\
  ((forall f, exit (main args dotenv env h order now) <> Fatalf f) ->
     exists before,
       events (main args dotenv env h order now) = before ++ [sdk_Disconnect] /\
       Forall (fun e => e <> sdk_Disconnect) before).
Proof.
  intros Hcommand Hcfg Hw.
  rewrite (main_run args command dotenv env h order now cfg Hcommand Hcfg).
  destruct (wallet.NewWallet h cfg) as [t o]. cbn [outcome snd] in Hw. subst o.
  pose proof (main_switch_keeps_connection args command w order now) as Hkeeps.
  destruct (defer_Close_events _ Hkeeps) as [Hfatal Hdone].
  assert (Hprefix : Forall (fun e => e <> sdk_Disconnect)
                      (dotenv_events dotenv ++ (facade <$> t))).
  { apply Forall_app. split.
    - unfold dotenv_events. apply Forall_fmap, Forall_forall. intros c _. discriminate.
    - apply Forall_fmap, Forall_forall. intros c _. discriminate. }
  cbn [events exit fst snd]. split.
  - intros f Hf. rewrite app_assoc. apply Forall_app. split; [exact Hprefix |].
    by apply (Hfatal f).
  - intros Hnot. rewrite (Hdone Hnot).
    exists (dotenv_events dotenv ++ (facade <$> t)
              ++ events (main_switch args command w order now)).
    split; [by rewrite !(assoc_L (++)) |].
    rewrite app_assoc. apply Forall_app. split; [exact Hprefix | exact Hkeeps].
Qed.

(** X26: the [send] command with a type and a destination but no amount
    passes the argument check and then panics on the missing fifth
    argument, whatever the type is: also for a Lightning invoice, whose
    amount is not used.  The wallet is connected before and disconnected
    by the deferred [Close]; no payment call is made. *)
Theorem main_send_without_amount (program paymentType destination : string)
    (dotenv : config.Dotenv) (env : gmap string string) (h : Host)
    (order : list (string * breez_sdk_spark.TokenBalance)) (now : Z)
    (cfg : config.Config) (w : wallet.Wallet) (t : list Call) :
  outcome (config.LoadConfig dotenv env) = Return cfg ->
  wallet.NewWallet h cfg = (t, Return w) ->
  main [program; "send"; paymentType; destination] dotenv env h order now =
    (dotenv_events dotenv ++ (facade <$> t) ++ [sdk_Disconnect],
     Crash "runtime error: index out of range [4] with length 4").
Proof.
  intros Hcfg Hw.
  rewrite (main_run [program; "send"; paymentType; destination] "send"
             dotenv env h order now cfg eq_refl Hcfg), Hw.
  reflexivity.
Qed.

(** X27: the [receive] command needs a type and an amount: given fewer
    arguments (as in [receive bitcoin]) it prints its usage lines and
    returns without any receive call, for every type. *)
Theorem main_receive_without_amount (program : string) (rest : list string)
    (dotenv : config.Dotenv) (env : gmap string string) (h : Host)
    (order : list (string * breez_sdk_spark.TokenBalance)) (now : Z)
    (cfg : config.Config) (w : wallet.Wallet) (t : list Call) :
  (length rest < 2)%nat ->
  outcome (config.LoadConfig dotenv env) = Return cfg ->
  wallet.NewWallet h cfg = (t, Return w) ->
  main (program :: "receive" :: rest) dotenv env h order now =
    (dotenv_events dotenv ++ (facade <$> t)
       ++ [stdout ("Usage: tiny-client receive <type> <amount> [description]" +:+ nl);
           stdout ("Types: lightning, bitcoin, spark" +:+ nl);
           sdk_Disconnect],
     Done tt).
Proof.
  intros Hrest Hcfg Hw.
  rewrite (main_run (program :: "receive" :: rest) "receive"
             dotenv env h order now cfg eq_refl Hcfg), Hw.
  unfold main_go.main_switch, len_list. cbn [String.eqb Ascii.eqb Bool.eqb orb length].
  destruct (Z.ltb_spec (Z.of_nat (S (S (length rest)))) 4); [| lia].
  reflexivity.
Qed.

Local Abbreviation receivePayment := (main_go.receivePayment ToLower Title Format).
Local Abbreviation sendPayment :=
  (main_go.sendPayment ToLower Format string_of_PaymentStatus).
Local Abbreviation showTransactions :=
  (main_go.showTransactions Format string_of_PaymentStatus).

(** X28: [receivePayment] parses the amount before it looks at the type.
    For the address types (bitcoin, btc, spark) an amount that does not
    parse ends the process with "Invalid amount" before any call, although
    those types do not use it: any two amounts that parse, with any
    descriptions, give the same run. *)
Theorem receivePayment_address_amount (w : wallet.Wallet) (now : Z)
    (paymentType : string) :
  ToLower paymentType = "bitcoin" \/ ToLower paymentType = "btc" \/
  ToLower paymentType = "spark" ->
  (forall amountStr description err,
      (strconv.ParseUint amountStr).2 = Some err ->
      receivePayment w now paymentType amountStr description =
        ([], Fatalf (Fatalf_NumError "Invalid amount" err))) /\
  (forall amountStr amountStr' description description',
      (strconv.ParseUint amountStr).2 = None ->
      (strconv.ParseUint amountStr').2 = None ->
      receivePayment w now paymentType amountStr description =
      receivePayment w now paymentType amountStr' description').
Proof.
  intros Htype. split.
  - intros amountStr description err Herr. unfold main_go.receivePayment.
    destruct (strconv.ParseUint amountStr) as [amount e]. cbn [snd] in Herr.
    subst e. reflexivity.
  - intros a a' d d' Ha Ha'. unfold main_go.receivePayment.
    destruct (strconv.ParseUint a) as [n e]. cbn [snd] in Ha. subst e.
    destruct (strconv.ParseUint a') as [n' e']. cbn [snd] in Ha'. subst e'.
    destruct Htype as [-> | [-> | ->]]; reflexivity.
Qed.

Lemma showTransactions_row_tabbed (payment : Payment) :
  exists text,
    main_go.showTransactions_row Format
      (wallet.GetTransactions_body string_of_PaymentStatus payment)
    = ([tabbed text], Done tt).
Proof.
  unfold main_go.showTransactions_row, wallet.GetTransactions_body.
  destruct (PaymentType_ payment); cbn;
    try (eexists; reflexivity).
  destruct (0 <? _); eexists; reflexivity.
Qed.

Lemma rows_tabbed (payments : list Payment) :
  exists cells,
    foldr (fun tx rest => _ ← main_go.showTransactions_row Format tx; rest) (mret tt)
          (map (wallet.GetTransactions_body string_of_PaymentStatus) payments)
    = (tabbed <$> cells, Done tt) /\
    length cells = length payments.
Proof.
  induction payments as [| payment rest (cells & IH & Hlen)]; cbn [map foldr].
  - exists []. split; reflexivity.
  - destruct (showTransactions_row_tabbed payment) as [text Hrow].
    exists (text :: cells). rewrite Hrow, IH. split; [reflexivity |].
    cbn [length]. by rewrite Hlen.
Qed.

(** X29: [showTransactions] announces "Last [limit] Transactions" and then
    writes one table row for every entry the backend returned, after the
    two header rows: the table is not cut to [limit], so a limit below 10,
    for which the backend is asked for 100 entries, can show up to 100
    rows. *)
Theorem showTransactions_shows_all (w : wallet.Wallet) (limit : Z)
    (response : ListPaymentsResponse) :
  ListPayments (wallet.sdk w) (wallet.GetTransactions_request limit)
    = (response, no_SdkError) ->
  Payments response <> [] ->
  exists header1 header2 rows,
    showTransactions w limit =
      ([stdout ("Last " +:+ Sprintf_d limit +:+ " Transactions:" +:+ nl);
        stdout ("--------------------" +:+ nl);
        facade (sdk_ListPayments (wallet.GetTransactions_request limit));
        tabbed header1; tabbed header2]
         ++ (tabbed <$> rows) ++ [tab_Flush],
       Done tt) /\
    length rows = length (Payments response).
Proof.
  intros Hanswer Hsome.
  destruct (rows_tabbed (Payments response)) as (cells & Hrows & Hlen).
  unfold main_go.showTransactions, or_fatal, attempt.
  rewrite GetTransactions_run. cbn zeta. rewrite Hanswer. cbn [fst snd].
  assert (Hnonempty :
            (len_list (map (wallet.GetTransactions_body string_of_PaymentStatus)
                           (Payments response)) =? 0) = false).
  { unfold len_list. rewrite length_map.
    destruct (Payments response); [contradiction |]. reflexivity. }
  unfold no_SdkError.
  cbn [mbind Cli_bind mret Cli_ret Println print tab_print Flush fmap list_fmap app
       Repeat String.append].
  rewrite Hnonempty.
  cbn [mbind Cli_bind mret Cli_ret Println print tab_print Flush fmap list_fmap app].
  rewrite Hrows.
  cbn [mbind Cli_bind mret Cli_ret Println print tab_print Flush fmap list_fmap app].
  eexists _, _, cells. split; [reflexivity | exact Hlen].
Qed.

(** X30: for an on-chain or Spark send, [sendPayment] hands whatever
    amount [strconv.ParseInt] accepts to the prepare step: zero and
    negative amounts are not refused on the command line. *)
Theorem sendPayment_forwards_amount (w : wallet.Wallet)
    (paymentType destination amountStr : string) (amount : Z) :
  ToLower paymentType = "bitcoin" \/ ToLower paymentType = "btc" \/
  ToLower paymentType = "spark" ->
  strconv.ParseInt amountStr = (amount, None) ->
  exists rest,
    events (sendPayment w paymentType destination amountStr) =
      facade (sdk_PrepareSendPayment (amount_request destination amount)) :: rest.
Proof.
  intros Htype Hamount. unfold main_go.sendPayment, main_go.sendPayment_amount.
  rewrite Hamount.
  assert (Hbtc : exists t o,
             wallet.SendBitcoinAddress string_of_PaymentStatus w destination amount =
               (sdk_PrepareSendPayment (amount_request destination amount) :: t, o)).
  { unfold wallet.SendBitcoinAddress, Go.big_NewInt, amount_request.
    destruct (PrepareSendPayment _ _) as [resp [| [e |] | ? | ? | ? ?]]; run;
      try (eexists _, _; reflexivity).
    destruct (SendPayment _ _) as [resp' [| [e |] | ? | ? | ? ?]]; run;
      eexists _, _; reflexivity. }
  assert (Hspark : exists t o,
             wallet.SendSparkAddress string_of_PaymentStatus w destination amount =
               (sdk_PrepareSendPayment (amount_request destination amount) :: t, o)).
  { unfold wallet.SendSparkAddress, Go.big_NewInt, amount_request.
    destruct (PrepareSendPayment _ _) as [resp [| [e |] | ? | ? | ? ?]]; run;
      try (eexists _, _; reflexivity).
    destruct (SendPayment _ _) as [resp' [| [e |] | ? | ? | ? ?]]; run;
      eexists _, _; reflexivity. }
  destruct Hbtc as (t1 & o1 & Hbtc). destruct Hspark as (t2 & o2 & Hspark).
  destruct Htype as [-> | [-> | ->]];
    cbn [String.eqb Ascii.eqb Bool.eqb orb mbind Cli_bind mret Cli_ret app];
    rewrite ?Hbtc, ?Hspark; unfold attempt;
    [ destruct o1 as [a | e | r] | destruct o1 as [a | e | r]
    | destruct o2 as [a | e | r] ];
    cbn [mbind Cli_bind mret Cli_ret app fmap list_fmap fatalf events fst];
    eexists; reflexivity.
Qed.

End Command_properties.

(** X23, for the bare program name. *)
Lemma main_without_command_witness :
  cli_examples.main ["tiny-spark"] examples.no_dotenv ∅ samples.host [] 0 = main_go.printUsage /\
  only_prints (cli_examples.main ["tiny-spark"] examples.no_dotenv ∅ samples.host [] 0) /\
  exit (cli_examples.main ["tiny-spark"] examples.no_dotenv ∅ samples.host [] 0) = Done tt.
Proof.
  apply (main_without_command cli_examples.ToLower cli_examples.Title cli_examples.Format
           samples.status_text ["tiny-spark"] examples.no_dotenv ∅ samples.host [] 0).
  cbn. lia.
Defined.

(** X24, for the [help] command. *)
Lemma main_connects_before_command_witness :
  (forall e, outcome (config.LoadConfig examples.no_dotenv examples.env) = Fail e ->
     cli_examples.main ["tiny-spark"; "help"] examples.no_dotenv examples.env samples.host [] 0 =
       (dotenv_events examples.no_dotenv, Fatalf (Fatalf_error "Failed to load configuration" e))) /\
  (forall cfg, outcome (config.LoadConfig examples.no_dotenv examples.env) = Return cfg ->
     exists rest,
       events (cli_examples.main ["tiny-spark"; "help"] examples.no_dotenv examples.env samples.host [] 0) =
         dotenv_events examples.no_dotenv ++ (facade <$> calls (wallet.NewWallet samples.host cfg))
           ++ rest).
Proof.
  apply (main_connects_before_command cli_examples.ToLower cli_examples.Title
           cli_examples.Format samples.status_text
           ["tiny-spark"; "help"] "help" examples.no_dotenv examples.env samples.host [] 0).
  reflexivity.
Defined.

(** X25, for the [tokens] command on a wallet without tokens. *)
Lemma main_disconnects_witness :
  (forall f,
      exit (cli_examples.main ["tiny-spark"; "tokens"] examples.no_dotenv examples.env samples.host [] 0)
        = Fatalf f ->
      Forall (fun e => e <> sdk_Disconnect)
        (events (cli_examples.main ["tiny-spark"; "tokens"] examples.no_dotenv examples.env
                   samples.host [] 0))) /\
  ((forall f,
       exit (cli_examples.main ["tiny-spark"; "tokens"] examples.no_dotenv examples.env samples.host [] 0)
         <> Fatalf f) ->
   exists before,
     events (cli_examples.main ["tiny-spark"; "tokens"] examples.no_dotenv examples.env samples.host [] 0)
       = before ++ [sdk_Disconnect] /\
     Forall (fun e => e <> sdk_Disconnect) before).
Proof.
  apply (main_disconnects cli_examples.ToLower cli_examples.Title cli_examples.Format
           samples.status_text ["tiny-spark"; "tokens"] "tokens" examples.no_dotenv examples.env
           samples.host [] 0 cli_examples.cfg cli_examples.w).
  - reflexivity.
  - vm_compute. reflexivity.
  - vm_compute. reflexivity.
Defined.

(** X26, for a Lightning invoice given without amount. *)
Lemma main_send_without_amount_witness :
  cli_examples.main ["tiny-spark"; "send"; "lightning"; "lnbc1"] examples.no_dotenv examples.env
      samples.host [] 0 =
    (dotenv_events examples.no_dotenv ++ (facade <$> cli_examples.connecting) ++ [sdk_Disconnect],
     Crash "runtime error: index out of range [4] with length 4").
Proof.
  apply (main_send_without_amount cli_examples.ToLower cli_examples.Title
           cli_examples.Format samples.status_text "tiny-spark" "lightning" "lnbc1"
           examples.no_dotenv examples.env samples.host [] 0 cli_examples.cfg cli_examples.w
           cli_examples.connecting).
  - vm_compute. reflexivity.
  - vm_compute. reflexivity.
Defined.

(** X27, for [receive bitcoin]. *)
Lemma main_receive_without_amount_witness :
  cli_examples.main ("tiny-spark" :: "receive" :: ["bitcoin"]) examples.no_dotenv examples.env
      samples.host [] 0 =
    (dotenv_events examples.no_dotenv ++ (facade <$> cli_examples.connecting)
       ++ [stdout ("Usage: tiny-client receive <type> <amount> [description]" +:+ nl);
           stdout ("Types: lightning, bitcoin, spark" +:+ nl);
           sdk_Disconnect],
     Done tt).
Proof.
  apply (main_receive_without_amount cli_examples.ToLower cli_examples.Title
           cli_examples.Format samples.status_text "tiny-spark" ["bitcoin"]
           examples.no_dotenv examples.env samples.host [] 0 cli_examples.cfg cli_examples.w
           cli_examples.connecting).
  - cbn. lia.
  - vm_compute. reflexivity.
  - vm_compute. reflexivity.
Defined.

(** X28, for the type [bitcoin]. *)
Lemma receivePayment_address_amount_witness :
  (forall amountStr description err,
      (strconv.ParseUint amountStr).2 = Some err ->
      main_go.receivePayment cli_examples.ToLower cli_examples.Title cli_examples.Format
          cli_examples.w 0 "bitcoin" amountStr description =
        ([], Fatalf (Fatalf_NumError "Invalid amount" err))) /\
  (forall amountStr amountStr' description description',
      (strconv.ParseUint amountStr).2 = None ->
      (strconv.ParseUint amountStr').2 = None ->
      main_go.receivePayment cli_examples.ToLower cli_examples.Title cli_examples.Format
          cli_examples.w 0 "bitcoin" amountStr description =
      main_go.receivePayment cli_examples.ToLower cli_examples.Title cli_examples.Format
          cli_examples.w 0 "bitcoin" amountStr' description').
Proof.
  apply (receivePayment_address_amount cli_examples.ToLower cli_examples.Title
           cli_examples.Format cli_examples.w 0 "bitcoin").
  left. reflexivity.
Defined.

(** X29, for limit 5 at a backend that returns one payment. *)
Lemma showTransactions_shows_all_witness :
  exists header1 header2 rows,
    main_go.showTransactions cli_examples.Format samples.status_text
        (samples.wallet_on samples.sdk_one_payment) 5 =
      ([stdout ("Last " +:+ Sprintf_d 5 +:+ " Transactions:" +:+ nl);
        stdout ("--------------------" +:+ nl);
        facade (sdk_ListPayments (wallet.GetTransactions_request 5));
        tabbed header1; tabbed header2]
         ++ (tabbed <$> rows) ++ [tab_Flush],
       Done tt) /\
    length rows = length [samples.sent].
Proof.
  apply (showTransactions_shows_all cli_examples.Format samples.status_text
           (samples.wallet_on samples.sdk_one_payment) 5 {| Payments := [samples.sent] |}).
  - reflexivity.
  - discriminate.
Defined.

(** X30, for an on-chain send of "-5". *)
Lemma sendPayment_forwards_amount_witness :
  exists rest,
    events (main_go.sendPayment cli_examples.ToLower cli_examples.Format
              samples.status_text cli_examples.w "bitcoin" "bc1qexample" "-5") =
      facade (sdk_PrepareSendPayment (amount_request "bc1qexample" (-5))) :: rest.
Proof.
  apply (sendPayment_forwards_amount cli_examples.ToLower cli_examples.Format
           samples.status_text cli_examples.w "bitcoin" "bc1qexample" "-5" (-5)).
  - left. reflexivity.
  - vm_compute. reflexivity.
Defined.
